(** * mirrorx/tox: the Go binding around the Tox core, and its specification

    A shallow embedding of [tox.go], [callbacks.go], [types.go] and
    [errors.go].  The native engine (toxcore) is a black box: its header
    constants are the fields of [ToxHeader], its operations the fields of
    [ToxCore], and every statement below holds for any header and any
    engine.  What the Go runtime decides (the largest allocation, which
    func values point into Go memory) is in [GoRuntime], and the statements
    hold for any runtime as well.  The C heap, the Go heap of [Tox] objects
    and the log of calls that cross the cgo boundary are explicit in
    [World]. *)

From Stdlib Require Import ZArith List String Ascii Lia.
From stdpp Require Import base option list gmap strings.
Import ListNotations.

Local Open Scope Z_scope.

(** ** Go data *)

(** A Go [byte] (and a C [uint8_t]). *)
Abbreviation byte := ascii.

(** The NUL byte that terminates a C string. *)
Definition NUL : byte := Ascii.zero.

(** A Go [[]byte]: [None] is the nil slice, [Some []] an empty slice that is
    present.  All that the binding does with a slice is take its length,
    read it and hand it on, so no capacity or sharing is modelled. *)
Definition slice := option (list byte).

Definition len (s : slice) : nat :=
  match s with None => 0%nat | Some l => length l end.

Definition bytes (s : slice) : list byte :=
  match s with None => [] | Some l => l end.

(** The value of [make([]byte, n)] when it has one, a present slice of [n]
    zero bytes, which is also the zero value of an [[n]byte] array.  Whether
    it has one is for the runtime to say: see [makeslice], through which
    the binding allocates a buffer of a size the engine reports. *)
Definition make (n : nat) : slice := Some (replicate n NUL).

(** A Go [switch] on an integer tag with constant cases: the first case equal
    to the tag is taken, [default] when there is none. *)
Fixpoint switch {A : Type} (tag : Z) (cases : list (Z * A)) (default : A) : A :=
  match cases with
  | [] => default
  | (c, body) :: rest => if tag =? c then body else switch tag rest default
  end.

(** ** The Go runtime

    Two of its checks decide how calls of the binding end.

    [make([]T, n)] panics when [n] elements take more than [max_alloc]
    bytes.  The limit depends on the platform and is below [2^63] on all
    of them, so that a [size_t] that no [int] holds is refused as well.

    A call into C checks the Go memory it is handed a pointer to, which
    must hold no pointer into Go memory (the default since Go 1.6), and
    panics with [cgo_check_error] when it does: "runtime error: cgo
    argument has Go pointer to Go pointer", where releases from 1.21 on say
    "unpinned Go pointer".  A func value is such a pointer when it is a
    closure or a method value, and is none when it names a top-level
    function.  What a handler does when it runs does not tell which of the
    two it is, so [heap_func] tells; a runtime that does not check has
    [heap_func] false everywhere. *)
Class GoRuntime := {
  max_alloc : Z;
  heap_func : forall H : Type, H -> bool;
  cgo_check_error : string;

  max_alloc_range : 0 <= max_alloc < 2 ^ 63
}.

(** Whether [n] elements of [element_size] bytes are within the limit. *)
Definition fits `{GoRuntime} (element_size : Z) (n : nat) : bool :=
  Z.of_nat n * element_size <=? max_alloc.

(** The other run-time errors the binding can raise, as [Error()] prints
    them. *)
Definition makeslice_len_out_of_range : string :=
  "runtime error: makeslice: len out of range".

Definition nil_dereference : string :=
  "runtime error: invalid memory address or nil pointer dereference".

(** ** The engine's header, [tox/tox.h]

    cgo turns every enumerator and size macro of the header into a Go
    constant.  Their values belong to the engine build, so they are fields
    here.  The Go compiler refuses a [switch] with two equal constant cases
    and a constant index outside an array, which is where the facts at the
    end of the class come from: the binding contains those switches
    ([callbacks.go], [GoOptions]) and the expression [&publicKey[0]] on a
    [ToxPublicKey]. *)
Class ToxHeader := {
  TOX_PUBLIC_KEY_SIZE : nat;

  TOX_CONNECTION_NONE : Z;
  TOX_CONNECTION_TCP : Z;
  TOX_CONNECTION_UDP : Z;

  TOX_USER_STATUS_NONE : Z;
  TOX_USER_STATUS_AWAY : Z;
  TOX_USER_STATUS_BUSY : Z;

  TOX_MESSAGE_TYPE_NORMAL : Z;
  TOX_MESSAGE_TYPE_ACTION : Z;

  TOX_PROXY_TYPE_NONE : Z;
  TOX_PROXY_TYPE_HTTP : Z;
  TOX_PROXY_TYPE_SOCKS5 : Z;

  TOX_SAVEDATA_TYPE_NONE : Z;
  TOX_SAVEDATA_TYPE_TOX_SAVE : Z;

  TOX_ERR_NEW_OK : Z;
  TOX_ERR_NEW_NULL : Z;
  TOX_ERR_NEW_MALLOC : Z;
  TOX_ERR_NEW_PORT_ALLOC : Z;
  TOX_ERR_NEW_PROXY_BAD_TYPE : Z;
  TOX_ERR_NEW_PROXY_BAD_HOST : Z;
  TOX_ERR_NEW_PROXY_BAD_PORT : Z;
  TOX_ERR_NEW_PROXY_NOT_FOUND : Z;
  TOX_ERR_NEW_LOAD_ENCRYPTED : Z;
  TOX_ERR_NEW_LOAD_BAD_FORMAT : Z;

  TOX_ERR_BOOTSTRAP_OK : Z;
  TOX_ERR_BOOTSTRAP_NULL : Z;
  TOX_ERR_BOOTSTRAP_BAD_HOST : Z;
  TOX_ERR_BOOTSTRAP_BAD_PORT : Z;

  TOX_ERR_SET_INFO_OK : Z;
  TOX_ERR_SET_INFO_NULL : Z;
  TOX_ERR_SET_INFO_TOO_LONG : Z;

  TOX_ERR_FRIEND_ADD_OK : Z;
  TOX_ERR_FRIEND_ADD_NULL : Z;
  TOX_ERR_FRIEND_ADD_TOO_LONG : Z;
  TOX_ERR_FRIEND_ADD_NO_MESSAGE : Z;
  TOX_ERR_FRIEND_ADD_OWN_KEY : Z;
  TOX_ERR_FRIEND_ADD_ALREADY_SENT : Z;
  TOX_ERR_FRIEND_ADD_BAD_CHECKSUM : Z;
  TOX_ERR_FRIEND_ADD_SET_NEW_NOSPAM : Z;
  TOX_ERR_FRIEND_ADD_MALLOC : Z;

  TOX_ERR_FRIEND_DELETE_OK : Z;
  TOX_ERR_FRIEND_DELETE_FRIEND_NOT_FOUND : Z;

  TOX_ERR_FRIEND_QUERY_OK : Z;
  TOX_ERR_FRIEND_QUERY_NULL : Z;
  TOX_ERR_FRIEND_QUERY_FRIEND_NOT_FOUND : Z;

  TOX_ERR_FRIEND_GET_PUBLIC_KEY_OK : Z;
  TOX_ERR_FRIEND_GET_PUBLIC_KEY_FRIEND_NOT_FOUND : Z;

  TOX_ERR_FRIEND_BY_PUBLIC_KEY_OK : Z;
  TOX_ERR_FRIEND_BY_PUBLIC_KEY_NULL : Z;
  TOX_ERR_FRIEND_BY_PUBLIC_KEY_NOT_FOUND : Z;

  TOX_ERR_FRIEND_GET_LAST_ONLINE_OK : Z;
  TOX_ERR_FRIEND_GET_LAST_ONLINE_FRIEND_NOT_FOUND : Z;

  TOX_ERR_FRIEND_SEND_MESSAGE_OK : Z;
  TOX_ERR_FRIEND_SEND_MESSAGE_NULL : Z;
  TOX_ERR_FRIEND_SEND_MESSAGE_FRIEND_NOT_FOUND : Z;
  TOX_ERR_FRIEND_SEND_MESSAGE_FRIEND_NOT_CONNECTED : Z;
  TOX_ERR_FRIEND_SEND_MESSAGE_SENDQ : Z;
  TOX_ERR_FRIEND_SEND_MESSAGE_TOO_LONG : Z;
  TOX_ERR_FRIEND_SEND_MESSAGE_EMPTY : Z;

  TOX_ERR_FRIEND_CUSTOM_PACKET_OK : Z;
  TOX_ERR_FRIEND_CUSTOM_PACKET_NULL : Z;
  TOX_ERR_FRIEND_CUSTOM_PACKET_FRIEND_NOT_FOUND : Z;
  TOX_ERR_FRIEND_CUSTOM_PACKET_FRIEND_NOT_CONNECTED : Z;
  TOX_ERR_FRIEND_CUSTOM_PACKET_INVALID : Z;
  TOX_ERR_FRIEND_CUSTOM_PACKET_EMPTY : Z;
  TOX_ERR_FRIEND_CUSTOM_PACKET_TOO_LONG : Z;
  TOX_ERR_FRIEND_CUSTOM_PACKET_SENDQ : Z;

  public_key_size_pos : (0 < TOX_PUBLIC_KEY_SIZE)%nat;
  connection_cases :
    NoDup [TOX_CONNECTION_NONE; TOX_CONNECTION_TCP; TOX_CONNECTION_UDP];
  user_status_cases :
    NoDup [TOX_USER_STATUS_NONE; TOX_USER_STATUS_AWAY; TOX_USER_STATUS_BUSY];
  message_type_cases :
    NoDup [TOX_MESSAGE_TYPE_NORMAL; TOX_MESSAGE_TYPE_ACTION];
  proxy_type_cases :
    NoDup [TOX_PROXY_TYPE_NONE; TOX_PROXY_TYPE_HTTP; TOX_PROXY_TYPE_SOCKS5]
}.

(** ** [types.go]: enumerated types and constants

    The Go enumerations are named [int] types whose constants come from
    [iota]; a variable of such a type can hold any integer. *)

Definition ToxConnectionStatus := Z.
Definition ToxConnectionNone : ToxConnectionStatus := 0.
Definition ToxConnectionTCP : ToxConnectionStatus := 1.
Definition ToxConnectionUDP : ToxConnectionStatus := 2.

Definition ToxUserStatus := Z.
Definition ToxUserStatusNone : ToxUserStatus := 0.
Definition ToxUserStatusAway : ToxUserStatus := 1.
Definition ToxUserStatusBusy : ToxUserStatus := 2.

Definition ToxMessageType := Z.
Definition ToxMessageTypeNormal : ToxMessageType := 0.
Definition ToxMessageTypeAction : ToxMessageType := 1.

Definition ToxProxyType := Z.
Definition ToxProxyTypeNone : ToxProxyType := 0.
Definition ToxProxyTypeHttp : ToxProxyType := 1.
Definition ToxProxyTypeSocks5 : ToxProxyType := 2.

Definition ToxPublicKeySize `{ToxHeader} : nat := TOX_PUBLIC_KEY_SIZE.

(** ** [errors.go]: error values

    Every package-level error is one value made by [errors.New] when the
    package is loaded; Go compares errors by identity, so two of them with
    the same text are still different errors.  [errors_New] is an error made
    at a call site, and the last two are the errors of [encoding/hex]. *)
Inductive error : Type :=
  | ToxErrOptionsNewMalloc
  | ToxErrNewNull
  | ToxErrNewMalloc
  | ToxErrNewPortAlloc
  | ToxErrNewProxyBadType
  | ToxErrNewProxyBadHost
  | ToxErrNewProxyBadPort
  | ToxErrNewProxyNotFound
  | ToxErrNewLoadEncrypted
  | ToxErrNewLoadBadFormat
  | ToxErrBootstrapNull
  | ToxErrBootstrapBadHost
  | ToxErrBootstrapBadPort
  | ToxErrSetInfoNull
  | ToxErrSetInfoTooLong
  | ToxErrFriendAddNull
  | ToxErrFriendAddTooLong
  | ToxErrFriendAddNoMessage
  | ToxErrFriendAddOwnKey
  | ToxErrFriendAddAlreadySent
  | ToxErrFriendAddBadChecksum
  | ToxErrFriendAddSetNewNoSpam
  | ToxErrFriendAddMalloc
  | ToxErrFriendDeleteFriendNotFound
  | ToxErrFriendByPublicKeyNull
  | ToxErrFriendByPublicKeyNotFound
  | ToxErrFriendGetPublicKeyFriendNotFound
  | ToxErrFriendGetLastOnlineFriendNotFound
  | ToxErrFriendQueryNull
  | ToxErrFriendQueryFriendNotFound
  | ToxErrSetTypingFriendNotFound
  | ToxErrFriendSendMessageNull
  | ToxErrFriendSendMessageFriendNotFound
  | ToxErrFriendSendMessageFriendNotConnected
  | ToxErrFriendSendMessageSendQ
  | ToxErrFriendSendMessageTooLong
  | ToxErrFriendSendMessageEmpty
  | ToxErrFriendCustomPacketNull
  | ToxErrFriendCustomPacketFriendNotFound
  | ToxErrFriendCustomPacketFriendNotConnected
  | ToxErrFriendCustomPacketInvalid
  | ToxErrFriendCustomPacketEmpty
  | ToxErrFriendCustomPacketTooLong
  | ToxErrFriendCustomPacketSendQ
  | ToxErrUnknown
  | errors_New (text : string)
  | hex_ErrLength
  | hex_InvalidByteError (b : byte).

(** ** Translation of the engine's result codes

    Every operation of [tox.go] ends in the same two steps: when the code
    the engine stored in [c_error] is not the family's [OK], a [switch]
    picks the error to throw, with [ToxErrUnknown] as its [default];
    otherwise [throw] keeps its zero value, nil.  One definition per enum
    of the header, each used by the operations that declare a [c_error] of
    that type. *)
Section ErrorTranslation.
Context `{ToxHeader}.

Definition throw_TOX_ERR_NEW (c_error : Z) : option error :=
  if c_error =? TOX_ERR_NEW_OK then None else
  Some (switch c_error
    [ (TOX_ERR_NEW_NULL, ToxErrNewNull);
      (TOX_ERR_NEW_MALLOC, ToxErrNewMalloc);
      (TOX_ERR_NEW_PORT_ALLOC, ToxErrNewPortAlloc);
      (TOX_ERR_NEW_PROXY_BAD_TYPE, ToxErrNewProxyBadType);
      (TOX_ERR_NEW_PROXY_BAD_HOST, ToxErrNewProxyBadHost);
      (TOX_ERR_NEW_PROXY_BAD_PORT, ToxErrNewProxyBadPort);
      (TOX_ERR_NEW_PROXY_NOT_FOUND, ToxErrNewProxyNotFound);
      (TOX_ERR_NEW_LOAD_ENCRYPTED, ToxErrNewLoadEncrypted);
      (TOX_ERR_NEW_LOAD_BAD_FORMAT, ToxErrNewLoadBadFormat) ]
    ToxErrUnknown).

Definition throw_TOX_ERR_BOOTSTRAP (c_error : Z) : option error :=
  if c_error =? TOX_ERR_BOOTSTRAP_OK then None else
  Some (switch c_error
    [ (TOX_ERR_BOOTSTRAP_NULL, ToxErrBootstrapNull);
      (TOX_ERR_BOOTSTRAP_BAD_HOST, ToxErrBootstrapBadHost);
      (TOX_ERR_BOOTSTRAP_BAD_PORT, ToxErrBootstrapBadPort) ]
    ToxErrUnknown).

Definition throw_TOX_ERR_SET_INFO (c_error : Z) : option error :=
  if c_error =? TOX_ERR_SET_INFO_OK then None else
  Some (switch c_error
    [ (TOX_ERR_SET_INFO_NULL, ToxErrSetInfoNull);
      (TOX_ERR_SET_INFO_TOO_LONG, ToxErrSetInfoTooLong) ]
    ToxErrUnknown).

Definition throw_TOX_ERR_FRIEND_ADD (c_error : Z) : option error :=
  if c_error =? TOX_ERR_FRIEND_ADD_OK then None else
  Some (switch c_error
    [ (TOX_ERR_FRIEND_ADD_NULL, ToxErrFriendAddNull);
      (TOX_ERR_FRIEND_ADD_TOO_LONG, ToxErrFriendAddTooLong);
      (TOX_ERR_FRIEND_ADD_NO_MESSAGE, ToxErrFriendAddNoMessage);
      (TOX_ERR_FRIEND_ADD_OWN_KEY, ToxErrFriendAddOwnKey);
      (TOX_ERR_FRIEND_ADD_ALREADY_SENT, ToxErrFriendAddAlreadySent);
      (TOX_ERR_FRIEND_ADD_BAD_CHECKSUM, ToxErrFriendAddBadChecksum);
      (TOX_ERR_FRIEND_ADD_SET_NEW_NOSPAM, ToxErrFriendAddSetNewNoSpam);
      (TOX_ERR_FRIEND_ADD_MALLOC, ToxErrFriendAddMalloc) ]
    ToxErrUnknown).

Definition throw_TOX_ERR_FRIEND_DELETE (c_error : Z) : option error :=
  if c_error =? TOX_ERR_FRIEND_DELETE_OK then None else
  Some (switch c_error
    [ (TOX_ERR_FRIEND_DELETE_FRIEND_NOT_FOUND,
       ToxErrFriendDeleteFriendNotFound) ]
    ToxErrUnknown).

Definition throw_TOX_ERR_FRIEND_QUERY (c_error : Z) : option error :=
  if c_error =? TOX_ERR_FRIEND_QUERY_OK then None else
  Some (switch c_error
    [ (TOX_ERR_FRIEND_QUERY_NULL, ToxErrFriendQueryNull);
      (TOX_ERR_FRIEND_QUERY_FRIEND_NOT_FOUND,
       ToxErrFriendQueryFriendNotFound) ]
    ToxErrUnknown).

Definition throw_TOX_ERR_FRIEND_GET_PUBLIC_KEY (c_error : Z) : option error :=
  if c_error =? TOX_ERR_FRIEND_GET_PUBLIC_KEY_OK then None else
  Some (switch c_error
    [ (TOX_ERR_FRIEND_GET_PUBLIC_KEY_FRIEND_NOT_FOUND,
       ToxErrFriendGetPublicKeyFriendNotFound) ]
    ToxErrUnknown).

Definition throw_TOX_ERR_FRIEND_BY_PUBLIC_KEY (c_error : Z) : option error :=
  if c_error =? TOX_ERR_FRIEND_BY_PUBLIC_KEY_OK then None else
  Some (switch c_error
    [ (TOX_ERR_FRIEND_BY_PUBLIC_KEY_NULL, ToxErrFriendByPublicKeyNull);
      (TOX_ERR_FRIEND_BY_PUBLIC_KEY_NOT_FOUND,
       ToxErrFriendByPublicKeyNotFound) ]
    ToxErrUnknown).

Definition throw_TOX_ERR_FRIEND_GET_LAST_ONLINE (c_error : Z) : option error :=
  if c_error =? TOX_ERR_FRIEND_GET_LAST_ONLINE_OK then None else
  Some (switch c_error
    [ (TOX_ERR_FRIEND_GET_LAST_ONLINE_FRIEND_NOT_FOUND,
       ToxErrFriendGetLastOnlineFriendNotFound) ]
    ToxErrUnknown).

Definition throw_TOX_ERR_FRIEND_SEND_MESSAGE (c_error : Z) : option error :=
  if c_error =? TOX_ERR_FRIEND_SEND_MESSAGE_OK then None else
  Some (switch c_error
    [ (TOX_ERR_FRIEND_SEND_MESSAGE_NULL, ToxErrFriendSendMessageNull);
      (TOX_ERR_FRIEND_SEND_MESSAGE_FRIEND_NOT_FOUND,
       ToxErrFriendSendMessageFriendNotFound);
      (TOX_ERR_FRIEND_SEND_MESSAGE_FRIEND_NOT_CONNECTED,
       ToxErrFriendSendMessageFriendNotConnected);
      (TOX_ERR_FRIEND_SEND_MESSAGE_SENDQ, ToxErrFriendSendMessageSendQ);
      (TOX_ERR_FRIEND_SEND_MESSAGE_TOO_LONG, ToxErrFriendSendMessageTooLong);
      (TOX_ERR_FRIEND_SEND_MESSAGE_EMPTY, ToxErrFriendSendMessageEmpty) ]
    ToxErrUnknown).

Definition throw_TOX_ERR_FRIEND_CUSTOM_PACKET (c_error : Z) : option error :=
  if c_error =? TOX_ERR_FRIEND_CUSTOM_PACKET_OK then None else
  Some (switch c_error
    [ (TOX_ERR_FRIEND_CUSTOM_PACKET_NULL, ToxErrFriendCustomPacketNull);
      (TOX_ERR_FRIEND_CUSTOM_PACKET_FRIEND_NOT_FOUND,
       ToxErrFriendCustomPacketFriendNotFound);
      (TOX_ERR_FRIEND_CUSTOM_PACKET_FRIEND_NOT_CONNECTED,
       ToxErrFriendCustomPacketFriendNotConnected);
      (TOX_ERR_FRIEND_CUSTOM_PACKET_INVALID, ToxErrFriendCustomPacketInvalid);
      (TOX_ERR_FRIEND_CUSTOM_PACKET_EMPTY, ToxErrFriendCustomPacketEmpty);
      (TOX_ERR_FRIEND_CUSTOM_PACKET_TOO_LONG,
       ToxErrFriendCustomPacketTooLong);
      (TOX_ERR_FRIEND_CUSTOM_PACKET_SENDQ, ToxErrFriendCustomPacketSendQ) ]
    ToxErrUnknown).

(** The operation families, by the enum that carries their result code. *)
Inductive Family : Type :=
  | Creation | BootstrapFamily | InfoSet | FriendAddFamily
  | FriendDeleteFamily | FriendQuery | FriendGetPublicKeyFamily
  | FriendByKey | FriendLastOnline | MessageSend | CustomPacketSend.

Definition classify (family : Family) (code : Z) : option error :=
  match family with
  | Creation => throw_TOX_ERR_NEW code
  | BootstrapFamily => throw_TOX_ERR_BOOTSTRAP code
  | InfoSet => throw_TOX_ERR_SET_INFO code
  | FriendAddFamily => throw_TOX_ERR_FRIEND_ADD code
  | FriendDeleteFamily => throw_TOX_ERR_FRIEND_DELETE code
  | FriendQuery => throw_TOX_ERR_FRIEND_QUERY code
  | FriendGetPublicKeyFamily => throw_TOX_ERR_FRIEND_GET_PUBLIC_KEY code
  | FriendByKey => throw_TOX_ERR_FRIEND_BY_PUBLIC_KEY code
  | FriendLastOnline => throw_TOX_ERR_FRIEND_GET_LAST_ONLINE code
  | MessageSend => throw_TOX_ERR_FRIEND_SEND_MESSAGE code
  | CustomPacketSend => throw_TOX_ERR_FRIEND_CUSTOM_PACKET code
  end.

(** The known set of a family, as the specification's table of outcome
    codes lists it: [OK] and the named failures. *)
Definition known_codes (family : Family) : list Z :=
  match family with
  | Creation =>
      [ TOX_ERR_NEW_OK; TOX_ERR_NEW_NULL; TOX_ERR_NEW_MALLOC;
        TOX_ERR_NEW_PORT_ALLOC; TOX_ERR_NEW_PROXY_BAD_TYPE;
        TOX_ERR_NEW_PROXY_BAD_HOST; TOX_ERR_NEW_PROXY_BAD_PORT;
        TOX_ERR_NEW_PROXY_NOT_FOUND; TOX_ERR_NEW_LOAD_ENCRYPTED;
        TOX_ERR_NEW_LOAD_BAD_FORMAT ]
  | BootstrapFamily =>
      [ TOX_ERR_BOOTSTRAP_OK; TOX_ERR_BOOTSTRAP_NULL;
        TOX_ERR_BOOTSTRAP_BAD_HOST; TOX_ERR_BOOTSTRAP_BAD_PORT ]
  | InfoSet =>
      [ TOX_ERR_SET_INFO_OK; TOX_ERR_SET_INFO_NULL;
        TOX_ERR_SET_INFO_TOO_LONG ]
  | FriendAddFamily =>
      [ TOX_ERR_FRIEND_ADD_OK; TOX_ERR_FRIEND_ADD_NULL;
        TOX_ERR_FRIEND_ADD_TOO_LONG; TOX_ERR_FRIEND_ADD_NO_MESSAGE;
        TOX_ERR_FRIEND_ADD_OWN_KEY; TOX_ERR_FRIEND_ADD_ALREADY_SENT;
        TOX_ERR_FRIEND_ADD_BAD_CHECKSUM; TOX_ERR_FRIEND_ADD_SET_NEW_NOSPAM;
        TOX_ERR_FRIEND_ADD_MALLOC ]
  | FriendDeleteFamily =>
      [ TOX_ERR_FRIEND_DELETE_OK; TOX_ERR_FRIEND_DELETE_FRIEND_NOT_FOUND ]
  | FriendQuery =>
      [ TOX_ERR_FRIEND_QUERY_OK; TOX_ERR_FRIEND_QUERY_NULL;
        TOX_ERR_FRIEND_QUERY_FRIEND_NOT_FOUND ]
  | FriendGetPublicKeyFamily =>
      [ TOX_ERR_FRIEND_GET_PUBLIC_KEY_OK;
        TOX_ERR_FRIEND_GET_PUBLIC_KEY_FRIEND_NOT_FOUND ]
  | FriendByKey =>
      [ TOX_ERR_FRIEND_BY_PUBLIC_KEY_OK; TOX_ERR_FRIEND_BY_PUBLIC_KEY_NULL;
        TOX_ERR_FRIEND_BY_PUBLIC_KEY_NOT_FOUND ]
  | FriendLastOnline =>
      [ TOX_ERR_FRIEND_GET_LAST_ONLINE_OK;
        TOX_ERR_FRIEND_GET_LAST_ONLINE_FRIEND_NOT_FOUND ]
  | MessageSend =>
      [ TOX_ERR_FRIEND_SEND_MESSAGE_OK; TOX_ERR_FRIEND_SEND_MESSAGE_NULL;
        TOX_ERR_FRIEND_SEND_MESSAGE_FRIEND_NOT_FOUND;
        TOX_ERR_FRIEND_SEND_MESSAGE_FRIEND_NOT_CONNECTED;
        TOX_ERR_FRIEND_SEND_MESSAGE_SENDQ;
        TOX_ERR_FRIEND_SEND_MESSAGE_TOO_LONG;
        TOX_ERR_FRIEND_SEND_MESSAGE_EMPTY ]
  | CustomPacketSend =>
      [ TOX_ERR_FRIEND_CUSTOM_PACKET_OK; TOX_ERR_FRIEND_CUSTOM_PACKET_NULL;
        TOX_ERR_FRIEND_CUSTOM_PACKET_FRIEND_NOT_FOUND;
        TOX_ERR_FRIEND_CUSTOM_PACKET_FRIEND_NOT_CONNECTED;
        TOX_ERR_FRIEND_CUSTOM_PACKET_INVALID;
        TOX_ERR_FRIEND_CUSTOM_PACKET_EMPTY;
        TOX_ERR_FRIEND_CUSTOM_PACKET_TOO_LONG;
        TOX_ERR_FRIEND_CUSTOM_PACKET_SENDQ ]
  end.
End ErrorTranslation.

(** ** The world across the cgo boundary *)

(** A C pointer to the start of a [malloc]ed block; [None] is [NULL]. *)
Definition cptr := option positive.

(** [struct Tox_Options], with the fields the binding reads or writes. *)
Record C_struct_Tox_Options : Type := {
  ipv6_enabled : bool;
  udp_enabled : bool;
  proxy_type : Z;
  proxy_host : cptr;
  proxy_port : Z;
  start_port : Z;
  end_port : Z;
  tcp_port : Z;
  savedata_type : Z;
  savedata_data : cptr;
  savedata_length : nat
}.

(** The eight event kinds of [callbacks.h]. *)
Inductive EventKind : Type :=
  | self_connection_status | friend_name | friend_request
  | friend_status_message | friend_status | friend_connection_status
  | friend_message | friend_lossless_packet.

(** The C functions the binding calls, as entries of the call log. *)
Inductive CCall : Type :=
  | call_malloc (p : positive) (size : nat)
  | call_free (p : cptr)
  | call_tox_new
  | call_tox_get_savedata_size
  | call_tox_get_savedata
  | call_tox_self_get_name_size
  | call_tox_self_get_name
  | call_tox_self_get_status_message_size
  | call_tox_self_get_status_message
  | call_tox_friend_get_name_size
  | call_tox_friend_get_name
  | call_tox_friend_get_status_message_size
  | call_tox_friend_get_status_message
  | call_tox_friend_send_message
  | call_tox_bootstrap
  | call_register (kind : EventKind).

(** The engine, as the binding sees it: each operation takes the engine's
    state to a new state and to the values it returns or stores through its
    out-parameters.  A [uint8_t *] the engine reads is the byte sequence
    behind it ([None] for [NULL]); one it writes is the byte sequence it
    stores there.  [tox_new] and [tox_bootstrap] are handed pointers into the
    C heap, so they are given the heap to read. *)
Record ToxCore (Engine : Type) : Type := {
  (* handle and TOX_ERR_NEW *)
  tox_new : gmap positive (list byte) -> option C_struct_Tox_Options ->
            Engine -> Engine * (Z * Z);
  tox_get_savedata_size : Z -> Engine -> Engine * nat;
  tox_get_savedata : Z -> Engine -> Engine * list byte;
  tox_self_get_name_size : Z -> Engine -> Engine * nat;
  tox_self_get_name : Z -> bool -> Engine -> Engine * list byte;
  tox_self_get_status_message_size : Z -> Engine -> Engine * nat;
  tox_self_get_status_message : Z -> bool -> Engine -> Engine * list byte;
  (* size and TOX_ERR_FRIEND_QUERY *)
  tox_friend_get_name_size : Z -> Z -> Engine -> Engine * (nat * Z);
  (* bytes stored and TOX_ERR_FRIEND_QUERY; the flag tells whether the
     buffer pointer is not NULL *)
  tox_friend_get_name : Z -> Z -> bool -> Engine -> Engine * (list byte * Z);
  tox_friend_get_status_message_size : Z -> Z -> Engine -> Engine * (nat * Z);
  tox_friend_get_status_message :
    Z -> Z -> bool -> Engine -> Engine * (list byte * Z);
  (* message id and TOX_ERR_FRIEND_SEND_MESSAGE *)
  tox_friend_send_message :
    Z -> Z -> Z -> option (list byte) -> nat -> Engine -> Engine * (Z * Z);
  (* TOX_ERR_BOOTSTRAP *)
  tox_bootstrap : gmap positive (list byte) -> Z -> cptr -> Z -> list byte ->
                Engine -> Engine * Z;
  (* tox_callback_<kind>(tox, callback_<kind>, user_data) *)
  tox_callback : EventKind -> Z -> positive -> Engine -> Engine
}.

Arguments tox_new {Engine}.
Arguments tox_get_savedata_size {Engine}.
Arguments tox_get_savedata {Engine}.
Arguments tox_self_get_name_size {Engine}.
Arguments tox_self_get_name {Engine}.
Arguments tox_self_get_status_message_size {Engine}.
Arguments tox_self_get_status_message {Engine}.
Arguments tox_friend_get_name_size {Engine}.
Arguments tox_friend_get_name {Engine}.
Arguments tox_friend_get_status_message_size {Engine}.
Arguments tox_friend_get_status_message {Engine}.
Arguments tox_friend_send_message {Engine}.
Arguments tox_bootstrap {Engine}.
Arguments tox_callback {Engine}.

(** ** [types.go]: struct types *)

Record ToxOptions : Type := {
  IPv6Enabled : bool;
  UDPEnabled : bool;
  ProxyType : ToxProxyType;
  ProxyHost : string;
  ProxyPort : Z;
  StartPort : Z;
  EndPort : Z;
  TCPPort : Z;
  SaveData : slice
}.

Record SeedNode : Type := {
  Host : string;
  Port : Z;
  PublicKey : string
}.

Section Instance.
(** What running a handler amounts to; the binding never looks at it. *)
Context {Act : Type}.

(** The callback types.  The first argument is the [*Tox] the handler is
    given: the address of the instance on the Go heap. *)
Definition OnSelfConnectionStatus := positive -> ToxConnectionStatus -> Act.
Definition OnFriendRequest := positive -> list byte -> slice -> Act.
Definition OnFriendName := positive -> Z -> slice -> Act.
Definition OnFriendStatus := positive -> Z -> ToxUserStatus -> Act.
Definition OnFriendStatusMessage := positive -> Z -> slice -> Act.
Definition OnFriendConnectionStatus :=
  positive -> Z -> ToxConnectionStatus -> Act.
Definition OnFriendMessage := positive -> Z -> ToxMessageType -> slice -> Act.
Definition OnFriendLosslessPacket := positive -> Z -> slice -> Act.

(** [type Tox struct]; a func value may be nil.  The mutex guards only
    [Process] and the field [userData] is never used: neither is kept. *)
Record Tox : Type := {
  handle : Z;
  onSelfConnectionStatus : option OnSelfConnectionStatus;
  onFriendRequest : option OnFriendRequest;
  onFriendName : option OnFriendName;
  onFriendStatus : option OnFriendStatus;
  onFriendStatusMessage : option OnFriendStatusMessage;
  onFriendConnectionStatus : option OnFriendConnectionStatus;
  onFriendMessage : option OnFriendMessage;
  onFriendLosslessPacket : option OnFriendLosslessPacket
}.

Inductive Event : Type :=
  | Cgo (c : CCall)
  | Handled (a : Act).
End Instance.

Arguments Tox : clear implicits.
Arguments Event : clear implicits.

Record World (Engine Act : Type) : Type := {
  engine : Engine;
  cheap : gmap positive (list byte);
  goheap : gmap positive (Tox Act);
  log : list (Event Act)
}.

Arguments engine {Engine Act}.
Arguments cheap {Engine Act}.
Arguments goheap {Engine Act}.
Arguments log {Engine Act}.

(** How a call ends: it returns, it panics (a Go run-time panic, which
    nothing in the binding recovers), or it faults, when C code is handed a
    pointer to memory that is not there. *)
Inductive Outcome (W A : Type) : Type :=
  | Returns (a : A) (w : W)
  | Panics (msg : string) (w : W)
  | Faults.

Arguments Returns {W A}.
Arguments Panics {W A}.
Arguments Faults {W A}.

Section Monad.
Context {Engine Act : Type}.

Definition M (A : Type) : Type := World Engine Act -> Outcome (World Engine Act) A.

Definition ret {A} (a : A) : M A := fun w => Returns a w.

Definition bind {A B} (m : M A) (k : A -> M B) : M B :=
  fun w =>
    match m w with
    | Returns a w' => k a w'
    | Panics msg w' => Panics msg w'
    | Faults => Faults
    end.

Definition panic {A} (msg : string) : M A := fun w => Panics msg w.
End Monad.

Declare Scope go_scope.
Delimit Scope go_scope with go.
Notation "x <- m ;; k" := (bind m (fun x => k))
  (at level 100, m at next level, right associativity) : go_scope.
Notation "m ;;; k" := (bind m (fun _ => k))
  (at level 100, right associativity) : go_scope.
Local Open Scope go_scope.

(** ** [encoding/hex] of the Go standard library, as [Bootstrap] uses it

    The library of the Go releases the binding was written for.  Later
    releases also hand back the bytes decoded before an error; [Bootstrap]
    looks at the error first and never at those bytes. *)

Definition fromHexChar (c : byte) : option N :=
  let n := N_of_ascii c in
  if ((48 <=? n) && (n <=? 57))%N then Some (n - 48)%N
  else if ((97 <=? n) && (n <=? 102))%N then Some (n - 97 + 10)%N
  else if ((65 <=? n) && (n <=? 70))%N then Some (n - 65 + 10)%N
  else None.

(** The loop of [hex.Decode], two characters for a byte. *)
Fixpoint hex_Decode_loop (src : list byte) : list byte * option error :=
  match src with
  | p :: q :: rest =>
      match fromHexChar p with
      | None => ([], Some (hex_InvalidByteError p))
      | Some a =>
          match fromHexChar q with
          | None => ([], Some (hex_InvalidByteError q))
          | Some b =>
              let '(dst, err) := hex_Decode_loop rest in
              (ascii_of_N (a * 16 + b) :: dst, err)
          end
      end
  | _ => ([], None)
  end.

(** [hex.DecodeString]: an odd length is [ErrLength]; the slice is nil
    whenever the error is not. *)
Definition hex_DecodeString (s : string) : slice * option error :=
  let src := list_ascii_of_string s in
  if Nat.odd (length src) then (None, Some hex_ErrLength)
  else
    match hex_Decode_loop src with
    | (dst, None) => (Some dst, None)
    | (_, Some err) => (None, Some err)
    end.

(** ** The binding *)

Section Binding.
Context {hdr : ToxHeader} {rt : GoRuntime} {Engine Act : Type}.
Context (core : ToxCore Engine).

Local Abbreviation World := (World Engine Act).
Local Abbreviation M := (@M Engine Act).

(** *** Primitives *)

Definition record (c : CCall) (w : World) : World :=
  {| engine := engine w; cheap := cheap w; goheap := goheap w;
     log := log w ++ [Cgo c] |}.

(** A call into the engine: it is logged, and the engine moves on. *)
Definition call {A} (c : CCall) (op : Engine -> Engine * A) : M A :=
  fun w =>
    let '(e, a) := op (engine w) in
    Returns a {| engine := e; cheap := cheap w; goheap := goheap w;
                 log := log w ++ [Cgo c] |}.

(** The handler runs (synchronously, inside the trampoline). *)
Definition invoke (a : Act) : M unit :=
  fun w =>
    Returns tt {| engine := engine w; cheap := cheap w; goheap := goheap w;
                  log := log w ++ [Handled a] |}.

(** [C.malloc(size)]: a block that was not allocated before.  cgo's
    [C.malloc] never returns [NULL] (it asks for one byte when [size] is
    zero, and stops the program when memory runs out, which is not
    modelled). *)
Definition C_malloc (size : nat) : M positive :=
  fun w =>
    let p := fresh (dom (cheap w)) in
    Returns p {| engine := engine w;
                 cheap := <[p := replicate size NUL]> (cheap w);
                 goheap := goheap w;
                 log := log w ++ [Cgo (call_malloc p size)] |}.

(** [C.free(p)]: nothing for [NULL]; a fault for a pointer that is not the
    start of a live block. *)
Definition C_free (p : cptr) : M unit :=
  fun w =>
    match p with
    | None => Returns tt (record (call_free p) w)
    | Some a =>
        match cheap w !! a with
        | Some _ =>
            Returns tt {| engine := engine w; cheap := delete a (cheap w);
                          goheap := goheap w;
                          log := log w ++ [Cgo (call_free p)] |}
        | None => Faults
        end
    end.

(** The store through [arrayPtr] in [slice2array]: byte [i] of block [p]. *)
Definition C_store (p : positive) (i : nat) (b : byte) : M unit :=
  fun w =>
    match cheap w !! p with
    | Some block =>
        if decide (i < length block)%nat then
          Returns tt {| engine := engine w;
                        cheap := <[p := <[i := b]> block]> (cheap w);
                        goheap := goheap w; log := log w |}
        else Faults
    | None => Faults
    end.

(** The load through [arrayPtr] in [array2slice]: byte [i] from [p]. *)
Definition C_load (p : cptr) (i : nat) : M byte :=
  fun w =>
    match p with
    | None => Faults
    | Some a =>
        match cheap w !! a with
        | Some block =>
            match block !! i with
            | Some b => Returns b w
            | None => Faults
            end
        | None => Faults
        end
    end.

(** *** Utilities *)

(** The loop of [slice2array], from index [i] on. *)
Fixpoint slice2array_loop (p : positive) (i : nat) (rest : list byte)
  : M unit :=
  match rest with
  | [] => ret tt
  | b :: rest' => C_store p i b ;;; slice2array_loop p (S i) rest'
  end.

(** Convert a byte slice to a C array. *)
Definition slice2array (s : slice) : M cptr :=
  let size := len s in
  array <- C_malloc size ;;
  slice2array_loop array 0 (bytes s) ;;;
  ret (Some array).

(** The loop of [array2slice]: [size - i] more bytes, from index [i] on. *)
Fixpoint array2slice_loop (array : cptr) (i : nat) (remaining : nat)
  : M (list byte) :=
  match remaining with
  | O => ret []
  | S remaining' =>
      b <- C_load array i ;;
      tail <- array2slice_loop array (S i) remaining' ;;
      ret (b :: tail)
  end.

(** Convert a C array to a byte slice. *)
Definition array2slice (array : cptr) (size : nat) : M slice :=
  l <- array2slice_loop array 0 size ;;
  ret (Some l).

(** The bytes of a C string: those before the first NUL; [None] when the
    block holds no NUL. *)
Fixpoint strbytes (block : list byte) : option (list byte) :=
  match block with
  | [] => None
  | b :: rest =>
      if Ascii.eqb b NUL then Some []
      else match strbytes rest with
           | Some l => Some (b :: l)
           | None => None
           end
  end.

(** [C.CString(s)]: a [malloc]ed copy of the bytes of [s] and a NUL. *)
Definition C_CString (s : string) : M cptr :=
  let block := list_ascii_of_string s ++ [NUL] in
  p <- C_malloc (length block) ;;
  slice2array_loop p 0 block ;;;
  ret (Some p).

(** [C.GoString(p)]: the empty string for [NULL], else the bytes up to the
    first NUL. *)
Definition C_GoString (p : cptr) : M string :=
  fun w =>
    match p with
    | None => Returns EmptyString w
    | Some a =>
        match cheap w !! a with
        | Some block =>
            match strbytes block with
            | Some l => Returns (string_of_list_ascii l) w
            | None => Faults
            end
        | None => Faults
        end
    end.
(** The C heap as it is now, for an engine call that reads it. *)
Definition C_heap : M (gmap positive (list byte)) :=
  fun w => Returns (cheap w) w.

(** [defer deferred] followed by [body]: the deferred call runs when the
    function is left, by a return or by a panic. *)
Definition defer {A} (deferred : M unit) (body : M A) : M A :=
  fun w =>
    match body w with
    | Returns a w' =>
        match deferred w' with
        | Returns _ w'' => Returns a w''
        | Panics msg w'' => Panics msg w''
        | Faults => Faults
        end
    | Panics msg w' =>
        match deferred w' with
        | Returns _ w'' => Panics msg w''
        | Panics msg' w'' => Panics msg' w''
        | Faults => Faults
        end
    | Faults => Faults
    end.

(** [&Tox{...}]: a new object on the Go heap. *)
Definition new_Tox (t : Tox Act) : M positive :=
  fun w =>
    let a := fresh (dom (goheap w)) in
    Returns a {| engine := engine w; cheap := cheap w;
                 goheap := <[a := t]> (goheap w); log := log w |}.

(** Reading a field through a [*Tox]: a pointer to no object is nil. *)
Definition load (tox : positive) : M (Tox Act) :=
  fun w =>
    match goheap w !! tox with
    | Some t => Returns t w
    | None => Panics nil_dereference w
    end.

(** Writing the object behind a [*Tox]. *)
Definition store (tox : positive) (t : Tox Act) : M unit :=
  fun w =>
    Returns tt {| engine := engine w; cheap := cheap w;
                  goheap := <[tox := t]> (goheap w); log := log w |}.

(** [make([]T, n)] for elements of [element_size] bytes; [zeroed] is the
    slice of [n] zero values. *)
Definition makeslice {A} (element_size : Z) (n : nat) (zeroed : A) : M A :=
  if fits element_size n then ret zeroed
  else panic makeslice_len_out_of_range.

(** What a Go buffer holds after the engine stored [written] through a
    pointer to its first byte: the engine's contract is to stay inside the
    buffer, whose length does not change. *)
Definition fill (buffer : slice) (written : list byte) : slice :=
  Some (take (len buffer)
             (written ++ drop (length written) (bytes buffer))).

(** *** Startup options *)

(** Convert startup options from C to Go. *)
Definition GoOptions (c_options : option C_struct_Tox_Options)
  : M (option ToxOptions * option error) :=
  match c_options with
  | None => panic nil_dereference
  | Some c =>
      match switch (proxy_type c)
              [ (TOX_PROXY_TYPE_NONE, Some ToxProxyTypeNone);
                (TOX_PROXY_TYPE_HTTP, Some ToxProxyTypeHttp);
                (TOX_PROXY_TYPE_SOCKS5, Some ToxProxyTypeSocks5) ]
              None
      with
      | None => ret (None, Some (errors_New "unknown proxy type"))
      | Some proxyType =>
          proxyHost <- C_GoString (proxy_host c) ;;
          saveData <- array2slice (savedata_data c) (savedata_length c) ;;
          ret (Some {| IPv6Enabled := ipv6_enabled c;
                       UDPEnabled := udp_enabled c;
                       ProxyType := proxyType;
                       ProxyHost := proxyHost;
                       ProxyPort := proxy_port c;
                       StartPort := start_port c;
                       EndPort := end_port c;
                       TCPPort := tcp_port c;
                       SaveData := saveData |}, None)
      end
  end.

(** Convert startup options from Go to C.  The result holds two C heap
    blocks that the caller must free. *)
Definition COptions (options : ToxOptions)
  : M (option C_struct_Tox_Options * option error) :=
  match switch (ProxyType options)
          [ (ToxProxyTypeNone, Some TOX_PROXY_TYPE_NONE);
            (ToxProxyTypeHttp, Some TOX_PROXY_TYPE_HTTP);
            (ToxProxyTypeSocks5, Some TOX_PROXY_TYPE_SOCKS5) ]
          None
  with
  | None => ret (None, Some (errors_New "unknown proxy type"))
  | Some c_proxy_type =>
      c_proxy_host <- C_CString (ProxyHost options) ;;
      let length := len (SaveData options) in
      let c_savedata_type :=
        if (length =? 0)%nat then TOX_SAVEDATA_TYPE_NONE
        else TOX_SAVEDATA_TYPE_TOX_SAVE in
      c_savedata_data <- slice2array (SaveData options) ;;
      ret (Some {| ipv6_enabled := IPv6Enabled options;
                   udp_enabled := UDPEnabled options;
                   proxy_type := c_proxy_type;
                   proxy_host := c_proxy_host;
                   proxy_port := ProxyPort options;
                   start_port := StartPort options;
                   end_port := EndPort options;
                   tcp_port := TCPPort options;
                   savedata_type := c_savedata_type;
                   savedata_data := c_savedata_data;
                   savedata_length := length |}, None)
  end.

(** Free all resources associated with a startup options object. *)
Definition FreeOptions (c_options : option C_struct_Tox_Options) : M unit :=
  match c_options with
  | None => panic nil_dereference
  | Some c =>
      C_free (proxy_host c) ;;;
      C_free (savedata_data c)
  end.

(** *** Instance lifecycle *)

(** [New] from the call of [tox_new] on: both branches of the [if]. *)
Definition New_create (c_options : option C_struct_Tox_Options)
  : M (option positive * option error) :=
  heap <- C_heap ;;
  r <- call call_tox_new (tox_new core heap c_options) ;;
  let '(c_tox, c_error) := r in
  match throw_TOX_ERR_NEW c_error with
  | Some throw => ret (None, Some throw)
  | None =>
      tox <- new_Tox {| handle := c_tox;
                        onSelfConnectionStatus := None;
                        onFriendRequest := None;
                        onFriendName := None;
                        onFriendStatus := None;
                        onFriendStatusMessage := None;
                        onFriendConnectionStatus := None;
                        onFriendMessage := None;
                        onFriendLosslessPacket := None |} ;;
      ret (Some tox, None)
  end.

(** Create or restore a Tox instance; with nil options the engine's
    defaults are used. *)
Definition New (options : option ToxOptions)
  : M (option positive * option error) :=
  match options with
  | Some o =>
      r <- COptions o ;;
      let '(c_options, throw) := r in
      match throw with
      | Some _ => ret (None, throw)
      | None => defer (FreeOptions c_options) (New_create c_options)
      end
  | None => New_create None
  end.

(** Serialize a Tox instance. *)
Definition Serialize (tox : positive) : M slice :=
  t <- load tox ;;
  c_length <- call call_tox_get_savedata_size
                (tox_get_savedata_size core (handle t)) ;;
  data <- makeslice 1 c_length (make c_length) ;;
  if (0 <? c_length)%nat then
    written <- call call_tox_get_savedata
                 (tox_get_savedata core (handle t)) ;;
    ret (fill data written)
  else ret data.

(** *** Client state *)

(** Get the name of the Tox client. *)
Definition GetName (tox : positive) : M slice :=
  t <- load tox ;;
  c_length <- call call_tox_self_get_name_size
                (tox_self_get_name_size core (handle t)) ;;
  name <- makeslice 1 c_length (make c_length) ;;
  let c_name := (0 <? c_length)%nat in
  written <- call call_tox_self_get_name
               (tox_self_get_name core (handle t) c_name) ;;
  ret (if c_name then fill name written else name).

(** Get the status message of the Tox client. *)
Definition GetStatusMessage (tox : positive) : M slice :=
  t <- load tox ;;
  c_length <- call call_tox_self_get_status_message_size
                (tox_self_get_status_message_size core (handle t)) ;;
  message <- makeslice 1 c_length (make c_length) ;;
  let c_message := (0 <? c_length)%nat in
  written <- call call_tox_self_get_status_message
               (tox_self_get_status_message core (handle t) c_message) ;;
  ret (if c_message then fill message written else message).
(** *** Callback functions: registration *)

(** Whether a func field holds a pointer into Go memory. *)
Definition heap_slot {H : Type} (slot : option H) : bool :=
  match slot with
  | Some h => heap_func H h
  | None => false
  end.

(** Whether a [Tox] object holds one.  Its other fields do not: [handle]
    points to C memory, [lock] holds no pointer and [userData] is never
    set. *)
Definition holds_go_pointer (t : Tox Act) : bool :=
  heap_slot (onSelfConnectionStatus t) ||
  heap_slot (onFriendRequest t) ||
  heap_slot (onFriendName t) ||
  heap_slot (onFriendStatus t) ||
  heap_slot (onFriendStatusMessage t) ||
  heap_slot (onFriendConnectionStatus t) ||
  heap_slot (onFriendMessage t) ||
  heap_slot (onFriendLosslessPacket t).

(** cgo's check of the argument [unsafe.Pointer(tox)], before the C
    function is entered; a nil pointer passes. *)
Definition cgoCheckPointer (tox : positive) : M unit :=
  fun w =>
    match goheap w !! tox with
    | Some t =>
        if holds_go_pointer t then Panics cgo_check_error w
        else Returns tt w
    | None => Returns tt w
    end.

(** [C.register_<kind>(tox.handle, unsafe.Pointer(tox))]: the check, then
    the C helper of [callbacks.h]. *)
Definition register (kind : EventKind) (c_tox : Z) (t : positive) : M unit :=
  cgoCheckPointer t ;;;
  call (call_register kind)
       (fun e => (tox_callback core kind c_tox t e, tt)).

Definition SetOnSelfConnectionStatus (tox : positive)
  (callback : option (@OnSelfConnectionStatus Act)) : M unit :=
  t <- load tox ;;
  store tox {| handle := handle t;
               onSelfConnectionStatus := callback;
               onFriendRequest := onFriendRequest t;
               onFriendName := onFriendName t;
               onFriendStatus := onFriendStatus t;
               onFriendStatusMessage := onFriendStatusMessage t;
               onFriendConnectionStatus := onFriendConnectionStatus t;
               onFriendMessage := onFriendMessage t;
               onFriendLosslessPacket := onFriendLosslessPacket t |} ;;;
  register self_connection_status (handle t) tox.

Definition SetOnFriendRequest (tox : positive)
  (callback : option (@OnFriendRequest Act)) : M unit :=
  t <- load tox ;;
  store tox {| handle := handle t;
               onSelfConnectionStatus := onSelfConnectionStatus t;
               onFriendRequest := callback;
               onFriendName := onFriendName t;
               onFriendStatus := onFriendStatus t;
               onFriendStatusMessage := onFriendStatusMessage t;
               onFriendConnectionStatus := onFriendConnectionStatus t;
               onFriendMessage := onFriendMessage t;
               onFriendLosslessPacket := onFriendLosslessPacket t |} ;;;
  register friend_request (handle t) tox.

Definition SetOnFriendName (tox : positive)
  (callback : option (@OnFriendName Act)) : M unit :=
  t <- load tox ;;
  store tox {| handle := handle t;
               onSelfConnectionStatus := onSelfConnectionStatus t;
               onFriendRequest := onFriendRequest t;
               onFriendName := callback;
               onFriendStatus := onFriendStatus t;
               onFriendStatusMessage := onFriendStatusMessage t;
               onFriendConnectionStatus := onFriendConnectionStatus t;
               onFriendMessage := onFriendMessage t;
               onFriendLosslessPacket := onFriendLosslessPacket t |} ;;;
  register friend_name (handle t) tox.

Definition SetOnFriendStatus (tox : positive)
  (callback : option (@OnFriendStatus Act)) : M unit :=
  t <- load tox ;;
  store tox {| handle := handle t;
               onSelfConnectionStatus := onSelfConnectionStatus t;
               onFriendRequest := onFriendRequest t;
               onFriendName := onFriendName t;
               onFriendStatus := callback;
               onFriendStatusMessage := onFriendStatusMessage t;
               onFriendConnectionStatus := onFriendConnectionStatus t;
               onFriendMessage := onFriendMessage t;
               onFriendLosslessPacket := onFriendLosslessPacket t |} ;;;
  register friend_status (handle t) tox.

Definition SetOnFriendStatusMessage (tox : positive)
  (callback : option (@OnFriendStatusMessage Act)) : M unit :=
  t <- load tox ;;
  store tox {| handle := handle t;
               onSelfConnectionStatus := onSelfConnectionStatus t;
               onFriendRequest := onFriendRequest t;
               onFriendName := onFriendName t;
               onFriendStatus := onFriendStatus t;
               onFriendStatusMessage := callback;
               onFriendConnectionStatus := onFriendConnectionStatus t;
               onFriendMessage := onFriendMessage t;
               onFriendLosslessPacket := onFriendLosslessPacket t |} ;;;
  register friend_status_message (handle t) tox.

Definition SetOnFriendConnectionStatus (tox : positive)
  (callback : option (@OnFriendConnectionStatus Act)) : M unit :=
  t <- load tox ;;
  store tox {| handle := handle t;
               onSelfConnectionStatus := onSelfConnectionStatus t;
               onFriendRequest := onFriendRequest t;
               onFriendName := onFriendName t;
               onFriendStatus := onFriendStatus t;
               onFriendStatusMessage := onFriendStatusMessage t;
               onFriendConnectionStatus := callback;
               onFriendMessage := onFriendMessage t;
               onFriendLosslessPacket := onFriendLosslessPacket t |} ;;;
  register friend_connection_status (handle t) tox.

Definition SetOnFriendMessage (tox : positive)
  (callback : option (@OnFriendMessage Act)) : M unit :=
  t <- load tox ;;
  store tox {| handle := handle t;
               onSelfConnectionStatus := onSelfConnectionStatus t;
               onFriendRequest := onFriendRequest t;
               onFriendName := onFriendName t;
               onFriendStatus := onFriendStatus t;
               onFriendStatusMessage := onFriendStatusMessage t;
               onFriendConnectionStatus := onFriendConnectionStatus t;
               onFriendMessage := callback;
               onFriendLosslessPacket := onFriendLosslessPacket t |} ;;;
  register friend_message (handle t) tox.

Definition SetOnFriendLosslessPacket (tox : positive)
  (callback : option (@OnFriendLosslessPacket Act)) : M unit :=
  t <- load tox ;;
  store tox {| handle := handle t;
               onSelfConnectionStatus := onSelfConnectionStatus t;
               onFriendRequest := onFriendRequest t;
               onFriendName := onFriendName t;
               onFriendStatus := onFriendStatus t;
               onFriendStatusMessage := onFriendStatusMessage t;
               onFriendConnectionStatus := onFriendConnectionStatus t;
               onFriendMessage := onFriendMessage t;
               onFriendLosslessPacket := callback |} ;;;
  register friend_lossless_packet (handle t) tox.

(** *** [callbacks.go]: the trampolines

    The engine calls a trampoline with the user data it was registered
    with, the address of the instance.  A [switch] whose [default] panics
    is a decoder into [option]; calling a nil func value panics. *)

Definition call_handler {H : Type} (slot : option H) (run : H -> Act)
  : M unit :=
  match slot with
  | Some h => invoke (run h)
  | None => panic nil_dereference
  end.

(** [make([]byte, c_length)] and the [memcpy] out of the engine's buffer,
    which holds [c_length] bytes: the length of memory that is there. *)
Definition copy_out (c_data : list byte) : slice := Some c_data.

Definition callback_self_connection_status
  (c_connection_status : Z) (c_user_data : positive) : M unit :=
  let tox := c_user_data in
  match switch c_connection_status
          [ (TOX_CONNECTION_NONE, Some ToxConnectionNone);
            (TOX_CONNECTION_TCP, Some ToxConnectionTCP);
            (TOX_CONNECTION_UDP, Some ToxConnectionUDP) ]
          None
  with
  | None => panic "unknown connection status"
  | Some connectionStatus =>
      t <- load tox ;;
      call_handler (onSelfConnectionStatus t)
                   (fun h => h tox connectionStatus)
  end.

Definition callback_friend_name
  (c_friend_number : Z) (c_name : list byte) (c_user_data : positive)
  : M unit :=
  let tox := c_user_data in
  let friendNumber := c_friend_number in
  let name := copy_out c_name in
  t <- load tox ;;
  call_handler (onFriendName t) (fun h => h tox friendNumber name).

Definition callback_friend_request
  (c_public_key : list byte) (c_message : list byte) (c_user_data : positive)
  : M unit :=
  let tox := c_user_data in
  let message := copy_out c_message in
  let publicKey := take ToxPublicKeySize c_public_key in
  t <- load tox ;;
  call_handler (onFriendRequest t) (fun h => h tox publicKey message).

Definition callback_friend_status_message
  (c_friend_number : Z) (c_message : list byte) (c_user_data : positive)
  : M unit :=
  let tox := c_user_data in
  let friendNumber := c_friend_number in
  let message := copy_out c_message in
  t <- load tox ;;
  call_handler (onFriendStatusMessage t) (fun h => h tox friendNumber message).

Definition callback_friend_status
  (c_friend_number : Z) (c_user_status : Z) (c_user_data : positive)
  : M unit :=
  let tox := c_user_data in
  let friendNumber := c_friend_number in
  match switch c_user_status
          [ (TOX_USER_STATUS_NONE, Some ToxUserStatusNone);
            (TOX_USER_STATUS_AWAY, Some ToxUserStatusAway);
            (TOX_USER_STATUS_BUSY, Some ToxUserStatusBusy) ]
          None
  with
  | None => panic "unknown user status"
  | Some userStatus =>
      t <- load tox ;;
      call_handler (onFriendStatus t) (fun h => h tox friendNumber userStatus)
  end.

Definition callback_friend_connection_status
  (c_friend_number : Z) (c_connection_status : Z) (c_user_data : positive)
  : M unit :=
  let tox := c_user_data in
  let friendNumber := c_friend_number in
  match switch c_connection_status
          [ (TOX_CONNECTION_NONE, Some ToxConnectionNone);
            (TOX_CONNECTION_TCP, Some ToxConnectionTCP);
            (TOX_CONNECTION_UDP, Some ToxConnectionUDP) ]
          None
  with
  | None => panic "unknown connection status"
  | Some connectionStatus =>
      t <- load tox ;;
      call_handler (onFriendConnectionStatus t)
                   (fun h => h tox friendNumber connectionStatus)
  end.

Definition callback_friend_message
  (c_friend_number : Z) (c_message_type : Z) (c_message : list byte)
  (c_user_data : positive) : M unit :=
  let tox := c_user_data in
  let friendNumber := c_friend_number in
  match switch c_message_type
          [ (TOX_MESSAGE_TYPE_NORMAL, Some ToxMessageTypeNormal);
            (TOX_MESSAGE_TYPE_ACTION, Some ToxMessageTypeAction) ]
          None
  with
  | None => panic "unknown message type"
  | Some messageType =>
      let message := copy_out c_message in
      t <- load tox ;;
      call_handler (onFriendMessage t)
                   (fun h => h tox friendNumber messageType message)
  end.

Definition callback_friend_lossless_packet
  (c_friend_number : Z) (c_data : list byte) (c_user_data : positive)
  : M unit :=
  let tox := c_user_data in
  let friendNumber := c_friend_number in
  let data := copy_out c_data in
  t <- load tox ;;
  call_handler (onFriendLosslessPacket t) (fun h => h tox friendNumber data).
(** *** Friend state *)

(** Get the name of a friend. *)
Definition FriendGetName (tox : positive) (friendNumber : Z)
  : M (slice * option error) :=
  let c_friend_number := friendNumber in
  t <- load tox ;;
  r <- call call_tox_friend_get_name_size
         (tox_friend_get_name_size core (handle t) c_friend_number) ;;
  let '(c_length, c_error) := r in
  match throw_TOX_ERR_FRIEND_QUERY c_error with
  | Some throw => ret (None, Some throw)
  | None =>
      name <- makeslice 1 c_length (make c_length) ;;
      let c_name := (0 <? c_length)%nat in
      r <- call call_tox_friend_get_name
             (tox_friend_get_name core (handle t) c_friend_number c_name) ;;
      let '(written, c_error) := r in
      let name := if c_name then fill name written else name in
      match throw_TOX_ERR_FRIEND_QUERY c_error with
      | Some throw => ret (None, Some throw)
      | None => ret (name, None)
      end
  end.

(** Get the status message of a friend. *)
Definition FriendGetStatusMessage (tox : positive) (friendNumber : Z)
  : M (slice * option error) :=
  let c_friend_number := friendNumber in
  t <- load tox ;;
  r <- call call_tox_friend_get_status_message_size
         (tox_friend_get_status_message_size core (handle t)
            c_friend_number) ;;
  let '(c_length, c_error) := r in
  match throw_TOX_ERR_FRIEND_QUERY c_error with
  | Some throw => ret (None, Some throw)
  | None =>
      message <- makeslice 1 c_length (make c_length) ;;
      let c_message := (0 <? c_length)%nat in
      r <- call call_tox_friend_get_status_message
             (tox_friend_get_status_message core (handle t) c_friend_number
                c_message) ;;
      let '(written, c_error) := r in
      let message := if c_message then fill message written else message in
      match throw_TOX_ERR_FRIEND_QUERY c_error with
      | Some throw => ret (None, Some throw)
      | None => ret (message, None)
      end
  end.

(** *** Data transmission *)

(** Send a chat message to an online friend.  The message id keeps its zero
    value when an error is thrown. *)
Definition FriendSendMessage (tox : positive) (friendNumber : Z)
  (messageType : ToxMessageType) (message : slice)
  : M (Z * option error) :=
  let c_friend_number := friendNumber in
  let c_length := len message in
  let c_message_type :=
    switch messageType
      [ (ToxMessageTypeAction, TOX_MESSAGE_TYPE_ACTION) ]
      TOX_MESSAGE_TYPE_NORMAL in
  let c_message :=
    if (0 <? c_length)%nat then Some (bytes message) else None in
  t <- load tox ;;
  r <- call call_tox_friend_send_message
         (tox_friend_send_message core (handle t) c_friend_number
            c_message_type c_message c_length) ;;
  let '(c_message_id, c_error) := r in
  match throw_TOX_ERR_FRIEND_SEND_MESSAGE c_error with
  | Some throw => ret (0, Some throw)
  | None => ret (c_message_id, None)
  end.

(** *** Networking *)

(** [Bootstrap] after its [defer]. *)
Definition Bootstrap_connect (tox : positive) (seedNode : SeedNode)
  (c_host : cptr) : M (option error) :=
  let c_port := Port seedNode in
  let '(publicKey, err) := hex_DecodeString (PublicKey seedNode) in
  match err with
  | Some e => ret (Some e)
  | None =>
      if negb (len publicKey =? ToxPublicKeySize)%nat then
        ret (Some (errors_New "invalid public key"))
      else
        let c_public_key := bytes publicKey in
        t <- load tox ;;
        heap <- C_heap ;;
        c_error <- call call_tox_bootstrap
                     (tox_bootstrap core heap (handle t) c_host c_port
                        c_public_key) ;;
        ret (throw_TOX_ERR_BOOTSTRAP c_error)
  end.

(** Establish a connection to the given seed node. *)
Definition Bootstrap (tox : positive) (seedNode : SeedNode)
  : M (option error) :=
  c_host <- C_CString (Host seedNode) ;;
  defer (C_free c_host) (Bootstrap_connect tox seedNode c_host).
End Binding.

(** ** What the specification asks for, as predicates on the model *)

(** The proxy types [types.go] declares. *)
Definition declared_proxy_type (p : ToxProxyType) : Prop :=
  In p [ToxProxyTypeNone; ToxProxyTypeHttp; ToxProxyTypeSocks5].

(** [R] has every field of [C]; save data compares byte for byte, as the
    test [TestConvertOptions] compares it. *)
Definition reproduces (C R : ToxOptions) : Prop :=
  IPv6Enabled R = IPv6Enabled C /\
  UDPEnabled R = UDPEnabled C /\
  ProxyType R = ProxyType C /\
  ProxyHost R = ProxyHost C /\
  ProxyPort R = ProxyPort C /\
  StartPort R = StartPort C /\
  EndPort R = EndPort C /\
  TCPPort R = TCPPort C /\
  bytes (SaveData R) = bytes (SaveData C).

(** A string of hexadecimal digits, two for each byte. *)
Definition hex_digit (c : byte) : Prop :=
  In c (list_ascii_of_string "0123456789abcdefABCDEF").

Definition valid_hex (s : string) : Prop :=
  Nat.Even (String.length s) /\ Forall hex_digit (list_ascii_of_string s).

(** The errors of the bootstrap family. *)
Definition bootstrap_errors : list error :=
  [ToxErrBootstrapNull; ToxErrBootstrapBadHost; ToxErrBootstrapBadPort].

(** The call ends in a panic that nothing handles. *)
Definition aborts {W A : Type} (o : Outcome W A) : Prop :=
  match o with
  | Panics _ _ => True
  | _ => False
  end.

(** The world a call leaves behind, by a return or by a panic. *)
Definition world_after {W A : Type} (o : Outcome W A) : option W :=
  match o with
  | Returns _ w' => Some w'
  | Panics _ w' => Some w'
  | Faults => None
  end.

(** The tables behind the switches of [callbacks.go] and [COptions]. *)
Definition connection_table `{ToxHeader} : list (Z * ToxConnectionStatus) :=
  [ (TOX_CONNECTION_NONE, ToxConnectionNone);
    (TOX_CONNECTION_TCP, ToxConnectionTCP);
    (TOX_CONNECTION_UDP, ToxConnectionUDP) ].

Definition user_status_table `{ToxHeader} : list (Z * ToxUserStatus) :=
  [ (TOX_USER_STATUS_NONE, ToxUserStatusNone);
    (TOX_USER_STATUS_AWAY, ToxUserStatusAway);
    (TOX_USER_STATUS_BUSY, ToxUserStatusBusy) ].

Definition proxy_type_table `{ToxHeader} : list (ToxProxyType * Z) :=
  [ (ToxProxyTypeNone, TOX_PROXY_TYPE_NONE);
    (ToxProxyTypeHttp, TOX_PROXY_TYPE_HTTP);
    (ToxProxyTypeSocks5, TOX_PROXY_TYPE_SOCKS5) ].

Definition message_type_table `{ToxHeader} : list (Z * ToxMessageType) :=
  [ (TOX_MESSAGE_TYPE_NORMAL, ToxMessageTypeNormal);
    (TOX_MESSAGE_TYPE_ACTION, ToxMessageTypeAction) ].

Section Specification.
Context {hdr : ToxHeader} {rt : GoRuntime} {Engine Act : Type}.
Context (core : ToxCore Engine).

Local Abbreviation World := (World Engine Act).
Local Abbreviation M := (@M Engine Act).

(** The world after the handler ran and did [a]. *)
Definition handled (a : Act) (w : World) : World :=
  {| engine := engine w; cheap := cheap w; goheap := goheap w;
     log := log w ++ [Handled a] |}.

(** [GoOptions(COptions(C))]. *)
Definition roundtrip (C : ToxOptions) : M (option ToxOptions * option error) :=
  r <- COptions C ;;
  GoOptions (fst r).

(** A size-then-fetch query in a world where the engine reports [size]: it
    returns a present slice of that length, the empty one for zero. *)
Definition fetches_exactly (query : M slice) (size : nat) (w : World) : Prop :=
  exists data w',
    query w = Returns (Some data) w' /\
    length data = size /\
    (size = 0%nat -> data = []).

(** The same query in a world where the engine reports [size], whatever
    the size: within the runtime's limit it fetches exactly, past the limit
    [make] panics. *)
Definition fetches_within_limit (query : M slice) (size : nat) (w : World)
  : Prop :=
  (fits 1 size = true -> fetches_exactly query size w) /\
  (fits 1 size = false ->
   exists w', query w = Panics makeslice_len_out_of_range w').

(** How the registration of [kind] ends once the handler is stored and the
    instance is [t']: in a panic when cgo's check finds a func value that
    points into Go memory, else with the trampoline of [kind] given to the
    engine, the instance's own address being the user data. *)
Definition registration_ends (kind : EventKind) (tox : positive)
  (t' : Tox Act) (w : World) : Outcome World unit :=
  if holds_go_pointer t' then
    Panics cgo_check_error
      {| engine := engine w; cheap := cheap w;
         goheap := <[tox := t']> (goheap w); log := log w |}
  else
    Returns tt
      {| engine := tox_callback core kind (handle t') tox (engine w);
         cheap := cheap w;
         goheap := <[tox := t']> (goheap w);
         log := log w ++ [Cgo (call_register kind)] |}.

(** [set] is the registration of [kind]: on a live instance it stores the
    handler as [update] tells and then ends as said. *)
Definition registration_of {H : Type} (set : positive -> option H -> M unit)
  (update : option H -> Tox Act -> Tox Act) (kind : EventKind) : Prop :=
  forall tox t w callback,
    goheap w !! tox = Some t ->
    set tox callback w = registration_ends kind tox (update callback t) w.

(** Registering [new] after [old] leaves the instance as registering [new]
    alone does, with [new] in the slot, however the registrations end: each
    stores its handler before anything else, and the second ends as
    [registration_ends] tells for the instance that holds [new]. *)
Definition replaced_by {H : Type} (set : positive -> option H -> M unit)
  (slot : Tox Act -> option H) (kind : EventKind) (tox : positive)
  (w : World) (old new : option H) : Prop :=
  exists w1 w2 w2' t2,
    world_after (set tox old w) = Some w1 /\
    world_after (set tox new w1) = Some w2 /\
    world_after (set tox new w) = Some w2' /\
    goheap w2 = goheap w2' /\
    goheap w2 !! tox = Some t2 /\
    slot t2 = new /\
    set tox new w1 = registration_ends kind tox t2 w1.
(** The world [w] with [h] for its C heap. *)
Definition with_cheap (h : gmap positive (list byte)) (w : World) : World :=
  {| engine := engine w; cheap := h; goheap := goheap w; log := log w |}.

(** The round trip returns a configuration that has every field of [C]. *)
Definition roundtrip_reproduces (C : ToxOptions) (w : World) : Prop :=
  exists R w', roundtrip C w = Returns (Some R, None) w' /\ reproduces C R.

(** [New] on the configuration [o]: the translation returns [c], holding
    two live blocks; [New] returns what the engine's code decides; between
    the two the log shows the engine call and then the two releases; and
    afterwards both blocks are gone and the C heap is what it was. *)
Definition releases_configuration (o : ToxOptions) (w : World) : Prop :=
  exists c w1 r w2 p_host p_data,
    COptions o w = Returns (Some c, None) w1 /\
    proxy_host c = Some p_host /\
    savedata_data c = Some p_data /\
    is_Some (cheap w1 !! p_host) /\
    is_Some (cheap w1 !! p_data) /\
    New core (Some o) w = Returns r w2 /\
    snd r = throw_TOX_ERR_NEW
              (snd (snd (tox_new core (cheap w1) (Some c) (engine w1)))) /\
    (is_Some (snd r) -> fst r = None) /\
    log w2 = log w1 ++ [ Cgo call_tox_new;
                         Cgo (call_free (Some p_host));
                         Cgo (call_free (Some p_data)) ] /\
    cheap w2 !! p_host = None /\
    cheap w2 !! p_data = None /\
    cheap w2 = cheap w.
(** The handler in a slot of the instance behind [tox], if there is one. *)
Definition registered {H : Type} (slot : Tox Act -> option H)
  (tox : positive) (w : World) : option H :=
  match goheap w !! tox with
  | Some t => slot t
  | None => None
  end.

(** A trampoline over the table of its decoding switch: a value outside the
    table panics with [msg], in the world as it stands; a value in the
    table is decoded, and the registered handler runs on the decoded value;
    [handler_does] tells what it then does. *)
Definition decodes_or_panics (table : list (Z * Z)) (msg : string)
  (trampoline : Z -> M unit) (handler_does : Z -> option Act) (w : World)
  : Prop :=
  (forall c, ~ In c (map fst table) -> trampoline c w = Panics msg w) /\
  (forall c g a,
     In (c, g) table -> handler_does g = Some a ->
     trampoline c w = Returns tt (handled a w)).
End Specification.

(** ** A concrete header and a scripted engine, to run the binding *)

(** The values a C compiler gives the enumerators when the header declares
    them in the order in which the binding lists them; keys of 32 bytes. *)
Definition toxcore_header : ToxHeader := {|
  TOX_PUBLIC_KEY_SIZE := 32;
  TOX_CONNECTION_NONE := 0;
  TOX_CONNECTION_TCP := 1;
  TOX_CONNECTION_UDP := 2;
  TOX_USER_STATUS_NONE := 0;
  TOX_USER_STATUS_AWAY := 1;
  TOX_USER_STATUS_BUSY := 2;
  TOX_MESSAGE_TYPE_NORMAL := 0;
  TOX_MESSAGE_TYPE_ACTION := 1;
  TOX_PROXY_TYPE_NONE := 0;
  TOX_PROXY_TYPE_HTTP := 1;
  TOX_PROXY_TYPE_SOCKS5 := 2;
  TOX_SAVEDATA_TYPE_NONE := 0;
  TOX_SAVEDATA_TYPE_TOX_SAVE := 1;
  TOX_ERR_NEW_OK := 0;
  TOX_ERR_NEW_NULL := 1;
  TOX_ERR_NEW_MALLOC := 2;
  TOX_ERR_NEW_PORT_ALLOC := 3;
  TOX_ERR_NEW_PROXY_BAD_TYPE := 4;
  TOX_ERR_NEW_PROXY_BAD_HOST := 5;
  TOX_ERR_NEW_PROXY_BAD_PORT := 6;
  TOX_ERR_NEW_PROXY_NOT_FOUND := 7;
  TOX_ERR_NEW_LOAD_ENCRYPTED := 8;
  TOX_ERR_NEW_LOAD_BAD_FORMAT := 9;
  TOX_ERR_BOOTSTRAP_OK := 0;
  TOX_ERR_BOOTSTRAP_NULL := 1;
  TOX_ERR_BOOTSTRAP_BAD_HOST := 2;
  TOX_ERR_BOOTSTRAP_BAD_PORT := 3;
  TOX_ERR_SET_INFO_OK := 0;
  TOX_ERR_SET_INFO_NULL := 1;
  TOX_ERR_SET_INFO_TOO_LONG := 2;
  TOX_ERR_FRIEND_ADD_OK := 0;
  TOX_ERR_FRIEND_ADD_NULL := 1;
  TOX_ERR_FRIEND_ADD_TOO_LONG := 2;
  TOX_ERR_FRIEND_ADD_NO_MESSAGE := 3;
  TOX_ERR_FRIEND_ADD_OWN_KEY := 4;
  TOX_ERR_FRIEND_ADD_ALREADY_SENT := 5;
  TOX_ERR_FRIEND_ADD_BAD_CHECKSUM := 6;
  TOX_ERR_FRIEND_ADD_SET_NEW_NOSPAM := 7;
  TOX_ERR_FRIEND_ADD_MALLOC := 8;
  TOX_ERR_FRIEND_DELETE_OK := 0;
  TOX_ERR_FRIEND_DELETE_FRIEND_NOT_FOUND := 1;
  TOX_ERR_FRIEND_QUERY_OK := 0;
  TOX_ERR_FRIEND_QUERY_NULL := 1;
  TOX_ERR_FRIEND_QUERY_FRIEND_NOT_FOUND := 2;
  TOX_ERR_FRIEND_GET_PUBLIC_KEY_OK := 0;
  TOX_ERR_FRIEND_GET_PUBLIC_KEY_FRIEND_NOT_FOUND := 1;
  TOX_ERR_FRIEND_BY_PUBLIC_KEY_OK := 0;
  TOX_ERR_FRIEND_BY_PUBLIC_KEY_NULL := 1;
  TOX_ERR_FRIEND_BY_PUBLIC_KEY_NOT_FOUND := 2;
  TOX_ERR_FRIEND_GET_LAST_ONLINE_OK := 0;
  TOX_ERR_FRIEND_GET_LAST_ONLINE_FRIEND_NOT_FOUND := 1;
  TOX_ERR_FRIEND_SEND_MESSAGE_OK := 0;
  TOX_ERR_FRIEND_SEND_MESSAGE_NULL := 1;
  TOX_ERR_FRIEND_SEND_MESSAGE_FRIEND_NOT_FOUND := 2;
  TOX_ERR_FRIEND_SEND_MESSAGE_FRIEND_NOT_CONNECTED := 3;
  TOX_ERR_FRIEND_SEND_MESSAGE_SENDQ := 4;
  TOX_ERR_FRIEND_SEND_MESSAGE_TOO_LONG := 5;
  TOX_ERR_FRIEND_SEND_MESSAGE_EMPTY := 6;
  TOX_ERR_FRIEND_CUSTOM_PACKET_OK := 0;
  TOX_ERR_FRIEND_CUSTOM_PACKET_NULL := 1;
  TOX_ERR_FRIEND_CUSTOM_PACKET_FRIEND_NOT_FOUND := 2;
  TOX_ERR_FRIEND_CUSTOM_PACKET_FRIEND_NOT_CONNECTED := 3;
  TOX_ERR_FRIEND_CUSTOM_PACKET_INVALID := 4;
  TOX_ERR_FRIEND_CUSTOM_PACKET_EMPTY := 5;
  TOX_ERR_FRIEND_CUSTOM_PACKET_TOO_LONG := 6;
  TOX_ERR_FRIEND_CUSTOM_PACKET_SENDQ := 7;
  public_key_size_pos := ltac:(lia);
  connection_cases := ltac:(by apply (bool_decide_unpack _); vm_compute);
  user_status_cases := ltac:(by apply (bool_decide_unpack _); vm_compute);
  message_type_cases := ltac:(by apply (bool_decide_unpack _); vm_compute);
  proxy_type_cases := ltac:(by apply (bool_decide_unpack _); vm_compute)
|}.

(** The Go runtime on 64-bit Linux, which allocates up to [2^48] bytes at
    once: with handlers that are all top-level functions, and with handlers
    that are all closures. *)
Definition go_linux_amd64 : GoRuntime := {|
  max_alloc := 281474976710656;
  heap_func := fun _ _ => false;
  cgo_check_error :=
    "runtime error: cgo argument has Go pointer to Go pointer";
  max_alloc_range := ltac:(split; [by vm_compute|by vm_compute])
|}.

Definition go_with_closures : GoRuntime := {|
  max_alloc := 281474976710656;
  heap_func := fun _ _ => true;
  cgo_check_error :=
    "runtime error: cgo argument has Go pointer to Go pointer";
  max_alloc_range := ltac:(split; [by vm_compute|by vm_compute])
|}.

(** A scripted engine: every size query reports the length of [reply],
    every fetch stores [reply], every error out-parameter receives
    [answer]; the handle is 1 and the message id 7. *)
Record Script : Type := {
  reply : list byte;
  answer : Z
}.

Definition scripted : ToxCore Script := {|
  tox_new := fun _ _ e => (e, (1, answer e));
  tox_get_savedata_size := fun _ e => (e, length (reply e));
  tox_get_savedata := fun _ e => (e, reply e);
  tox_self_get_name_size := fun _ e => (e, length (reply e));
  tox_self_get_name := fun _ _ e => (e, reply e);
  tox_self_get_status_message_size := fun _ e => (e, length (reply e));
  tox_self_get_status_message := fun _ _ e => (e, reply e);
  tox_friend_get_name_size := fun _ _ e => (e, (length (reply e), answer e));
  tox_friend_get_name := fun _ _ _ e => (e, (reply e, answer e));
  tox_friend_get_status_message_size :=
    fun _ _ e => (e, (length (reply e), answer e));
  tox_friend_get_status_message := fun _ _ _ e => (e, (reply e, answer e));
  tox_friend_send_message := fun _ _ _ _ _ e => (e, (7, answer e));
  tox_bootstrap := fun _ _ _ _ _ e => (e, answer e);
  tox_callback := fun _ _ _ e => e
|}.

(** An engine whose size queries report [2^63] bytes, which no Go [int]
    holds; it is the scripted engine otherwise. *)
Definition oversized : ToxCore Script := {|
  tox_new := tox_new scripted;
  tox_get_savedata_size := fun _ e => (e, Z.to_nat 9223372036854775808);
  tox_get_savedata := tox_get_savedata scripted;
  tox_self_get_name_size := fun _ e => (e, Z.to_nat 9223372036854775808);
  tox_self_get_name := tox_self_get_name scripted;
  tox_self_get_status_message_size :=
    fun _ e => (e, Z.to_nat 9223372036854775808);
  tox_self_get_status_message := tox_self_get_status_message scripted;
  tox_friend_get_name_size := tox_friend_get_name_size scripted;
  tox_friend_get_name := tox_friend_get_name scripted;
  tox_friend_get_status_message_size :=
    tox_friend_get_status_message_size scripted;
  tox_friend_get_status_message := tox_friend_get_status_message scripted;
  tox_friend_send_message := tox_friend_send_message scripted;
  tox_bootstrap := tox_bootstrap scripted;
  tox_callback := tox_callback scripted
|}.

(** Handlers that report what they were called with. *)
Inductive Seen : Type :=
  | saw_connection (tox : positive) (status : ToxConnectionStatus)
  | saw_status (tox : positive) (friendNumber : Z) (status : ToxUserStatus)
  | saw_friend_connection (tox : positive) (friendNumber : Z)
      (status : ToxConnectionStatus)
  | saw_message (tox : positive) (friendNumber : Z) (type : ToxMessageType)
      (message : slice)
  | saw_other.

(** An instance at address 1 with every handler registered. *)
Definition listening : Tox Seen := {|
  handle := 1;
  onSelfConnectionStatus := Some saw_connection;
  onFriendRequest := Some (fun _ _ _ => saw_other);
  onFriendName := Some (fun _ _ _ => saw_other);
  onFriendStatus := Some saw_status;
  onFriendStatusMessage := Some (fun _ _ _ => saw_other);
  onFriendConnectionStatus := Some saw_friend_connection;
  onFriendMessage := Some saw_message;
  onFriendLosslessPacket := Some (fun _ _ _ => saw_other)
|}.

(** The world before anything happened, and one with a live instance. *)
Definition world0 (e : Script) : World Script Seen :=
  {| engine := e; cheap := ∅; goheap := ∅; log := [] |}.

Definition world1 (e : Script) : World Script Seen :=
  {| engine := e; cheap := ∅; goheap := {[ 1%positive := listening ]};
     log := [] |}.

(** An engine with the name "bob" that answers OK (0) ... *)
Definition engine_ok : Script :=
  {| reply := list_ascii_of_string "bob"; answer := 0 |}.

(** ... one that answers 2 (for a friend query: friend not found) ... *)
Definition engine_refusing : Script :=
  {| reply := []; answer := 2 |}.

(** ... and one from a later build, answering a code the binding does not
    know. *)
Definition engine_skewed : Script :=
  {| reply := []; answer := 99 |}.

(** A configuration without a proxy whose host field holds a NUL byte. *)
Definition options_nul_host : ToxOptions := {|
  IPv6Enabled := true;
  UDPEnabled := true;
  ProxyType := ToxProxyTypeNone;
  ProxyHost := String "a" (String NUL (String "b" EmptyString));
  ProxyPort := 0;
  StartPort := 0;
  EndPort := 0;
  TCPPort := 0;
  SaveData := None
|}.

(** A configuration that restores saved state through a SOCKS5 proxy. *)
Definition options_socks : ToxOptions := {|
  IPv6Enabled := false;
  UDPEnabled := true;
  ProxyType := ToxProxyTypeSocks5;
  ProxyHost := "localhost";
  ProxyPort := 9050;
  StartPort := 33445;
  EndPort := 33545;
  TCPPort := 0;
  SaveData := Some (list_ascii_of_string "saved")
|}.

(** The seed node of [DefaultSeedNode], and one whose key is not
    hexadecimal. *)
Definition DefaultSeedNode : SeedNode := {|
  Host := "tox.zodiaclabs.org";
  Port := 33445;
  PublicKey :=
    "A09162D68618E742FFBCA1C2C70385E6679604B2D80EA6E84AD0996A1AC8A074"
|}.

Definition seed_bad_key : SeedNode := {|
  Host := "tox.zodiaclabs.org";
  Port := 33445;
  PublicKey := "not a key"
|}.

(** * The rest of [tox.go], and the test suite's helpers *)

(** ** The engine operations behind them *)

(** As in [ToxCore]: state to state, with the values returned or stored
    through out-parameters.  [tox_self_get_friend_list] stores friend
    numbers; the flag tells whether the list pointer is not NULL. *)
Record ToxCoreMore (Engine : Type) : Type := {
  tox_options_default : Engine -> Engine * C_struct_Tox_Options;
  tox_iteration_interval : Z -> Engine -> Engine * Z;
  (* TOX_ERR_SET_INFO *)
  tox_self_set_name : Z -> option (list byte) -> nat -> Engine -> Engine * Z;
  tox_self_set_status_message :
    Z -> option (list byte) -> nat -> Engine -> Engine * Z;
  tox_self_get_status : Z -> Engine -> Engine * Z;
  tox_self_set_status : Z -> Z -> Engine -> Engine;
  tox_self_get_connection_status : Z -> Engine -> Engine * Z;
  tox_self_get_friend_list_size : Z -> Engine -> Engine * nat;
  tox_self_get_friend_list : Z -> bool -> Engine -> Engine * list Z;
  (* friend number and TOX_ERR_FRIEND_ADD *)
  tox_friend_add :
    Z -> list byte -> option (list byte) -> nat -> Engine -> Engine * (Z * Z);
  tox_friend_add_norequest : Z -> list byte -> Engine -> Engine * (Z * Z);
  (* TOX_ERR_FRIEND_DELETE *)
  tox_friend_delete : Z -> Z -> Engine -> Engine * Z;
  tox_friend_exists : Z -> Z -> Engine -> Engine * bool;
  (* bytes stored and TOX_ERR_FRIEND_GET_PUBLIC_KEY *)
  tox_friend_get_public_key : Z -> Z -> Engine -> Engine * (list byte * Z);
  (* friend number and TOX_ERR_FRIEND_BY_PUBLIC_KEY *)
  tox_friend_by_public_key : Z -> list byte -> Engine -> Engine * (Z * Z);
  (* status and TOX_ERR_FRIEND_QUERY *)
  tox_friend_get_status : Z -> Z -> Engine -> Engine * (Z * Z);
  tox_friend_get_connection_status : Z -> Z -> Engine -> Engine * (Z * Z);
  (* TOX_ERR_FRIEND_CUSTOM_PACKET *)
  tox_friend_send_lossless_packet :
    Z -> Z -> option (list byte) -> nat -> Engine -> Engine * Z
}.

Arguments tox_options_default {Engine}.
Arguments tox_iteration_interval {Engine}.
Arguments tox_self_set_name {Engine}.
Arguments tox_self_set_status_message {Engine}.
Arguments tox_self_get_status {Engine}.
Arguments tox_self_set_status {Engine}.
Arguments tox_self_get_connection_status {Engine}.
Arguments tox_self_get_friend_list_size {Engine}.
Arguments tox_self_get_friend_list {Engine}.
Arguments tox_friend_add {Engine}.
Arguments tox_friend_add_norequest {Engine}.
Arguments tox_friend_delete {Engine}.
Arguments tox_friend_exists {Engine}.
Arguments tox_friend_get_public_key {Engine}.
Arguments tox_friend_by_public_key {Engine}.
Arguments tox_friend_get_status {Engine}.
Arguments tox_friend_get_connection_status {Engine}.
Arguments tox_friend_send_lossless_packet {Engine}.

(** ** Go integers *)

(** Conversion to [uint32] and to [int64]: the low bits, read unsigned and
    in two's complement. *)
Definition uint32 (x : Z) : Z := x mod 2 ^ 32.

Definition int64 (x : Z) : Z := (x + 2 ^ 63) mod 2 ^ 64 - 2 ^ 63.

(** [time.Millisecond], in the nanoseconds a [time.Duration] counts. *)
Definition time_Millisecond : Z := 1000000.

(** A Go [[]uint32] of friend numbers, nil or present. *)
Definition uint32_slice := option (list Z).

Section MoreBinding.
Context {hdr : ToxHeader} {rt : GoRuntime} {Engine Act : Type}.
Context (core : ToxCore Engine) (more : ToxCoreMore Engine).

Local Abbreviation World := (World Engine Act).
Local Abbreviation M := (@M Engine Act).

(** A call into the engine that the log does not name. *)
Definition engine_call {A} (op : Engine -> Engine * A) : M A :=
  fun w =>
    let '(e, a) := op (engine w) in
    Returns a {| engine := e; cheap := cheap w; goheap := goheap w;
                 log := log w |}.

(** The pointer to the first byte of a slice, as every operation that hands
    the engine a buffer computes it: nil unless the length is positive. *)
Definition first_byte (s : slice) : option (list byte) :=
  if (0 <? len s)%nat then Some (bytes s) else None.

(** *** Startup options *)

(** The default startup options for Tox. *)
Definition DefaultOptions : M (option ToxOptions * option error) :=
  c_options <- engine_call (tox_options_default more) ;;
  GoOptions (Some c_options).

(** *** Event processing *)

(** Get the iteration interval in milliseconds. *)
Definition ProcessDelay (tox : positive) : M Z :=
  t <- load tox ;;
  c_millis <- engine_call (tox_iteration_interval more (handle t)) ;;
  ret (int64 (uint32 c_millis * time_Millisecond)).

(** *** Client state *)

(** Set the name of the Tox client. *)
Definition SetName (tox : positive) (name : slice) : M (option error) :=
  let c_length := len name in
  let c_name := first_byte name in
  t <- load tox ;;
  c_error <- engine_call (tox_self_set_name more (handle t) c_name c_length) ;;
  ret (throw_TOX_ERR_SET_INFO c_error).

(** Get the status of the Tox client. *)
Definition GetStatus (tox : positive) : M ToxUserStatus :=
  t <- load tox ;;
  c_user_status <- engine_call (tox_self_get_status more (handle t)) ;;
  ret (switch c_user_status
         [ (TOX_USER_STATUS_AWAY, ToxUserStatusAway);
           (TOX_USER_STATUS_BUSY, ToxUserStatusBusy) ]
         ToxUserStatusNone).

(** Set the status of the Tox client. *)
Definition SetStatus (tox : positive) (userStatus : ToxUserStatus) : M unit :=
  let c_user_status :=
    switch userStatus
      [ (ToxUserStatusAway, TOX_USER_STATUS_AWAY);
        (ToxUserStatusBusy, TOX_USER_STATUS_BUSY) ]
      TOX_USER_STATUS_NONE in
  t <- load tox ;;
  engine_call
    (fun e => (tox_self_set_status more (handle t) c_user_status e, tt)).

(** Set the status message of the Tox client. *)
Definition SetStatusMessage (tox : positive) (message : slice)
  : M (option error) :=
  let c_length := len message in
  let c_message := first_byte message in
  t <- load tox ;;
  c_error <- engine_call
               (tox_self_set_status_message more (handle t) c_message
                  c_length) ;;
  ret (throw_TOX_ERR_SET_INFO c_error).

(** Get the connection status of the Tox client. *)
Definition GetConnectionStatus (tox : positive) : M ToxConnectionStatus :=
  t <- load tox ;;
  c_connection_status <-
    engine_call (tox_self_get_connection_status more (handle t)) ;;
  ret (switch c_connection_status
         [ (TOX_CONNECTION_TCP, ToxConnectionTCP);
           (TOX_CONNECTION_UDP, ToxConnectionUDP) ]
         ToxConnectionNone).

(** What a [[]uint32] holds after the engine stored [written] through a
    pointer to its first element, inside its bounds. *)
Definition fill_uint32 (buffer : list Z) (written : list Z) : list Z :=
  take (length buffer) (written ++ drop (length written) buffer).

(** Get the friend list of the Tox client. *)
Definition GetFriendList (tox : positive) : M uint32_slice :=
  t <- load tox ;;
  c_length <- engine_call (tox_self_get_friend_list_size more (handle t)) ;;
  friendList <- makeslice 4 c_length (replicate c_length 0) ;;
  let c_friend_list := (0 <? c_length)%nat in
  written <- engine_call
               (tox_self_get_friend_list more (handle t) c_friend_list) ;;
  ret (Some (if c_friend_list then fill_uint32 friendList written
             else friendList)).

(** *** Friend management *)

(** Add a friend.  The friend number keeps its zero value when an error is
    thrown. *)
Definition FriendAdd (tox : positive) (address : list byte) (message : slice)
  : M (Z * option error) :=
  let c_address := address in
  let c_length := len message in
  let c_message := first_byte message in
  t <- load tox ;;
  r <- engine_call
         (tox_friend_add more (handle t) c_address c_message c_length) ;;
  let '(c_friend_number, c_error) := r in
  match throw_TOX_ERR_FRIEND_ADD c_error with
  | Some throw => ret (0, Some throw)
  | None => ret (uint32 c_friend_number, None)
  end.

(** Add a friend without sending a friend request. *)
Definition FriendAddNoRequest (tox : positive) (publicKey : list byte)
  : M (Z * option error) :=
  let c_public_key := publicKey in
  t <- load tox ;;
  r <- engine_call (tox_friend_add_norequest more (handle t) c_public_key) ;;
  let '(c_friend_number, c_error) := r in
  match throw_TOX_ERR_FRIEND_ADD c_error with
  | Some throw => ret (0, Some throw)
  | None => ret (uint32 c_friend_number, None)
  end.

(** Delete a friend. *)
Definition FriendDelete (tox : positive) (friendNumber : Z)
  : M (option error) :=
  let c_friend_number := friendNumber in
  t <- load tox ;;
  c_error <- engine_call
               (tox_friend_delete more (handle t) c_friend_number) ;;
  ret (throw_TOX_ERR_FRIEND_DELETE c_error).

(** Check if a friend exists. *)
Definition FriendExists (tox : positive) (friendNumber : Z) : M bool :=
  let c_friend_number := friendNumber in
  t <- load tox ;;
  engine_call (tox_friend_exists more (handle t) c_friend_number).

(** *** Friend state *)

(** Get the public key of a friend.  The key is an array of
    [ToxPublicKeySize] zero bytes until the engine stores into it, and it is
    returned as it then is, with or without an error. *)
Definition FriendGetPublicKey (tox : positive) (friendNumber : Z)
  : M (list byte * option error) :=
  let c_friend_number := friendNumber in
  let publicKey := make ToxPublicKeySize in
  t <- load tox ;;
  r <- engine_call
         (tox_friend_get_public_key more (handle t) c_friend_number) ;;
  let '(written, c_error) := r in
  ret (bytes (fill publicKey written),
       throw_TOX_ERR_FRIEND_GET_PUBLIC_KEY c_error).

(** Get the friend associated with the given public key. *)
Definition FriendByPublicKey (tox : positive) (publicKey : list byte)
  : M (Z * option error) :=
  let c_public_key := publicKey in
  t <- load tox ;;
  r <- engine_call (tox_friend_by_public_key more (handle t) c_public_key) ;;
  let '(c_friend_number, c_error) := r in
  match throw_TOX_ERR_FRIEND_BY_PUBLIC_KEY c_error with
  | Some throw => ret (0, Some throw)
  | None => ret (uint32 c_friend_number, None)
  end.

(** Get the status of a friend. *)
Definition FriendGetStatus (tox : positive) (friendNumber : Z)
  : M (ToxUserStatus * option error) :=
  let c_friend_number := friendNumber in
  t <- load tox ;;
  r <- engine_call (tox_friend_get_status more (handle t) c_friend_number) ;;
  let '(c_status, c_error) := r in
  match throw_TOX_ERR_FRIEND_QUERY c_error with
  | Some throw => ret (0, Some throw)
  | None =>
      ret (switch c_status
             [ (TOX_USER_STATUS_AWAY, ToxUserStatusAway);
               (TOX_USER_STATUS_BUSY, ToxUserStatusBusy) ]
             ToxUserStatusNone, None)
  end.

(** Get the connection status of a friend. *)
Definition FriendGetConnectionStatus (tox : positive) (friendNumber : Z)
  : M (ToxConnectionStatus * option error) :=
  let c_friend_number := friendNumber in
  t <- load tox ;;
  r <- engine_call
         (tox_friend_get_connection_status more (handle t) c_friend_number) ;;
  let '(c_connection_status, c_error) := r in
  match throw_TOX_ERR_FRIEND_QUERY c_error with
  | Some throw => ret (0, Some throw)
  | None =>
      ret (switch c_connection_status
             [ (TOX_CONNECTION_TCP, ToxConnectionTCP);
               (TOX_CONNECTION_UDP, ToxConnectionUDP) ]
             ToxConnectionNone, None)
  end.

(** *** Data transmission *)

(** Send a custom loss-less packet to an online friend. *)
Definition FriendSendLosslessPacket (tox : positive) (friendNumber : Z)
  (data : slice) : M (option error) :=
  let c_friend_number := friendNumber in
  let c_length := len data in
  let c_data := first_byte data in
  t <- load tox ;;
  c_error <- engine_call
               (tox_friend_send_lossless_packet more (handle t)
                  c_friend_number c_data c_length) ;;
  ret (throw_TOX_ERR_FRIEND_CUSTOM_PACKET c_error).

(** *** Networking *)

(** This function creates a new seed node. *)
Definition NewSeedNode (host : string) (port : Z) (publicKey : string)
  : SeedNode :=
  {| Host := host; Port := port; PublicKey := publicKey |}.

(** *** [tox_test.go] *)

(** The loop of [equal], over two slices of the same length. *)
Fixpoint equal_loop (a b : list byte) : bool :=
  match a, b with
  | x :: a', y :: b' => if Ascii.eqb x y then equal_loop a' b' else false
  | _, _ => true
  end.

Definition equal (a b : slice) : bool :=
  if negb (len a =? len b)%nat then false else equal_loop (bytes a) (bytes b).

(** The checks of [TestConvertOptions] on the converted [result]: the
    message of the first [test.Fatalf] reached, or none. *)
Definition compare_options (options result : ToxOptions) : option string :=
  if negb (Bool.eqb (IPv6Enabled options) (IPv6Enabled result)) then
    Some "Failed to convert Tox startup options. IPv6 enabled option does not match."
  else if negb (Bool.eqb (UDPEnabled options) (UDPEnabled result)) then
    Some "Failed to convert Tox startup options. UDP enabled option does not match."
  else if negb (ProxyType options =? ProxyType result) then
    Some "Failed to convert Tox startup options. Proxy type option does not match."
  else if negb (String.eqb (ProxyHost options) (ProxyHost result)) then
    Some "Failed to convert Tox startup options. Proxy host option does not match."
  else if negb (ProxyPort options =? ProxyPort result) then
    Some "Failed to convert Tox startup options. Proxy port option does not match."
  else if negb (StartPort options =? StartPort result) then
    Some "Failed to convert Tox startup options. Start port option does not match."
  else if negb (EndPort options =? EndPort result) then
    Some "Failed to convert Tox startup options. End port option does not match."
  else if negb (TCPPort options =? TCPPort result) then
    Some "Failed to convert Tox startup options. TCP port option does not match."
  else if negb (equal (SaveData options) (SaveData result)) then
    Some "Failed to convert Tox startup options. Save data option does not match."
  else None.

(** [TestConvertOptions] on the options it drew: translate, defer the
    release, translate back, compare.  A nil [result] is dereferenced by
    the first comparison. *)
Definition TestConvertOptions (options : ToxOptions) : M (option string) :=
  r <- COptions options ;;
  let c_options := fst r in
  defer (FreeOptions c_options)
    (r' <- GoOptions c_options ;;
     match fst r' with
     | Some result => ret (compare_options options result)
     | None => panic nil_dereference
     end).
End MoreBinding.

(** ** Further predicates and tables for the statements below *)

(** The [OK] of each family, and its [switch] as a table. *)
Definition ok_code `{ToxHeader} (family : Family) : Z :=
  match family with
  | Creation => TOX_ERR_NEW_OK
  | BootstrapFamily => TOX_ERR_BOOTSTRAP_OK
  | InfoSet => TOX_ERR_SET_INFO_OK
  | FriendAddFamily => TOX_ERR_FRIEND_ADD_OK
  | FriendDeleteFamily => TOX_ERR_FRIEND_DELETE_OK
  | FriendQuery => TOX_ERR_FRIEND_QUERY_OK
  | FriendGetPublicKeyFamily => TOX_ERR_FRIEND_GET_PUBLIC_KEY_OK
  | FriendByKey => TOX_ERR_FRIEND_BY_PUBLIC_KEY_OK
  | FriendLastOnline => TOX_ERR_FRIEND_GET_LAST_ONLINE_OK
  | MessageSend => TOX_ERR_FRIEND_SEND_MESSAGE_OK
  | CustomPacketSend => TOX_ERR_FRIEND_CUSTOM_PACKET_OK
  end.

Definition named_failures `{ToxHeader} (family : Family)
  : list (Z * error) :=
  match family with
  | Creation =>
      [ (TOX_ERR_NEW_NULL, ToxErrNewNull);
        (TOX_ERR_NEW_MALLOC, ToxErrNewMalloc);
        (TOX_ERR_NEW_PORT_ALLOC, ToxErrNewPortAlloc);
        (TOX_ERR_NEW_PROXY_BAD_TYPE, ToxErrNewProxyBadType);
        (TOX_ERR_NEW_PROXY_BAD_HOST, ToxErrNewProxyBadHost);
        (TOX_ERR_NEW_PROXY_BAD_PORT, ToxErrNewProxyBadPort);
        (TOX_ERR_NEW_PROXY_NOT_FOUND, ToxErrNewProxyNotFound);
        (TOX_ERR_NEW_LOAD_ENCRYPTED, ToxErrNewLoadEncrypted);
        (TOX_ERR_NEW_LOAD_BAD_FORMAT, ToxErrNewLoadBadFormat) ]
  | BootstrapFamily =>
      [ (TOX_ERR_BOOTSTRAP_NULL, ToxErrBootstrapNull);
        (TOX_ERR_BOOTSTRAP_BAD_HOST, ToxErrBootstrapBadHost);
        (TOX_ERR_BOOTSTRAP_BAD_PORT, ToxErrBootstrapBadPort) ]
  | InfoSet =>
      [ (TOX_ERR_SET_INFO_NULL, ToxErrSetInfoNull);
        (TOX_ERR_SET_INFO_TOO_LONG, ToxErrSetInfoTooLong) ]
  | FriendAddFamily =>
      [ (TOX_ERR_FRIEND_ADD_NULL, ToxErrFriendAddNull);
        (TOX_ERR_FRIEND_ADD_TOO_LONG, ToxErrFriendAddTooLong);
        (TOX_ERR_FRIEND_ADD_NO_MESSAGE, ToxErrFriendAddNoMessage);
        (TOX_ERR_FRIEND_ADD_OWN_KEY, ToxErrFriendAddOwnKey);
        (TOX_ERR_FRIEND_ADD_ALREADY_SENT, ToxErrFriendAddAlreadySent);
        (TOX_ERR_FRIEND_ADD_BAD_CHECKSUM, ToxErrFriendAddBadChecksum);
        (TOX_ERR_FRIEND_ADD_SET_NEW_NOSPAM, ToxErrFriendAddSetNewNoSpam);
        (TOX_ERR_FRIEND_ADD_MALLOC, ToxErrFriendAddMalloc) ]
  | FriendDeleteFamily =>
      [ (TOX_ERR_FRIEND_DELETE_FRIEND_NOT_FOUND,
         ToxErrFriendDeleteFriendNotFound) ]
  | FriendQuery =>
      [ (TOX_ERR_FRIEND_QUERY_NULL, ToxErrFriendQueryNull);
        (TOX_ERR_FRIEND_QUERY_FRIEND_NOT_FOUND,
         ToxErrFriendQueryFriendNotFound) ]
  | FriendGetPublicKeyFamily =>
      [ (TOX_ERR_FRIEND_GET_PUBLIC_KEY_FRIEND_NOT_FOUND,
         ToxErrFriendGetPublicKeyFriendNotFound) ]
  | FriendByKey =>
      [ (TOX_ERR_FRIEND_BY_PUBLIC_KEY_NULL, ToxErrFriendByPublicKeyNull);
        (TOX_ERR_FRIEND_BY_PUBLIC_KEY_NOT_FOUND,
         ToxErrFriendByPublicKeyNotFound) ]
  | FriendLastOnline =>
      [ (TOX_ERR_FRIEND_GET_LAST_ONLINE_FRIEND_NOT_FOUND,
         ToxErrFriendGetLastOnlineFriendNotFound) ]
  | MessageSend =>
      [ (TOX_ERR_FRIEND_SEND_MESSAGE_NULL, ToxErrFriendSendMessageNull);
        (TOX_ERR_FRIEND_SEND_MESSAGE_FRIEND_NOT_FOUND,
         ToxErrFriendSendMessageFriendNotFound);
        (TOX_ERR_FRIEND_SEND_MESSAGE_FRIEND_NOT_CONNECTED,
         ToxErrFriendSendMessageFriendNotConnected);
        (TOX_ERR_FRIEND_SEND_MESSAGE_SENDQ, ToxErrFriendSendMessageSendQ);
        (TOX_ERR_FRIEND_SEND_MESSAGE_TOO_LONG, ToxErrFriendSendMessageTooLong);
        (TOX_ERR_FRIEND_SEND_MESSAGE_EMPTY, ToxErrFriendSendMessageEmpty) ]
  | CustomPacketSend =>
      [ (TOX_ERR_FRIEND_CUSTOM_PACKET_NULL, ToxErrFriendCustomPacketNull);
        (TOX_ERR_FRIEND_CUSTOM_PACKET_FRIEND_NOT_FOUND,
         ToxErrFriendCustomPacketFriendNotFound);
        (TOX_ERR_FRIEND_CUSTOM_PACKET_FRIEND_NOT_CONNECTED,
         ToxErrFriendCustomPacketFriendNotConnected);
        (TOX_ERR_FRIEND_CUSTOM_PACKET_INVALID, ToxErrFriendCustomPacketInvalid);
        (TOX_ERR_FRIEND_CUSTOM_PACKET_EMPTY, ToxErrFriendCustomPacketEmpty);
        (TOX_ERR_FRIEND_CUSTOM_PACKET_TOO_LONG,
         ToxErrFriendCustomPacketTooLong);
        (TOX_ERR_FRIEND_CUSTOM_PACKET_SENDQ, ToxErrFriendCustomPacketSendQ) ]
  end.

(** The bytes of [l] before its first NUL, all of [l] when it has none. *)
Fixpoint until_NUL (l : list byte) : list byte :=
  match l with
  | [] => []
  | b :: rest => if Ascii.eqb b NUL then [] else b :: until_NUL rest
  end.

(** A string as a C function sees it. *)
Definition as_C_string (s : string) : string :=
  string_of_list_ascii (until_NUL (list_ascii_of_string s)).

(** An instance as [New] makes it: the engine's handle, no handler. *)
Definition blank {Act : Type} (c_tox : Z) : Tox Act :=
  {| handle := c_tox;
     onSelfConnectionStatus := None;
     onFriendRequest := None;
     onFriendName := None;
     onFriendStatus := None;
     onFriendStatusMessage := None;
     onFriendConnectionStatus := None;
     onFriendMessage := None;
     onFriendLosslessPacket := None |}.

(** [t'] is [t] but for the slot of [kind]. *)
Definition other_slots_kept {Act : Type} (kind : EventKind) (t t' : Tox Act)
  : Prop :=
  handle t' = handle t /\
  (kind <> self_connection_status ->
   onSelfConnectionStatus t' = onSelfConnectionStatus t) /\
  (kind <> friend_request -> onFriendRequest t' = onFriendRequest t) /\
  (kind <> friend_name -> onFriendName t' = onFriendName t) /\
  (kind <> friend_status -> onFriendStatus t' = onFriendStatus t) /\
  (kind <> friend_status_message ->
   onFriendStatusMessage t' = onFriendStatusMessage t) /\
  (kind <> friend_connection_status ->
   onFriendConnectionStatus t' = onFriendConnectionStatus t) /\
  (kind <> friend_message -> onFriendMessage t' = onFriendMessage t) /\
  (kind <> friend_lossless_packet ->
   onFriendLosslessPacket t' = onFriendLosslessPacket t).

(** How [GetStatus] and [FriendGetStatus] read the engine's number [c]:
    away and busy are recognised, every other number is "none". *)
Definition user_status_of `{ToxHeader} (c : Z) (s : ToxUserStatus) : Prop :=
  (c = TOX_USER_STATUS_AWAY -> s = ToxUserStatusAway) /\
  (c = TOX_USER_STATUS_BUSY -> s = ToxUserStatusBusy) /\
  (c <> TOX_USER_STATUS_AWAY -> c <> TOX_USER_STATUS_BUSY ->
   s = ToxUserStatusNone).

(** How [GetConnectionStatus] and [FriendGetConnectionStatus] read it: TCP
    and UDP are recognised, every other number is "none". *)
Definition connection_status_of `{ToxHeader} (c : Z)
  (s : ToxConnectionStatus) : Prop :=
  (c = TOX_CONNECTION_TCP -> s = ToxConnectionTCP) /\
  (c = TOX_CONNECTION_UDP -> s = ToxConnectionUDP) /\
  (c <> TOX_CONNECTION_TCP -> c <> TOX_CONNECTION_UDP ->
   s = ToxConnectionNone).

Section MoreSpecification.
Context {hdr : ToxHeader} {rt : GoRuntime} {Engine Act : Type}.
Context (core : ToxCore Engine) (more : ToxCoreMore Engine).

Local Abbreviation World := (World Engine Act).
Local Abbreviation M := (@M Engine Act).

(** A registration on the live instance [t]: the slot takes the handler
    and the rest of the instance stays; then the call panics in cgo's
    check when the instance holds a func value that points into Go memory,
    and otherwise gives the engine the trampoline of [kind] with the
    instance's own address as user data, and returns. *)
Definition registers {H : Type} (set : positive -> option H -> M unit)
  (slot : Tox Act -> option H) (kind : EventKind) (tox : positive)
  (t : Tox Act) (w : World) : Prop :=
  forall callback,
  exists t',
    slot t' = callback /\
    other_slots_kept kind t t' /\
    set tox callback w = registration_ends core kind tox t' w.

(** What the engine answers [New]: the handle and the code of [tox_new],
    called with the translated configuration when there is one. *)
Definition tox_new_answer (options : option ToxOptions) (w : World)
  : option (Z * Z) :=
  match options with
  | None => Some (snd (tox_new core (cheap w) None (engine w)))
  | Some o =>
      match COptions o w with
      | Returns (Some c, None) w1 =>
          Some (snd (tox_new core (cheap w1) (Some c) (engine w1)))
      | _ => None
      end
  end.

(** The call ends, by a return or a panic, with the C heap [h]. *)
Definition ends_with_cheap {A : Type} (o : Outcome World A)
  (h : gmap positive (list byte)) : Prop :=
  match o with
  | Returns _ w' => cheap w' = h
  | Panics _ w' => cheap w' = h
  | Faults => False
  end.

(** An engine that keeps, as [held] shows, the bytes it accepted through
    [set], reports their number through [size] and stores them through
    [get]. *)
Definition keeps_what_is_set (ok : Z)
  (set : Z -> option (list byte) -> nat -> Engine -> Engine * Z)
  (size : Z -> Engine -> Engine * nat)
  (get : Z -> bool -> Engine -> Engine * list byte)
  (held : Engine -> list byte) : Prop :=
  (forall h d n e,
     snd (set h d n e) = ok ->
     held (fst (set h d n e)) = from_option id [] d) /\
  (forall h e, size h e = (e, length (held e))) /\
  (forall h f e, get h f e = (e, held e)).

(** An engine whose status query answers what was last set. *)
Definition keeps_status : Prop :=
  forall h c e,
    tox_self_get_status more h (tox_self_set_status more h c e)
    = (tox_self_set_status more h c e, c).
End MoreSpecification.

(** ** More to run the binding with *)

(** The scripted engine's other operations: [answer] for every error
    out-parameter and every status, the all-ones number where a friend
    number is returned, 50 milliseconds between iterations, and defaults
    without a proxy or save data. *)
Definition scripted_more : ToxCoreMore Script := {|
  tox_options_default :=
    fun e => (e, {| ipv6_enabled := true; udp_enabled := true;
                    proxy_type := 0; proxy_host := None; proxy_port := 0;
                    start_port := 0; end_port := 0; tcp_port := 0;
                    savedata_type := 0; savedata_data := None;
                    savedata_length := 0 |});
  tox_iteration_interval := fun _ e => (e, 50);
  tox_self_set_name := fun _ _ _ e => (e, answer e);
  tox_self_set_status_message := fun _ _ _ e => (e, answer e);
  tox_self_get_status := fun _ e => (e, answer e);
  tox_self_set_status := fun _ _ e => e;
  tox_self_get_connection_status := fun _ e => (e, answer e);
  tox_self_get_friend_list_size := fun _ e => (e, length (reply e));
  tox_self_get_friend_list :=
    fun _ _ e => (e, map (fun b => Z.of_N (N_of_ascii b)) (reply e));
  tox_friend_add := fun _ _ _ _ e => (e, (4294967295, answer e));
  tox_friend_add_norequest := fun _ _ e => (e, (4294967295, answer e));
  tox_friend_delete := fun _ _ e => (e, answer e);
  tox_friend_exists := fun _ _ e => (e, false);
  tox_friend_get_public_key := fun _ _ e => (e, (reply e, answer e));
  tox_friend_by_public_key := fun _ _ e => (e, (4294967295, answer e));
  tox_friend_get_status := fun _ _ e => (e, (answer e, answer e));
  tox_friend_get_connection_status := fun _ _ e => (e, (answer e, answer e));
  tox_friend_send_lossless_packet := fun _ _ _ _ e => (e, answer e)
|}.

(** An engine that keeps a name, a status message and a status, and
    answers OK (0) to everything. *)
Record Memory : Type := {
  name_held : list byte;
  message_held : list byte;
  status_held : Z
}.

Definition remembering : ToxCore Memory := {|
  tox_new := fun _ _ e => (e, (1, 0));
  tox_get_savedata_size := fun _ e => (e, 0%nat);
  tox_get_savedata := fun _ e => (e, []);
  tox_self_get_name_size := fun _ e => (e, length (name_held e));
  tox_self_get_name := fun _ _ e => (e, name_held e);
  tox_self_get_status_message_size :=
    fun _ e => (e, length (message_held e));
  tox_self_get_status_message := fun _ _ e => (e, message_held e);
  tox_friend_get_name_size := fun _ _ e => (e, (0%nat, 0));
  tox_friend_get_name := fun _ _ _ e => (e, ([], 0));
  tox_friend_get_status_message_size := fun _ _ e => (e, (0%nat, 0));
  tox_friend_get_status_message := fun _ _ _ e => (e, ([], 0));
  tox_friend_send_message := fun _ _ _ _ _ e => (e, (0, 0));
  tox_bootstrap := fun _ _ _ _ _ e => (e, 0);
  tox_callback := fun _ _ _ e => e
|}.

Definition remembering_more : ToxCoreMore Memory := {|
  tox_options_default :=
    fun e => (e, snd (tox_options_default scripted_more engine_ok));
  tox_iteration_interval := fun _ e => (e, 50);
  tox_self_set_name :=
    fun _ d _ e =>
      ({| name_held := from_option id [] d;
          message_held := message_held e;
          status_held := status_held e |}, 0);
  tox_self_set_status_message :=
    fun _ d _ e =>
      ({| name_held := name_held e;
          message_held := from_option id [] d;
          status_held := status_held e |}, 0);
  tox_self_get_status := fun _ e => (e, status_held e);
  tox_self_set_status :=
    fun _ c e =>
      {| name_held := name_held e;
         message_held := message_held e;
         status_held := c |};
  tox_self_get_connection_status := fun _ e => (e, 0);
  tox_self_get_friend_list_size := fun _ e => (e, 0%nat);
  tox_self_get_friend_list := fun _ _ e => (e, []);
  tox_friend_add := fun _ _ _ _ e => (e, (0, 0));
  tox_friend_add_norequest := fun _ _ e => (e, (0, 0));
  tox_friend_delete := fun _ _ e => (e, 0);
  tox_friend_exists := fun _ _ e => (e, false);
  tox_friend_get_public_key := fun _ _ e => (e, ([], 0));
  tox_friend_by_public_key := fun _ _ e => (e, (0, 0));
  tox_friend_get_status := fun _ _ e => (e, (0, 0));
  tox_friend_get_connection_status := fun _ _ e => (e, (0, 0));
  tox_friend_send_lossless_packet := fun _ _ _ _ e => (e, 0)
|}.

(** A live instance over the remembering engine, named [name]. *)
Definition world_named (name : list byte) : World Memory Seen :=
  {| engine := {| name_held := name; message_held := []; status_held := 0 |};
     cheap := ∅; goheap := {[ 1%positive := listening ]}; log := [] |}.

(** A configuration with a proxy type that [types.go] does not declare. *)
Definition options_bad_proxy : ToxOptions := {|
  IPv6Enabled := true;
  UDPEnabled := true;
  ProxyType := 7;
  ProxyHost := "localhost";
  ProxyPort := 9050;
  StartPort := 0;
  EndPort := 0;
  TCPPort := 0;
  SaveData := None
|}.

(** * Properties *)

(** ** The [switch] *)

Lemma switch_default {A : Type} (tag : Z) (cases : list (Z * A)) (d : A) :
  ~ In tag (map fst cases) -> switch tag cases d = d.
Proof.
  induction cases as [|[c body] rest IH]; simpl; [reflexivity|].
  intros Hnot. destruct (Z.eqb_spec tag c) as [->|_].
  - exfalso. apply Hnot. now left.
  - apply IH. intros Hin. apply Hnot. now right.
Qed.

Lemma switch_case {A : Type} (tag : Z) (body : A) (cases : list (Z * A))
  (d : A) :
  NoDup (map fst cases) -> In (tag, body) cases -> switch tag cases d = body.
Proof.
  induction cases as [|[c b] rest IH]; simpl; [intros _ []|].
  intros Hnodup [Heq|Hin].
  - injection Heq as -> ->. now rewrite Z.eqb_refl.
  - apply NoDup_cons in Hnodup as [Hc Hrest].
    destruct (Z.eqb_spec tag c) as [->|_]; [|now apply IH].
    exfalso. apply Hc. apply list_elem_of_In.
    change c with (fst (c, body)). now apply in_map.
Qed.

Section Properties.
Context {hdr : ToxHeader} {rt : GoRuntime} {Engine Act : Type}.
Context (core : ToxCore Engine).

Local Abbreviation World := (World Engine Act).
Local Abbreviation M := (@M Engine Act).

(** ** Error taxonomy *)

(** C2. For every operation family, a result code outside the family's
    known set (its OK and its named failures) is translated to the
    catch-all [ToxErrUnknown]: the translation is a total function, and an
    unknown code yields neither nil nor any other error. *)
Theorem C2_unknown_code_maps_to_ToxErrUnknown (family : Family) (code : Z) :
  ~ In code (known_codes family) ->
  classify family code = Some ToxErrUnknown.
Proof.
  intros Hunknown.
  destruct family; cbn [classify known_codes] in *;
    apply not_in_cons in Hunknown as [Hok Hrest];
    unfold throw_TOX_ERR_NEW, throw_TOX_ERR_BOOTSTRAP, throw_TOX_ERR_SET_INFO,
      throw_TOX_ERR_FRIEND_ADD, throw_TOX_ERR_FRIEND_DELETE,
      throw_TOX_ERR_FRIEND_QUERY, throw_TOX_ERR_FRIEND_GET_PUBLIC_KEY,
      throw_TOX_ERR_FRIEND_BY_PUBLIC_KEY, throw_TOX_ERR_FRIEND_GET_LAST_ONLINE,
      throw_TOX_ERR_FRIEND_SEND_MESSAGE, throw_TOX_ERR_FRIEND_CUSTOM_PACKET;
    rewrite (proj2 (Z.eqb_neq _ _) Hok); f_equal;
    apply switch_default; exact Hrest.
Qed.

(** The same at two call sites: whatever else the engine does, a code it
    stores that the binding does not know comes back as [ToxErrUnknown]. *)
Lemma New_unknown_code (w : World) (c_tox code : Z) (e : Engine) :
  tox_new core (cheap w) None (engine w) = (e, (c_tox, code)) ->
  ~ In code (known_codes Creation) ->
  exists w', New core None w = Returns (None, Some ToxErrUnknown) w'.
Proof.
  intros Hnew Hunknown.
  cbn [known_codes] in Hunknown.
  apply not_in_cons in Hunknown as [Hok Hrest].
  unfold New, New_create, bind, C_heap, call, throw_TOX_ERR_NEW.
  rewrite Hnew, (proj2 (Z.eqb_neq _ _) Hok), switch_default by exact Hrest.
  eexists. reflexivity.
Qed.

Lemma FriendSendMessage_unknown_code (w : World) (tox : positive) (t : Tox Act)
  (friendNumber messageType : Z) (message : slice) (id code : Z) (e : Engine) :
  goheap w !! tox = Some t ->
  (forall c_message_type c_message,
     tox_friend_send_message core (handle t) friendNumber c_message_type
       c_message (len message) (engine w) = (e, (id, code))) ->
  ~ In code (known_codes MessageSend) ->
  exists w',
    FriendSendMessage core tox friendNumber messageType message w
    = Returns (0, Some ToxErrUnknown) w'.
Proof.
  intros Hlive Hsend Hunknown.
  cbn [known_codes] in Hunknown.
  apply not_in_cons in Hunknown as [Hok Hrest].
  unfold FriendSendMessage, bind, load, call,
    throw_TOX_ERR_FRIEND_SEND_MESSAGE.
  rewrite Hlive, Hsend, (proj2 (Z.eqb_neq _ _) Hok), switch_default
    by exact Hrest.
  eexists. reflexivity.
Qed.

(** ** Data transmission *)

(** C10. A message type other than [ToxMessageTypeAction], in or out of the
    declared enumeration, makes [FriendSendMessage] do exactly what it does
    for [ToxMessageTypeNormal]: same engine call, same result, same world. *)
Theorem C10_message_type_defaults_to_normal (tox : positive)
  (friendNumber : Z) (messageType : ToxMessageType) (message : slice)
  (w : World) :
  messageType <> ToxMessageTypeAction ->
  FriendSendMessage core tox friendNumber messageType message w
  = FriendSendMessage core tox friendNumber ToxMessageTypeNormal message w.
Proof.
  intros Hother. unfold FriendSendMessage. cbn [switch].
  rewrite (proj2 (Z.eqb_neq _ _) Hother). reflexivity.
Qed.

(** ** Friend state *)

(** C9. When [FriendGetName] or [FriendGetStatusMessage] returns an error,
    from the size query or from the fetch, the slice it returns is nil. *)
Theorem C9_error_means_nil_buffer (tox : positive) (friendNumber : Z)
  (w w' : World) (buffer : slice) (throw : option error) :
  FriendGetName core tox friendNumber w = Returns (buffer, throw) w' \/
  FriendGetStatusMessage core tox friendNumber w
  = Returns (buffer, throw) w' ->
  throw <> None ->
  buffer = None.
Proof.
  intros [Hrun|Hrun] Herr;
    unfold FriendGetName, FriendGetStatusMessage, bind, load, call, ret
      in Hrun;
    repeat case_match; simplify_eq; done.
Qed.

(** Both queries return on a live instance, unless [make] panics. *)
Lemma FriendGetName_returns (tox : positive) (friendNumber : Z) (w : World) :
  is_Some (goheap w !! tox) ->
  exists w',
    (exists r, FriendGetName core tox friendNumber w = Returns r w') \/
    FriendGetName core tox friendNumber w
    = Panics makeslice_len_out_of_range w'.
Proof.
  intros [t Hlive].
  unfold FriendGetName, bind, load, call, ret, makeslice, panic.
  rewrite Hlive. repeat case_match; simplify_eq; eauto.
Qed.

Lemma FriendGetStatusMessage_returns (tox : positive) (friendNumber : Z)
  (w : World) :
  is_Some (goheap w !! tox) ->
  exists w',
    (exists r, FriendGetStatusMessage core tox friendNumber w = Returns r w') \/
    FriendGetStatusMessage core tox friendNumber w
    = Panics makeslice_len_out_of_range w'.
Proof.
  intros [t Hlive].
  unfold FriendGetStatusMessage, bind, load, call, ret, makeslice, panic.
  rewrite Hlive. repeat case_match; simplify_eq; eauto.
Qed.
(** ** The C heap *)

Lemma with_cheap_same (w : World) : with_cheap (cheap w) w = w.
Proof. now destruct w. Qed.

(** The copy loop of [slice2array] overwrites [rest] into the block, from
    index [i] on, and touches nothing else. *)
Lemma slice2array_loop_spec (p : positive) (rest : list byte) :
  forall (i : nat) (w : World) (block : list byte),
    cheap w !! p = Some block ->
    (i + length rest <= length block)%nat ->
    slice2array_loop p i rest w
    = Returns tt
        (with_cheap
           (<[p := take i block ++ rest ++ drop (i + length rest) block]>
              (cheap w)) w).
Proof.
  induction rest as [|b rest IH]; intros i w block Hblock Hfits;
    cbn [slice2array_loop length] in *.
  - rewrite Nat.add_0_r, app_nil_l, take_drop, insert_id by done.
    now rewrite with_cheap_same.
  - unfold bind, C_store. rewrite Hblock.
    rewrite decide_True by lia.
    erewrite IH; cycle 1.
    + cbn [cheap]. apply lookup_insert_eq.
    + rewrite length_insert. lia.
    + unfold with_cheap. cbn [engine cheap goheap log].
      rewrite insert_insert_eq. do 3 f_equal.
      rewrite (take_S_r _ _ b) by (apply list_lookup_insert_eq; lia).
      rewrite take_insert_ge by lia.
      rewrite drop_insert_lt by lia.
      rewrite <- app_assoc. cbn [app].
      now replace (S i + length rest)%nat with (i + S (length rest))%nat
        by lia.
Qed.

Lemma len_bytes (s : slice) : length (bytes s) = len s.
Proof. now destruct s. Qed.

Lemma slice2array_spec (s : slice) (w : World) :
  let p := fresh (dom (cheap w)) in
  slice2array s w
  = Returns (Some p)
      (record (call_malloc p (len s))
         (with_cheap (<[p := bytes s]> (cheap w)) w)).
Proof.
  intros p. unfold slice2array, bind, C_malloc. fold p.
  erewrite slice2array_loop_spec; cycle 1.
  - cbn [cheap]. apply lookup_insert_eq.
  - rewrite length_replicate, len_bytes. cbn. lia.
  - unfold ret, record, with_cheap. cbn [engine cheap goheap log].
    rewrite insert_insert_eq, take_0, app_nil_l.
    rewrite drop_ge, app_nil_r; [reflexivity|].
    rewrite length_replicate, len_bytes. cbn. lia.
Qed.

Lemma C_CString_spec (s : string) (w : World) :
  let p := fresh (dom (cheap w)) in
  let block := list_ascii_of_string s ++ [NUL] in
  C_CString s w
  = Returns (Some p)
      (record (call_malloc p (length block))
         (with_cheap (<[p := block]> (cheap w)) w)).
Proof.
  intros p block. unfold C_CString, bind, C_malloc. fold p block.
  erewrite slice2array_loop_spec; cycle 1.
  - cbn [cheap]. apply lookup_insert_eq.
  - rewrite length_replicate. cbn. lia.
  - unfold ret, record, with_cheap. cbn [engine cheap goheap log].
    rewrite insert_insert_eq, take_0, app_nil_l.
    rewrite drop_ge, app_nil_r; [reflexivity|].
    rewrite length_replicate. cbn. lia.
Qed.

(** The copy loop of [array2slice] reads [n] bytes from index [i] on. *)
Lemma array2slice_loop_spec (p : positive) (block : list byte) (w : World) :
  cheap w !! p = Some block ->
  forall (n i : nat),
    (i + n <= length block)%nat ->
    array2slice_loop (Some p) i n w = Returns (take n (drop i block)) w.
Proof.
  intros Hblock. induction n as [|n IH]; intros i Hfits;
    cbn [array2slice_loop].
  - now rewrite take_0.
  - destruct (lookup_lt_is_Some_2 block i) as [b Hb]; [lia|].
    unfold bind at 1. unfold C_load. rewrite Hblock, Hb.
    unfold bind. rewrite IH by lia. unfold ret.
    now rewrite (drop_S _ b i Hb).
Qed.

Lemma strbytes_terminated (l : list byte) :
  ~ In NUL l -> strbytes (l ++ [NUL]) = Some l.
Proof.
  induction l as [|b l IH]; intros Hnot; cbn [app strbytes].
  - reflexivity.
  - destruct (Ascii.eqb_spec b NUL) as [->|_].
    + exfalso. apply Hnot. now left.
    + rewrite IH; [reflexivity|]. intros Hin. apply Hnot. now right.
Qed.
(** Two allocations in a row give two different blocks, both new; freeing
    them gives the heap back. *)
Lemma fresh_twice (h : gmap positive (list byte)) (b1 b2 : list byte) :
  let p1 := fresh (dom h) in
  let p2 := fresh (dom (<[p1 := b1]> h)) in
  h !! p1 = None /\ h !! p2 = None /\ p1 <> p2 /\
  delete p2 (delete p1 (<[p2 := b2]> (<[p1 := b1]> h))) = h.
Proof.
  intros p1 p2.
  assert (H1 : h !! p1 = None) by apply not_elem_of_dom, is_fresh.
  assert (H2 : <[p1 := b1]> h !! p2 = None) by apply not_elem_of_dom, is_fresh.
  assert (Hne : p1 <> p2).
  { intros Heq. rewrite <- Heq, lookup_insert_eq in H2. discriminate. }
  rewrite lookup_insert_ne in H2 by done.
  repeat split; try done.
  rewrite delete_insert_ne by done.
  rewrite (delete_insert_id h p1) by done.
  now apply delete_insert_id.
Qed.

(** ** Options translator *)

(** The Go-to-C switch of [COptions] and the C-to-Go switch of [GoOptions]
    undo each other on the declared proxy types. *)
Lemma proxy_type_there (p : ToxProxyType) :
  declared_proxy_type p ->
  exists c,
    In (p, c) proxy_type_table /\
    switch p
      [ (ToxProxyTypeNone, Some TOX_PROXY_TYPE_NONE);
        (ToxProxyTypeHttp, Some TOX_PROXY_TYPE_HTTP);
        (ToxProxyTypeSocks5, Some TOX_PROXY_TYPE_SOCKS5) ] None
    = Some c.
Proof.
  unfold declared_proxy_type, proxy_type_table.
  intros [<-|[<-|[<-|[]]]]; eexists; (split; [|reflexivity]); cbn; auto.
Qed.

Lemma proxy_type_back (p : ToxProxyType) (c : Z) :
  In (p, c) proxy_type_table ->
  switch c
    [ (TOX_PROXY_TYPE_NONE, Some ToxProxyTypeNone);
      (TOX_PROXY_TYPE_HTTP, Some ToxProxyTypeHttp);
      (TOX_PROXY_TYPE_SOCKS5, Some ToxProxyTypeSocks5) ] None
  = Some p.
Proof.
  intros Hin. apply switch_case; [exact proxy_type_cases|].
  unfold proxy_type_table in Hin. cbn in Hin |- *.
  destruct Hin as [H|[H|[H|[]]]]; injection H as <- <-; auto.
Qed.

(** What [COptions] returns on a declared proxy type: the configuration,
    two new blocks holding the host as a C string and the save data, and
    nothing else changed. *)
Lemma COptions_spec (o : ToxOptions) (w : World) :
  declared_proxy_type (ProxyType o) ->
  exists c_proxy_type p1 p2,
    In (ProxyType o, c_proxy_type) proxy_type_table /\
    cheap w !! p1 = None /\ cheap w !! p2 = None /\ p1 <> p2 /\
    delete p2 (delete p1
      (<[p2 := bytes (SaveData o)]>
         (<[p1 := list_ascii_of_string (ProxyHost o) ++ [NUL]]> (cheap w))))
    = cheap w /\
    COptions o w
    = Returns
        (Some {| ipv6_enabled := IPv6Enabled o;
                 udp_enabled := UDPEnabled o;
                 proxy_type := c_proxy_type;
                 proxy_host := Some p1;
                 proxy_port := ProxyPort o;
                 start_port := StartPort o;
                 end_port := EndPort o;
                 tcp_port := TCPPort o;
                 savedata_type :=
                   if (len (SaveData o) =? 0)%nat then TOX_SAVEDATA_TYPE_NONE
                   else TOX_SAVEDATA_TYPE_TOX_SAVE;
                 savedata_data := Some p2;
                 savedata_length := len (SaveData o) |}, None)
        {| engine := engine w;
           cheap := <[p2 := bytes (SaveData o)]>
                      (<[p1 := list_ascii_of_string (ProxyHost o) ++ [NUL]]>
                         (cheap w));
           goheap := goheap w;
           log := (log w
                   ++ [Cgo (call_malloc p1
                              (length (list_ascii_of_string (ProxyHost o)
                                       ++ [NUL])))])
                  ++ [Cgo (call_malloc p2 (len (SaveData o)))] |}.
Proof.
  intros Hdeclared.
  destruct (proxy_type_there _ Hdeclared) as (c & Hin & Hswitch).
  pose proof (fresh_twice (cheap w)
                (list_ascii_of_string (ProxyHost o) ++ [NUL])
                (bytes (SaveData o))) as Hfresh.
  cbv zeta in Hfresh. destruct Hfresh as (H1 & H2 & Hne & Hfree).
  eexists c, _, _.
  split; [exact Hin|]. split; [exact H1|]. split; [exact H2|].
  split; [exact Hne|]. split; [exact Hfree|].
  unfold COptions. rewrite Hswitch. unfold bind.
  rewrite C_CString_spec, slice2array_spec. reflexivity.
Qed.

(** C4. [COptions] on a configuration it accepts (one with a declared proxy
    type; any other is refused before the save data is looked at): empty
    save data gets the tag [TOX_SAVEDATA_TYPE_NONE]; save data that is not
    empty gets the tag [TOX_SAVEDATA_TYPE_TOX_SAVE], its exact length, and
    a block holding exactly its bytes. *)
Theorem C4_save_data_tag (o : ToxOptions) (w : World) :
  declared_proxy_type (ProxyType o) ->
  exists c w' p,
    COptions o w = Returns (Some c, None) w' /\
    (len (SaveData o) = 0%nat ->
     savedata_type c = TOX_SAVEDATA_TYPE_NONE) /\
    (len (SaveData o) <> 0%nat ->
     savedata_type c = TOX_SAVEDATA_TYPE_TOX_SAVE /\
     savedata_length c = len (SaveData o) /\
     savedata_data c = Some p /\
     cheap w' !! p = Some (bytes (SaveData o))).
Proof.
  intros Hdeclared.
  destruct (COptions_spec o w Hdeclared)
    as (c & p1 & p2 & _ & _ & _ & _ & _ & Hrun).
  eexists _, _, p2. split; [exact Hrun|].
  cbn [savedata_type savedata_length savedata_data cheap]. split.
  - intros ->. reflexivity.
  - intros Hlen. rewrite (proj2 (Nat.eqb_neq _ _) Hlen).
    repeat split. apply lookup_insert_eq.
Qed.

(** A configuration with another proxy type is refused, and nothing is
    allocated. *)
Lemma COptions_unknown_proxy_type (o : ToxOptions) (w : World) :
  ~ declared_proxy_type (ProxyType o) ->
  COptions o w = Returns (None, Some (errors_New "unknown proxy type")) w.
Proof.
  intros Hnot. unfold COptions.
  rewrite switch_default; [reflexivity|exact Hnot].
Qed.
(** C3, as the code has it. For every configuration with a declared proxy
    type whose proxy host holds no NUL byte, [GoOptions(COptions(C))]
    returns a configuration with every field of [C]: the two flags, proxy
    type, host and port, start, end and TCP ports, and the save data byte
    for byte. *)
Theorem C3_roundtrip_of_NUL_free_host (o : ToxOptions) (w : World) :
  declared_proxy_type (ProxyType o) ->
  ~ In NUL (list_ascii_of_string (ProxyHost o)) ->
  roundtrip_reproduces o w.
Proof.
  intros Hdeclared Hnul.
  destruct (COptions_spec o w Hdeclared)
    as (c & p1 & p2 & Hin & _ & _ & Hne & _ & Hrun).
  unfold roundtrip_reproduces, roundtrip, bind. rewrite Hrun. cbn [fst].
  unfold GoOptions.
  cbn [proxy_type proxy_host savedata_data savedata_length].
  rewrite (proxy_type_back _ _ Hin).
  unfold bind, C_GoString. cbn [cheap].
  rewrite lookup_insert_ne by done.
  rewrite lookup_insert_eq, strbytes_terminated by done.
  unfold array2slice, bind.
  erewrite array2slice_loop_spec; cycle 1.
  - cbn [cheap]. apply lookup_insert_eq.
  - rewrite len_bytes. cbn. lia.
  - unfold ret. eexists _, _. split; [reflexivity|].
    unfold reproduces.
    cbn [IPv6Enabled UDPEnabled ProxyType ProxyHost ProxyPort StartPort
         EndPort TCPPort SaveData ipv6_enabled udp_enabled proxy_port
         start_port end_port tcp_port bytes].
    rewrite string_of_list_ascii_of_string, drop_0.
    rewrite take_ge by (rewrite len_bytes; lia).
    repeat split.
Qed.

(** ** Instance lifecycle *)

Lemma New_create_spec (c_options : option C_struct_Tox_Options) (w : World) :
  exists r w',
    New_create core c_options w = Returns r w' /\
    snd r = throw_TOX_ERR_NEW
              (snd (snd (tox_new core (cheap w) c_options (engine w)))) /\
    (is_Some (snd r) -> fst r = None) /\
    cheap w' = cheap w /\
    log w' = log w ++ [Cgo call_tox_new].
Proof.
  unfold New_create, bind, C_heap, call.
  destruct (tox_new core (cheap w) c_options (engine w))
    as [e [c_tox c_error]].
  cbn [snd].
  destruct (throw_TOX_ERR_NEW c_error) as [throw|];
    eexists _, _; (split; [reflexivity|]); cbn [fst snd cheap log].
  - auto.
  - repeat split. intros [? [=]].
Qed.

Lemma FreeOptions_spec (c : C_struct_Tox_Options) (w : World)
  (p1 p2 : positive) :
  proxy_host c = Some p1 ->
  savedata_data c = Some p2 ->
  is_Some (cheap w !! p1) ->
  is_Some (cheap w !! p2) ->
  p1 <> p2 ->
  FreeOptions (Some c) w
  = Returns tt
      {| engine := engine w;
         cheap := delete p2 (delete p1 (cheap w));
         goheap := goheap w;
         log := (log w ++ [Cgo (call_free (Some p1))])
                ++ [Cgo (call_free (Some p2))] |}.
Proof.
  intros Hhost Hdata [b1 H1] [b2 H2] Hne.
  unfold FreeOptions, bind, C_free. rewrite Hhost, Hdata, H1. cbn [cheap].
  rewrite lookup_delete_ne, H2 by done. reflexivity.
Qed.

(** C5. Whenever [COptions] succeeds in [New], the deferred [FreeOptions]
    runs on every way out: whether the engine reports success or a code
    that becomes a typed error, the log shows the two releases after the
    engine call, of exactly the proxy-host and save-data blocks, and the C
    heap ends as it began. *)
Theorem C5_New_releases_configuration (o : ToxOptions) (w : World) :
  declared_proxy_type (ProxyType o) ->
  releases_configuration core o w.
Proof.
  intros Hdeclared.
  destruct (COptions_spec o w Hdeclared)
    as (c_proxy_type & p1 & p2 & _ & H1 & H2 & Hne & Hfree & Hrun).
  match type of Hrun with
  | _ = Returns (Some ?c, None) ?w1 =>
      destruct (New_create_spec (Some c) w1)
        as (r & w' & Hcreate & Hthrow & Hnil & Hheap & Hlog);
      assert (Hrelease := FreeOptions_spec c w' p1 p2 eq_refl eq_refl)
  end.
  cbn [cheap] in Hheap. rewrite Hheap in Hrelease.
  rewrite lookup_insert_ne, !lookup_insert_eq in Hrelease by done.
  specialize (Hrelease ltac:(eauto) ltac:(eauto) Hne).
  unfold releases_configuration.
  eexists _, _, r, _, p1, p2.
  split; [exact Hrun|].
  split; [reflexivity|]. split; [reflexivity|].
  cbn [cheap].
  split; [rewrite lookup_insert_ne, lookup_insert_eq by done; eauto|].
  split; [rewrite lookup_insert_eq; eauto|].
  split.
  { unfold New, bind. rewrite Hrun. unfold defer.
    rewrite Hcreate, Hrelease. reflexivity. }
  cbn [cheap log engine].
  split; [exact Hthrow|]. split; [exact Hnil|].
  rewrite Hlog. cbn [log]. rewrite Hfree, H1, H2.
  split; [|done].
  now rewrite <- !app_assoc.
Qed.
(** ** Networking *)

(** [fromHexChar] accepts exactly the hexadecimal digits. *)
Lemma fromHexChar_accepts (c : byte) :
  match fromHexChar c with Some _ => true | None => false end
  = existsb (Ascii.eqb c) (list_ascii_of_string "0123456789abcdefABCDEF").
Proof. destruct c as [[] [] [] [] [] [] [] []]; vm_compute; reflexivity. Qed.

Lemma fromHexChar_hex_digit (c : byte) :
  is_Some (fromHexChar c) <-> hex_digit c.
Proof.
  unfold hex_digit. pose proof (fromHexChar_accepts c) as Hagree. split.
  - intros [n Hn]. rewrite Hn in Hagree. symmetry in Hagree.
    apply existsb_exists in Hagree as (d & Hin & Heq).
    now apply Ascii.eqb_eq in Heq as ->.
  - intros Hin. destruct (fromHexChar c); [eauto|].
    assert (Hfound : existsb (Ascii.eqb c)
                       (list_ascii_of_string "0123456789abcdefABCDEF")
                     = true).
    { apply existsb_exists. exists c.
      split; [exact Hin|apply Ascii.eqb_refl]. }
    rewrite Hfound in Hagree. discriminate.
Qed.

(** The decoding loop on [n] pairs of characters: it ends without an error
    exactly when all of them are hexadecimal digits, with [n] bytes; its
    only error is [InvalidByteError]. *)
Lemma hex_Decode_loop_spec (n : nat) :
  forall src : list byte,
    length src = (2 * n)%nat ->
    (snd (hex_Decode_loop src) = None <-> Forall hex_digit src) /\
    (snd (hex_Decode_loop src) = None ->
     length (fst (hex_Decode_loop src)) = n) /\
    (forall e, snd (hex_Decode_loop src) = Some e ->
               exists b, e = hex_InvalidByteError b).
Proof.
  induction n as [|n IH]; intros src Hlen.
  - destruct src; [|discriminate]. cbn. repeat split; auto; discriminate.
  - destruct src as [|p [|q rest]]; [discriminate| cbn in Hlen; lia |].
    assert (Hrest : length rest = (2 * n)%nat) by (cbn in Hlen; lia).
    destruct (IH rest Hrest) as (Hiff & Hdst & Herr).
    cbn [hex_Decode_loop].
    pose proof (fromHexChar_hex_digit p) as Hp.
    pose proof (fromHexChar_hex_digit q) as Hq.
    rewrite !Forall_cons.
    destruct (fromHexChar p) as [a|]; cycle 1.
    { cbn. repeat split; try discriminate.
      - intros (Hd & _). apply Hp in Hd as [? [=]].
      - intros e [= <-]. eauto. }
    destruct (fromHexChar q) as [b|]; cycle 1.
    { cbn. repeat split; try discriminate.
      - intros (_ & Hd & _). apply Hq in Hd as [? [=]].
      - intros e [= <-]. eauto. }
    destruct (hex_Decode_loop rest) as [dst err]. cbn [fst snd] in *.
    repeat split.
    + apply Hp; eauto.
    + apply Hq; eauto.
    + now apply Hiff.
    + intros (_ & _ & Hall). now apply Hiff.
    + intros Hnone. cbn [length]. now rewrite Hdst.
    + exact Herr.
Qed.

Lemma length_list_ascii_of_string (s : string) :
  length (list_ascii_of_string s) = String.length s.
Proof. induction s as [|c s IH]; cbn; [reflexivity|now rewrite IH]. Qed.

Lemma hex_DecodeString_valid (s : string) :
  valid_hex s ->
  exists key,
    hex_DecodeString s = (Some key, None) /\
    String.length s = (2 * length key)%nat.
Proof.
  intros [[n Heven] Hall]. unfold hex_DecodeString.
  rewrite <- length_list_ascii_of_string in Heven.
  destruct (hex_Decode_loop_spec n _ Heven) as (Hiff & Hdst & _).
  rewrite Heven, Nat.odd_even.
  apply Hiff in Hall.
  destruct (hex_Decode_loop (list_ascii_of_string s)) as [dst err].
  cbn [fst snd] in *. subst err.
  exists dst. split; [reflexivity|].
  rewrite <- length_list_ascii_of_string, Heven, Hdst; [reflexivity|done].
Qed.

Lemma hex_DecodeString_invalid (s : string) :
  ~ valid_hex s ->
  exists e,
    hex_DecodeString s = (None, Some e) /\
    (e = hex_ErrLength \/ exists b, e = hex_InvalidByteError b).
Proof.
  intros Hinvalid. unfold hex_DecodeString.
  destruct (Nat.odd (length (list_ascii_of_string s))) eqn:Hodd; [eauto|].
  assert (Heven : Nat.Even (length (list_ascii_of_string s))).
  { apply Nat.even_spec. now rewrite <- Nat.negb_odd, Hodd. }
  destruct Heven as [n Heven].
  destruct (hex_Decode_loop_spec n _ Heven) as (Hiff & _ & Herr).
  destruct (hex_Decode_loop (list_ascii_of_string s)) as [dst [e|]];
    cbn [fst snd] in *.
  - destruct (Herr e eq_refl) as [b ->]. eauto.
  - exfalso. apply Hinvalid. split; [|now apply Hiff].
    exists n. now rewrite <- length_list_ascii_of_string.
Qed.

(** [Bootstrap] when the key is refused with [err]: only the host string is
    allocated and freed again. *)
Lemma Bootstrap_refused (tox : positive) (seedNode : SeedNode) (w : World)
  (err : error) :
  (forall (c_host : cptr) (w1 : World),
     Bootstrap_connect core tox seedNode c_host w1 = Returns (Some err) w1) ->
  exists w' p n,
    Bootstrap core tox seedNode w = Returns (Some err) w' /\
    log w' = log w ++ [Cgo (call_malloc p n); Cgo (call_free (Some p))] /\
    engine w' = engine w /\
    cheap w' = cheap w.
Proof.
  intros Hrefused. unfold Bootstrap, bind.
  rewrite C_CString_spec. unfold defer. rewrite Hrefused.
  unfold C_free, record, with_cheap. cbn [cheap engine goheap log].
  rewrite lookup_insert_eq. eexists _, _, _. split; [reflexivity|].
  cbn [cheap engine goheap log]. rewrite <- app_assoc. repeat split.
  apply delete_insert_id, not_elem_of_dom, is_fresh.
Qed.

(** C8. When the seed node's key is not valid hexadecimal, or decodes to a
    number of bytes that is not the public-key size, [Bootstrap] returns an
    error that is none of the bootstrap family's errors, and the only C
    calls it makes are the allocation and the release of the host string:
    the engine's bootstrap operation is not called and the engine's state
    is untouched. *)
Theorem C8_bad_key_never_reaches_engine (tox : positive)
  (seedNode : SeedNode) (w : World) :
  ~ valid_hex (PublicKey seedNode) \/
  (exists key,
     hex_DecodeString (PublicKey seedNode) = (Some key, None) /\
     length key <> ToxPublicKeySize) ->
  exists err w' p n,
    Bootstrap core tox seedNode w = Returns (Some err) w' /\
    ~ In err bootstrap_errors /\
    log w' = log w ++ [Cgo (call_malloc p n); Cgo (call_free (Some p))] /\
    engine w' = engine w.
Proof.
  intros [Hinvalid|(key & Hkey & Hsize)].
  - destruct (hex_DecodeString_invalid _ Hinvalid) as (e & Hdecode & Hshape).
    destruct (Bootstrap_refused tox seedNode w e)
      as (w' & p & n & Hrun & Hlog & Hengine & _).
    { intros c_host w1. unfold Bootstrap_connect. now rewrite Hdecode. }
    exists e, w', p, n. repeat split; try assumption.
    unfold bootstrap_errors. cbn.
    destruct Hshape as [->|[b ->]]; intuition discriminate.
  - destruct (Bootstrap_refused tox seedNode w
                (errors_New "invalid public key"))
      as (w' & p & n & Hrun & Hlog & Hengine & _).
    { intros c_host w1. unfold Bootstrap_connect. rewrite Hkey.
      cbn [len]. now rewrite (proj2 (Nat.eqb_neq _ _) Hsize). }
    eexists _, w', p, n. repeat split; try eassumption.
    unfold bootstrap_errors. cbn. intuition discriminate.
Qed.
(** ** Size-then-fetch queries *)

Lemma fill_length (buffer : slice) (written : list byte) :
  len (fill buffer written) = len buffer.
Proof.
  unfold fill. cbn [len]. rewrite length_take, length_app, length_drop.
  rewrite len_bytes. lia.
Qed.

Lemma make_length (n : nat) : len (make n) = n.
Proof. apply length_replicate. Qed.

Lemma fetched (query : M slice) (n : nat) (w w' : World) (s : slice) :
  query w = Returns s w' -> is_Some s -> len s = n ->
  fetches_exactly query n w.
Proof.
  intros Hrun [data ->] Hlen. exists data, w'. repeat split; try done.
  intros ->. now apply nil_length_inv.
Qed.

(** [make]: the zeroed slice within the limit, a panic past it. *)
Lemma makeslice_within {A : Type} (element_size : Z) (n : nat) (zeroed : A)
  (w : World) :
  fits element_size n = true ->
  makeslice element_size n zeroed w = Returns zeroed w.
Proof. unfold makeslice. now intros ->. Qed.

Lemma makeslice_past {A : Type} (element_size : Z) (n : nat) (zeroed : A)
  (w : World) :
  fits element_size n = false ->
  makeslice (Engine := Engine) (Act := Act) element_size n zeroed w
  = Panics makeslice_len_out_of_range w.
Proof. unfold makeslice. now intros ->. Qed.

(** A size that no [int] holds is past the limit of every runtime. *)
Lemma fits_int (element_size : Z) (n : nat) :
  1 <= element_size -> 2 ^ 63 <= Z.of_nat n -> fits element_size n = false.
Proof.
  intros Hsize Hn. unfold fits. apply Z.leb_gt.
  pose proof max_alloc_range as [_ Hlimit]. nia.
Qed.

Lemma Serialize_fetches (tox : positive) (t : Tox Act) (w : World) :
  goheap w !! tox = Some t ->
  fetches_within_limit (Serialize core tox)
    (snd (tox_get_savedata_size core (handle t) (engine w))) w.
Proof.
  intros Hlive.
  destruct (tox_get_savedata_size core (handle t) (engine w))
    as [e n] eqn:Hsize.
  destruct (tox_get_savedata core (handle t) e) as [e' written] eqn:Hget.
  cbn [snd]. split; intros Hfits.
  - destruct (0 <? n)%nat eqn:Hpos.
    + eapply (fetched _ _ _ _ (fill (make n) written)).
      * unfold Serialize, bind, load, call, ret.
        rewrite Hlive, Hsize. cbv beta iota.
        rewrite makeslice_within by exact Hfits.
        rewrite Hpos. cbn [engine]. rewrite Hget. reflexivity.
      * unfold fill. eauto.
      * now rewrite fill_length, make_length.
    + eapply (fetched _ _ _ _ (make n)).
      * unfold Serialize, bind, load, call, ret.
        rewrite Hlive, Hsize. cbv beta iota.
        rewrite makeslice_within by exact Hfits.
        rewrite Hpos. reflexivity.
      * unfold make. eauto.
      * apply make_length.
  - eexists. unfold Serialize, bind, load, call.
    rewrite Hlive, Hsize. cbv beta iota.
    rewrite makeslice_past by exact Hfits. reflexivity.
Qed.

Lemma GetName_fetches (tox : positive) (t : Tox Act) (w : World) :
  goheap w !! tox = Some t ->
  fetches_within_limit (GetName core tox)
    (snd (tox_self_get_name_size core (handle t) (engine w))) w.
Proof.
  intros Hlive.
  destruct (tox_self_get_name_size core (handle t) (engine w))
    as [e n] eqn:Hsize.
  destruct (tox_self_get_name core (handle t) (0 <? n)%nat e)
    as [e' written] eqn:Hget.
  cbn [snd]. split; intros Hfits.
  - eapply (fetched _ _ _ _
              (if (0 <? n)%nat then fill (make n) written else make n)).
    + unfold GetName, bind, load, call, ret.
      rewrite Hlive, Hsize. cbv beta iota.
      rewrite makeslice_within by exact Hfits.
      cbn [engine]. rewrite Hget. reflexivity.
    + destruct (0 <? n)%nat; unfold fill, make; eauto.
    + destruct (0 <? n)%nat; now rewrite ?fill_length, make_length.
  - eexists. unfold GetName, bind, load, call.
    rewrite Hlive, Hsize. cbv beta iota.
    rewrite makeslice_past by exact Hfits. reflexivity.
Qed.

Lemma GetStatusMessage_fetches (tox : positive) (t : Tox Act) (w : World) :
  goheap w !! tox = Some t ->
  fetches_within_limit (GetStatusMessage core tox)
    (snd (tox_self_get_status_message_size core (handle t) (engine w))) w.
Proof.
  intros Hlive.
  destruct (tox_self_get_status_message_size core (handle t) (engine w))
    as [e n] eqn:Hsize.
  destruct (tox_self_get_status_message core (handle t) (0 <? n)%nat e)
    as [e' written] eqn:Hget.
  cbn [snd]. split; intros Hfits.
  - eapply (fetched _ _ _ _
              (if (0 <? n)%nat then fill (make n) written else make n)).
    + unfold GetStatusMessage, bind, load, call, ret.
      rewrite Hlive, Hsize. cbv beta iota.
      rewrite makeslice_within by exact Hfits.
      cbn [engine]. rewrite Hget. reflexivity.
    + destruct (0 <? n)%nat; unfold fill, make; eauto.
    + destruct (0 <? n)%nat; now rewrite ?fill_length, make_length.
  - eexists. unfold GetStatusMessage, bind, load, call.
    rewrite Hlive, Hsize. cbv beta iota.
    rewrite makeslice_past by exact Hfits. reflexivity.
Qed.

(** C6, as the code has it.  On a live instance [Serialize], [GetName] and
    [GetStatusMessage] end as the size the engine reports decides.  When
    that many bytes are within the limit of the Go runtime, they return a
    present slice of exactly that length, which for a reported size of zero
    is the empty slice, present and not nil.  When they are not, the [make]
    that allocates the buffer panics ("makeslice: len out of range"), and
    nothing is fetched. *)
Theorem C6_fetch_buffer_has_reported_size_within_limit (tox : positive)
  (t : Tox Act) (w : World) :
  goheap w !! tox = Some t ->
  fetches_within_limit (Serialize core tox)
    (snd (tox_get_savedata_size core (handle t) (engine w))) w /\
  fetches_within_limit (GetName core tox)
    (snd (tox_self_get_name_size core (handle t) (engine w))) w /\
  fetches_within_limit (GetStatusMessage core tox)
    (snd (tox_self_get_status_message_size core (handle t) (engine w))) w.
Proof.
  intros Hlive. split; [|split].
  - now apply Serialize_fetches.
  - now apply GetName_fetches.
  - now apply GetStatusMessage_fetches.
Qed.
(** ** Event callback dispatcher *)

(** Each [SetOn...] is the registration of its kind. *)
Ltac is_registration :=
  intros tox t w callback Hlive;
  unfold SetOnSelfConnectionStatus, SetOnFriendRequest, SetOnFriendName,
    SetOnFriendStatus, SetOnFriendStatusMessage, SetOnFriendConnectionStatus,
    SetOnFriendMessage, SetOnFriendLosslessPacket,
    register, cgoCheckPointer, bind, load, store, call, registration_ends;
  rewrite Hlive; cbn [goheap engine cheap log handle];
  rewrite lookup_insert_eq;
  match goal with
  | |- context [holds_go_pointer ?t'] => destruct (holds_go_pointer t')
  end; reflexivity.

Lemma SetOnSelfConnectionStatus_registers :
  registration_of core (SetOnSelfConnectionStatus core)
    (fun callback (t : Tox Act) =>
       {| handle := handle t;
          onSelfConnectionStatus := callback;
          onFriendRequest := onFriendRequest t;
          onFriendName := onFriendName t;
          onFriendStatus := onFriendStatus t;
          onFriendStatusMessage := onFriendStatusMessage t;
          onFriendConnectionStatus := onFriendConnectionStatus t;
          onFriendMessage := onFriendMessage t;
          onFriendLosslessPacket := onFriendLosslessPacket t |})
    self_connection_status.
Proof. is_registration. Qed.

Lemma SetOnFriendRequest_registers :
  registration_of core (SetOnFriendRequest core)
    (fun callback (t : Tox Act) =>
       {| handle := handle t;
          onSelfConnectionStatus := onSelfConnectionStatus t;
          onFriendRequest := callback;
          onFriendName := onFriendName t;
          onFriendStatus := onFriendStatus t;
          onFriendStatusMessage := onFriendStatusMessage t;
          onFriendConnectionStatus := onFriendConnectionStatus t;
          onFriendMessage := onFriendMessage t;
          onFriendLosslessPacket := onFriendLosslessPacket t |})
    friend_request.
Proof. is_registration. Qed.

Lemma SetOnFriendName_registers :
  registration_of core (SetOnFriendName core)
    (fun callback (t : Tox Act) =>
       {| handle := handle t;
          onSelfConnectionStatus := onSelfConnectionStatus t;
          onFriendRequest := onFriendRequest t;
          onFriendName := callback;
          onFriendStatus := onFriendStatus t;
          onFriendStatusMessage := onFriendStatusMessage t;
          onFriendConnectionStatus := onFriendConnectionStatus t;
          onFriendMessage := onFriendMessage t;
          onFriendLosslessPacket := onFriendLosslessPacket t |})
    friend_name.
Proof. is_registration. Qed.

Lemma SetOnFriendStatus_registers :
  registration_of core (SetOnFriendStatus core)
    (fun callback (t : Tox Act) =>
       {| handle := handle t;
          onSelfConnectionStatus := onSelfConnectionStatus t;
          onFriendRequest := onFriendRequest t;
          onFriendName := onFriendName t;
          onFriendStatus := callback;
          onFriendStatusMessage := onFriendStatusMessage t;
          onFriendConnectionStatus := onFriendConnectionStatus t;
          onFriendMessage := onFriendMessage t;
          onFriendLosslessPacket := onFriendLosslessPacket t |})
    friend_status.
Proof. is_registration. Qed.

Lemma SetOnFriendStatusMessage_registers :
  registration_of core (SetOnFriendStatusMessage core)
    (fun callback (t : Tox Act) =>
       {| handle := handle t;
          onSelfConnectionStatus := onSelfConnectionStatus t;
          onFriendRequest := onFriendRequest t;
          onFriendName := onFriendName t;
          onFriendStatus := onFriendStatus t;
          onFriendStatusMessage := callback;
          onFriendConnectionStatus := onFriendConnectionStatus t;
          onFriendMessage := onFriendMessage t;
          onFriendLosslessPacket := onFriendLosslessPacket t |})
    friend_status_message.
Proof. is_registration. Qed.

Lemma SetOnFriendConnectionStatus_registers :
  registration_of core (SetOnFriendConnectionStatus core)
    (fun callback (t : Tox Act) =>
       {| handle := handle t;
          onSelfConnectionStatus := onSelfConnectionStatus t;
          onFriendRequest := onFriendRequest t;
          onFriendName := onFriendName t;
          onFriendStatus := onFriendStatus t;
          onFriendStatusMessage := onFriendStatusMessage t;
          onFriendConnectionStatus := callback;
          onFriendMessage := onFriendMessage t;
          onFriendLosslessPacket := onFriendLosslessPacket t |})
    friend_connection_status.
Proof. is_registration. Qed.

Lemma SetOnFriendMessage_registers :
  registration_of core (SetOnFriendMessage core)
    (fun callback (t : Tox Act) =>
       {| handle := handle t;
          onSelfConnectionStatus := onSelfConnectionStatus t;
          onFriendRequest := onFriendRequest t;
          onFriendName := onFriendName t;
          onFriendStatus := onFriendStatus t;
          onFriendStatusMessage := onFriendStatusMessage t;
          onFriendConnectionStatus := onFriendConnectionStatus t;
          onFriendMessage := callback;
          onFriendLosslessPacket := onFriendLosslessPacket t |})
    friend_message.
Proof. is_registration. Qed.

Lemma SetOnFriendLosslessPacket_registers :
  registration_of core (SetOnFriendLosslessPacket core)
    (fun callback (t : Tox Act) =>
       {| handle := handle t;
          onSelfConnectionStatus := onSelfConnectionStatus t;
          onFriendRequest := onFriendRequest t;
          onFriendName := onFriendName t;
          onFriendStatus := onFriendStatus t;
          onFriendStatusMessage := onFriendStatusMessage t;
          onFriendConnectionStatus := onFriendConnectionStatus t;
          onFriendMessage := onFriendMessage t;
          onFriendLosslessPacket := callback |})
    friend_lossless_packet.
Proof. is_registration. Qed.

(** Where a registration leaves the instance, however it ends. *)
Lemma registration_ends_stored (kind : EventKind) (tox : positive)
  (t' : Tox Act) (w : World) :
  exists w',
    world_after (registration_ends core kind tox t' w) = Some w' /\
    goheap w' = <[tox := t']> (goheap w).
Proof.
  unfold registration_ends. destruct (holds_go_pointer t'); eauto.
Qed.

(** A registration that writes one slot, run twice. *)
Lemma registration_replaces {H : Type}
  (set : positive -> option H -> M unit)
  (update : option H -> Tox Act -> Tox Act) (slot : Tox Act -> option H)
  (kind : EventKind) :
  registration_of core set update kind ->
  (forall callback t, slot (update callback t) = callback) ->
  (forall old new t, update new (update old t) = update new t) ->
  forall tox t w old new,
    goheap w !! tox = Some t ->
    replaced_by core set slot kind tox w old new.
Proof.
  intros Hset Hslot Hupdate tox t w old new Hlive.
  destruct (registration_ends_stored kind tox (update old t) w)
    as (w1 & Hfirst & Hheap1).
  assert (Hlive1 : goheap w1 !! tox = Some (update old t)).
  { rewrite Hheap1. apply lookup_insert_eq. }
  destruct (registration_ends_stored kind tox (update new t) w1)
    as (w2 & Hsecond & Hheap2).
  destruct (registration_ends_stored kind tox (update new t) w)
    as (w2' & Halone & Hheap2').
  exists w1, w2, w2', (update new t).
  rewrite (Hset tox t w old Hlive), (Hset tox t w new Hlive).
  rewrite (Hset tox (update old t) w1 new Hlive1), Hupdate.
  split; [exact Hfirst|]. split; [exact Hsecond|]. split; [exact Halone|].
  split; [|split; [|split]].
  - rewrite Hheap2, Hheap2', Hheap1. apply insert_insert_eq.
  - rewrite Hheap2. apply lookup_insert_eq.
  - apply Hslot.
  - reflexivity.
Qed.

(** C7. An instance has one slot for each event kind.  Registering a
    handler for a kind that already has one stores the new handler in the
    slot and leaves the instance exactly as if the new handler had been
    registered alone: nothing of the old handler is kept.  The handler is
    stored before the engine is called, so this holds however the calls
    end: a registration returns unless the instance then holds a func
    value that points into Go memory, which makes cgo's check of the
    instance pointer panic. *)
Theorem C7_registering_again_replaces (tox : positive) (t : Tox Act)
  (w : World) :
  goheap w !! tox = Some t ->
  (forall old new,
     replaced_by core (SetOnSelfConnectionStatus core) onSelfConnectionStatus
       self_connection_status tox w old new) /\
  (forall old new,
     replaced_by core (SetOnFriendRequest core) onFriendRequest
       friend_request tox w old new) /\
  (forall old new,
     replaced_by core (SetOnFriendName core) onFriendName
       friend_name tox w old new) /\
  (forall old new,
     replaced_by core (SetOnFriendStatus core) onFriendStatus
       friend_status tox w old new) /\
  (forall old new,
     replaced_by core (SetOnFriendStatusMessage core) onFriendStatusMessage
       friend_status_message tox w old new) /\
  (forall old new,
     replaced_by core (SetOnFriendConnectionStatus core)
       onFriendConnectionStatus friend_connection_status tox w old new) /\
  (forall old new,
     replaced_by core (SetOnFriendMessage core) onFriendMessage
       friend_message tox w old new) /\
  (forall old new,
     replaced_by core (SetOnFriendLosslessPacket core) onFriendLosslessPacket
       friend_lossless_packet tox w old new).
Proof.
  intros Hlive.
  repeat split; intros old new;
    eapply registration_replaces;
    first [ apply SetOnSelfConnectionStatus_registers
          | apply SetOnFriendRequest_registers
          | apply SetOnFriendName_registers
          | apply SetOnFriendStatus_registers
          | apply SetOnFriendStatusMessage_registers
          | apply SetOnFriendConnectionStatus_registers
          | apply SetOnFriendMessage_registers
          | apply SetOnFriendLosslessPacket_registers
          | exact Hlive
          | reflexivity ].
Qed.

(** After the second registration the event reaches the new handler, once,
    and the old one not at all. *)
Lemma replaced_handler_is_the_one_called (tox : positive) (t : Tox Act)
  (w w1 w2 : World) (old new : @OnFriendName Act) (friendNumber : Z)
  (c_name : list byte) :
  goheap w !! tox = Some t ->
  SetOnFriendName core tox (Some old) w = Returns tt w1 ->
  SetOnFriendName core tox (Some new) w1 = Returns tt w2 ->
  callback_friend_name friendNumber c_name tox w2
  = Returns tt (handled (new tox friendNumber (Some c_name)) w2).
Proof.
  intros Hlive Hfirst Hsecond.
  rewrite (SetOnFriendName_registers _ _ _ _ Hlive) in Hfirst.
  unfold registration_ends in Hfirst.
  destruct (holds_go_pointer _) in Hfirst; [discriminate|].
  injection Hfirst as <-.
  rewrite (SetOnFriendName_registers tox _ _ _ (lookup_insert_eq _ _ _))
    in Hsecond.
  unfold registration_ends in Hsecond.
  destruct (holds_go_pointer _) in Hsecond; [discriminate|].
  injection Hsecond as <-.
  unfold callback_friend_name, bind, load. cbn [goheap].
  now rewrite lookup_insert_eq.
Qed.

Lemma dispatch {H : Type} (slot : Tox Act -> option H) (run : H -> Act)
  (tox : positive) (w : World) (a : Act) :
  run <$> registered slot tox w = Some a ->
  bind (load tox) (fun t => call_handler (slot t) run) w
  = Returns tt (handled a w).
Proof.
  unfold registered, bind, load, call_handler. intros Hrun.
  destruct (goheap w !! tox) as [t|]; [|discriminate].
  destruct (slot t) as [h|]; [|discriminate].
  now injection Hrun as <-.
Qed.

(** C1, as the code has it. In each of the four trampolines that decode an
    enumerated field, a value the switch lists is decoded to its Go
    constant and handed to the registered handler; any other value makes
    the trampoline panic ("unknown connection status", "unknown user
    status", "unknown message type") before the handler is reached,
    whatever is registered. *)
Theorem C1_trampolines_decode_or_panic (tox : positive) (friendNumber : Z)
  (c_message : list byte) (w : World) :
  decodes_or_panics connection_table "unknown connection status"
    (fun c => callback_self_connection_status c tox)
    (fun g => (fun h => h tox g)
              <$> registered onSelfConnectionStatus tox w) w /\
  decodes_or_panics user_status_table "unknown user status"
    (fun c => callback_friend_status friendNumber c tox)
    (fun g => (fun h => h tox friendNumber g)
              <$> registered onFriendStatus tox w) w /\
  decodes_or_panics connection_table "unknown connection status"
    (fun c => callback_friend_connection_status friendNumber c tox)
    (fun g => (fun h => h tox friendNumber g)
              <$> registered onFriendConnectionStatus tox w) w /\
  decodes_or_panics message_type_table "unknown message type"
    (fun c => callback_friend_message friendNumber c c_message tox)
    (fun g => (fun h => h tox friendNumber g (Some c_message))
              <$> registered onFriendMessage tox w) w.
Proof.
  unfold decodes_or_panics, connection_table, user_status_table,
    message_type_table.
  repeat split.
  all: try (intros c Hnot;
            unfold callback_self_connection_status, callback_friend_status,
              callback_friend_connection_status, callback_friend_message;
            rewrite switch_default; [reflexivity|exact Hnot]).
  all: intros c g a Hin Hdoes;
    unfold callback_self_connection_status, callback_friend_status,
      callback_friend_connection_status, callback_friend_message;
    rewrite (switch_case c (Some g));
    [ cbv zeta; unfold copy_out; now apply dispatch
    | first [ exact connection_cases | exact user_status_cases
            | exact message_type_cases ]
    | cbn in Hin |- *;
      repeat (destruct Hin as [Hin|Hin]; [injection Hin as <- <-; auto 6|]);
      destruct Hin ].
Qed.
End Properties.

(** * Further properties of the binding *)

Lemma in_values_unique {A B : Type} (table : list (A * B)) (a1 a2 : A)
  (b : B) :
  NoDup (map snd table) -> In (a1, b) table -> In (a2, b) table -> a1 = a2.
Proof.
  induction table as [|[a b'] table IH]; cbn; [intros _ []|].
  intros Hnodup H1 H2. apply NoDup_cons in Hnodup as [Hfresh Hrest].
  assert (Hin : forall a0, In (a0, b') table -> False).
  { intros a0 Hin. apply Hfresh, list_elem_of_In.
    change b' with (snd (a0, b')). now apply in_map. }
  destruct H1 as [E1|H1], H2 as [E2|H2].
  - congruence.
  - injection E1 as -> ->. exfalso. eauto.
  - injection E2 as -> ->. exfalso. eauto.
  - eauto.
Qed.

Section MoreProperties.
Context {hdr : ToxHeader} {rt : GoRuntime} {Engine Act : Type}.
Context (core : ToxCore Engine) (more : ToxCoreMore Engine).

Local Abbreviation World := (World Engine Act).
Local Abbreviation M := (@M Engine Act).

(** ** Error taxonomy *)

(** The tables are the switches of [tox.go]. *)
Lemma classify_by_table (family : Family) (code : Z) :
  classify family code
  = if code =? ok_code family then None
    else Some (switch code (named_failures family) ToxErrUnknown).
Proof. destruct family; reflexivity. Qed.

Lemma known_codes_by_table (family : Family) :
  known_codes family = ok_code family :: map fst (named_failures family).
Proof. destruct family; reflexivity. Qed.

Lemma named_errors_differ (family : Family) :
  NoDup (map snd (named_failures family)).
Proof.
  destruct family; cbn;
    repeat (apply NoDup_cons_2;
            [rewrite ?elem_of_cons, elem_of_nil; intuition discriminate|]);
    apply NoDup_nil_2.
Qed.

Lemma classify_ok (family : Family) :
  classify family (ok_code family) = None.
Proof. now rewrite classify_by_table, Z.eqb_refl. Qed.

Lemma classify_named (family : Family) (code : Z) (e : error) :
  NoDup (known_codes family) ->
  In (code, e) (named_failures family) ->
  classify family code = Some e.
Proof.
  rewrite known_codes_by_table. intros Hnodup Hin.
  apply NoDup_cons in Hnodup as [Hok Hrest].
  rewrite classify_by_table.
  destruct (Z.eqb_spec code (ok_code family)) as [Heq|_].
  - exfalso. apply Hok, list_elem_of_In. rewrite <- Heq.
    change code with (fst (code, e)). now apply in_map.
  - f_equal. now apply switch_case.
Qed.

(** X1. In a family whose codes differ from one another, the engine's OK is
    translated to no error and every named failure code to the error that
    bears its name. *)
Theorem known_code_gets_its_own_error (family : Family) :
  NoDup (known_codes family) ->
  classify family (ok_code family) = None /\
  forall code e,
    In (code, e) (named_failures family) ->
    classify family code = Some e.
Proof.
  intros Hnodup. split; [apply classify_ok|].
  intros code e. now apply classify_named.
Qed.

(** X2. In a family whose codes differ from one another, two known codes
    that are translated alike are the same code: no two outcomes of the
    engine are merged. *)
Theorem known_codes_are_told_apart (family : Family) (c1 c2 : Z) :
  NoDup (known_codes family) ->
  In c1 (known_codes family) ->
  In c2 (known_codes family) ->
  classify family c1 = classify family c2 ->
  c1 = c2.
Proof.
  intros Hnodup H1 H2 Hsame.
  pose proof (classify_ok family) as Hok.
  pose proof (fun c e => classify_named family c e Hnodup) as Hnamed.
  rewrite known_codes_by_table in H1, H2.
  assert (Hentry : forall c, In c (map fst (named_failures family)) ->
                             exists e, In (c, e) (named_failures family)).
  { intros c Hc. apply in_map_iff in Hc as ([c' e] & <- & Hin). eauto. }
  destruct H1 as [<-|H1], H2 as [<-|H2]; [reflexivity| | |].
  - apply Hentry in H2 as [e He]. rewrite Hok, (Hnamed _ _ He) in Hsame.
    discriminate.
  - apply Hentry in H1 as [e He]. rewrite Hok, (Hnamed _ _ He) in Hsame.
    discriminate.
  - apply Hentry in H1 as [e1 He1]. apply Hentry in H2 as [e2 He2].
    rewrite (Hnamed _ _ He1), (Hnamed _ _ He2) in Hsame.
    injection Hsame as <-.
    exact (in_values_unique _ _ _ _ (named_errors_differ family) He1 He2).
Qed.

(** ** Instance lifecycle *)

(** [New] from the call of [tox_new] on: the engine's code decides, and a
    new instance holds the engine's handle. *)
Lemma New_create_cases (c_options : option C_struct_Tox_Options) (w : World) :
  exists r w',
    New_create core c_options w = Returns r w' /\
    cheap w' = cheap w /\
    let answer := snd (tox_new core (cheap w) c_options (engine w)) in
    match throw_TOX_ERR_NEW (snd answer) with
    | None =>
        exists tox,
          r = (Some tox, None) /\
          goheap w !! tox = None /\
          goheap w' = <[tox := blank (fst answer)]> (goheap w)
    | Some throw => r = (None, Some throw) /\ goheap w' = goheap w
    end.
Proof.
  unfold New_create, bind, C_heap, call. cbv zeta.
  destruct (tox_new core (cheap w) c_options (engine w))
    as [e [c_tox c_error]].
  cbn [fst snd].
  destruct (throw_TOX_ERR_NEW c_error) as [throw|];
    eexists _, _; (split; [reflexivity|]); cbn [cheap goheap];
    (split; [reflexivity|]).
  - split; reflexivity.
  - eexists. repeat split. apply not_elem_of_dom, is_fresh.
Qed.

(** X3. [New] always returns, with nil options or with any configuration,
    and what it returns is decided by what the engine answers to [tox_new].
    When the code is OK the result is a new instance and no error: the
    instance is at an address no instance had, it holds the very handle the
    engine returned and no handler, and the instances there were are as
    before.  When the code is another one the result is that code's error
    and no instance, and when the configuration is refused before the
    engine is asked it is the error "unknown proxy type"; no instance is
    made in either case. *)
Theorem New_returns_instance_or_error (options : option ToxOptions)
  (w : World) :
  exists r w',
    New core options w = Returns r w' /\
    match tox_new_answer core options w with
    | Some answer =>
        match throw_TOX_ERR_NEW (snd answer) with
        | None =>
            exists tox,
              r = (Some tox, None) /\
              goheap w !! tox = None /\
              goheap w' = <[tox := blank (fst answer)]> (goheap w)
        | Some throw => r = (None, Some throw) /\ goheap w' = goheap w
        end
    | None =>
        r = (None, Some (errors_New "unknown proxy type")) /\
        goheap w' = goheap w
    end.
Proof.
  destruct options as [o|]; unfold tox_new_answer; cbn [New].
  - destruct (in_dec Z.eq_dec (ProxyType o)
                [ToxProxyTypeNone; ToxProxyTypeHttp; ToxProxyTypeSocks5])
      as [Hdeclared|Hnot].
    + destruct (COptions_spec o w Hdeclared)
        as (c_proxy_type & p1 & p2 & _ & _ & _ & Hne & _ & Hrun).
      unfold bind. rewrite Hrun. cbv beta iota.
      match goal with
      | |- context [defer _ (New_create core (Some ?c)) ?w1] =>
          destruct (New_create_cases (Some c) w1)
            as (r & w' & Hcreate & Hcheap & Hcases);
          assert (Hrelease := FreeOptions_spec c w' p1 p2 eq_refl eq_refl)
      end.
      cbn [cheap goheap] in Hcheap, Hcases. rewrite Hcheap in Hrelease.
      rewrite lookup_insert_ne, !lookup_insert_eq in Hrelease by done.
      specialize (Hrelease ltac:(eauto) ltac:(eauto) Hne).
      unfold defer. rewrite Hcreate, Hrelease.
      eexists _, _. split; [reflexivity|]. exact Hcases.
    + unfold bind. rewrite (COptions_unknown_proxy_type o w Hnot).
      eexists _, _. split; [reflexivity|]. split; reflexivity.
  - destruct (New_create_cases None w) as (r & w' & Hrun & _ & Hcases).
    eauto.
Qed.

(** X4. With a proxy type that is not declared, [New] returns the error
    "unknown proxy type" and leaves the world as it was: nothing is
    allocated and the engine is not called. *)
Theorem New_refuses_undeclared_proxy_type (o : ToxOptions) (w : World) :
  ~ declared_proxy_type (ProxyType o) ->
  New core (Some o) w
  = Returns (None, Some (errors_New "unknown proxy type")) w.
Proof.
  intros Hnot. unfold New, bind.
  now rewrite (COptions_unknown_proxy_type o w Hnot).
Qed.

(** ** Networking *)

Lemma Bootstrap_connect_keeps_cheap (tox : positive) (seedNode : SeedNode)
  (c_host : cptr) (w1 : World) :
  ends_with_cheap (Bootstrap_connect core tox seedNode c_host w1) (cheap w1).
Proof.
  unfold Bootstrap_connect.
  destruct (hex_DecodeString (PublicKey seedNode)) as [publicKey [e|]];
    [reflexivity|].
  destruct (negb (len publicKey =? ToxPublicKeySize)%nat); [reflexivity|].
  unfold bind, load, C_heap, call.
  destruct (goheap w1 !! tox) as [t|]; [|reflexivity].
  now destruct (tox_bootstrap core _ _ _ _ _ _).
Qed.

(** X5. However [Bootstrap] ends (the key refused, the engine's answer
    translated, or a panic on a nil instance), the C string it allocated
    for the host has been freed: the C heap is what it was, and the call
    never faults. *)
Theorem Bootstrap_frees_host_on_every_path (tox : positive)
  (seedNode : SeedNode) (w : World) :
  ends_with_cheap (Bootstrap core tox seedNode w) (cheap w).
Proof.
  unfold Bootstrap, bind. rewrite C_CString_spec. unfold defer.
  match goal with
  | |- context [Bootstrap_connect core tox seedNode ?c ?w1] =>
      pose proof (Bootstrap_connect_keeps_cheap tox seedNode c w1) as Hkept;
      destruct (Bootstrap_connect core tox seedNode c w1) as [r w'|msg w'|]
  end; cbn [ends_with_cheap cheap record with_cheap] in Hkept;
    [| |contradiction];
    unfold C_free; rewrite Hkept, lookup_insert_eq;
    cbn [ends_with_cheap cheap];
    apply delete_insert_id, not_elem_of_dom, is_fresh.
Qed.

(** X6. With a key of hexadecimal digits, two for each byte of a public
    key, and a live instance, [Bootstrap] calls the engine once, between
    the allocation and the release of the host string, with the decoded
    key, and returns the translation of the code the engine answers. *)
Theorem Bootstrap_with_good_key_asks_engine (tox : positive) (t : Tox Act)
  (seedNode : SeedNode) (w : World) :
  goheap w !! tox = Some t ->
  valid_hex (PublicKey seedNode) ->
  String.length (PublicKey seedNode) = (2 * ToxPublicKeySize)%nat ->
  exists key p w',
    hex_DecodeString (PublicKey seedNode) = (Some key, None) /\
    length key = ToxPublicKeySize /\
    cheap w !! p = None /\
    let block := list_ascii_of_string (Host seedNode) ++ [NUL] in
    let answer :=
      tox_bootstrap core (<[p := block]> (cheap w)) (handle t) (Some p)
        (Port seedNode) key (engine w) in
    Bootstrap core tox seedNode w
    = Returns (throw_TOX_ERR_BOOTSTRAP (snd answer)) w' /\
    engine w' = fst answer /\
    cheap w' = cheap w /\
    log w' = log w ++ [ Cgo (call_malloc p (length block));
                        Cgo call_tox_bootstrap;
                        Cgo (call_free (Some p)) ].
Proof.
  intros Hlive Hvalid Hsize.
  destruct (hex_DecodeString_valid _ Hvalid) as (key & Hkey & Hlen).
  assert (Hkeysize : length key = ToxPublicKeySize) by lia.
  set (p := fresh (dom (cheap w))).
  assert (Hfresh : cheap w !! p = None) by apply not_elem_of_dom, is_fresh.
  destruct (tox_bootstrap core
              (<[p := list_ascii_of_string (Host seedNode) ++ [NUL]]>
                 (cheap w))
              (handle t) (Some p) (Port seedNode) key (engine w))
    as [e code] eqn:Hanswer.
  exists key, p. eexists.
  split; [exact Hkey|]. split; [exact Hkeysize|]. split; [exact Hfresh|].
  cbv zeta. rewrite Hanswer. cbn [fst snd].
  unfold Bootstrap, bind. rewrite C_CString_spec. fold p.
  unfold defer, Bootstrap_connect. rewrite Hkey. cbn [len bytes].
  rewrite Hkeysize, Nat.eqb_refl. cbn [negb].
  unfold bind, load, C_heap, call, record, with_cheap.
  cbn [goheap]. rewrite Hlive. cbn [engine cheap goheap log].
  rewrite Hanswer.
  unfold ret, C_free. cbn [cheap]. rewrite lookup_insert_eq.
  split; [reflexivity|]. cbn [engine cheap log].
  split; [reflexivity|]. split; [now apply delete_insert_id|].
  now rewrite <- !app_assoc.
Qed.

(** ** Event callback dispatcher *)

(** A registration that writes one slot. *)
Lemma registration_registers {H : Type}
  (set : positive -> option H -> M unit)
  (update : option H -> Tox Act -> Tox Act) (slot : Tox Act -> option H)
  (kind : EventKind) :
  registration_of core set update kind ->
  (forall callback t, slot (update callback t) = callback) ->
  (forall callback t, other_slots_kept kind t (update callback t)) ->
  forall tox t w,
    goheap w !! tox = Some t ->
    registers core set slot kind tox t w.
Proof.
  intros Hset Hslot Hkept tox t w Hlive callback.
  exists (update callback t). split; [apply Hslot|].
  split; [apply Hkept|]. now apply Hset.
Qed.

(** X7. Each of the eight registrations, on a live instance, stores the
    handler in its own slot and leaves the handle and the seven other
    slots as they were.  Then cgo checks the instance it is about to hand
    to C: when one of the slots now holds a func value that points into Go
    memory (a closure or a method value), the call panics and the engine
    is not reached; otherwise the call, the first for a kind or a later
    one, hands the engine the trampoline of that kind with the address of
    the instance as user data, and returns. *)
Theorem registration_keeps_other_slots (tox : positive) (t : Tox Act)
  (w : World) :
  goheap w !! tox = Some t ->
  registers core (SetOnSelfConnectionStatus core) onSelfConnectionStatus
    self_connection_status tox t w /\
  registers core (SetOnFriendRequest core) onFriendRequest
    friend_request tox t w /\
  registers core (SetOnFriendName core) onFriendName friend_name tox t w /\
  registers core (SetOnFriendStatus core) onFriendStatus
    friend_status tox t w /\
  registers core (SetOnFriendStatusMessage core) onFriendStatusMessage
    friend_status_message tox t w /\
  registers core (SetOnFriendConnectionStatus core) onFriendConnectionStatus
    friend_connection_status tox t w /\
  registers core (SetOnFriendMessage core) onFriendMessage
    friend_message tox t w /\
  registers core (SetOnFriendLosslessPacket core) onFriendLosslessPacket
    friend_lossless_packet tox t w.
Proof.
  intros Hlive.
  repeat apply conj;
    (eapply registration_registers;
     [ first [ apply SetOnSelfConnectionStatus_registers
             | apply SetOnFriendRequest_registers
             | apply SetOnFriendName_registers
             | apply SetOnFriendStatus_registers
             | apply SetOnFriendStatusMessage_registers
             | apply SetOnFriendConnectionStatus_registers
             | apply SetOnFriendMessage_registers
             | apply SetOnFriendLosslessPacket_registers ]
     | reflexivity
     | intros callback t0; unfold other_slots_kept;
       cbn [handle onSelfConnectionStatus onFriendRequest onFriendName
            onFriendStatus onFriendStatusMessage onFriendConnectionStatus
            onFriendMessage onFriendLosslessPacket];
       repeat split; congruence
     | exact Hlive ]).
Qed.

(** An instance that holds no pointer into Go memory holds none in any
    slot. *)
Lemma no_go_pointer_in_slots (t : Tox Act) :
  holds_go_pointer t = false ->
  heap_slot (onSelfConnectionStatus t) = false /\
  heap_slot (onFriendRequest t) = false /\
  heap_slot (onFriendName t) = false /\
  heap_slot (onFriendStatus t) = false /\
  heap_slot (onFriendStatusMessage t) = false /\
  heap_slot (onFriendConnectionStatus t) = false /\
  heap_slot (onFriendMessage t) = false /\
  heap_slot (onFriendLosslessPacket t) = false.
Proof.
  unfold holds_go_pointer. intros Hclean.
  repeat (apply orb_false_elim in Hclean as [Hclean ?]). auto 10.
Qed.

Lemma nil_slot_panics {H : Type} (slot : Tox Act -> option H)
  (run : H -> Act) (tox : positive) (w : World) :
  registered slot tox w = None ->
  bind (load tox) (fun t => call_handler (slot t) run) w
  = Panics nil_dereference w.
Proof.
  unfold registered, bind, load, call_handler.
  destruct (goheap w !! tox) as [t|]; [|reflexivity].
  now intros ->.
Qed.

(** X8. Registering nil does not detach a kind from the engine.  On an
    instance none of whose handlers points into Go memory, so that cgo's
    check lets the call through, the registration of nil hands the engine
    the trampoline all the same, and when the engine then raises an event
    of that kind the trampoline calls the nil handler and panics with the
    run-time error of a nil dereference.  For the four kinds that carry no
    enumerated field. *)
Theorem nil_handler_panics_on_event (tox : positive) (t : Tox Act)
  (w : World) :
  goheap w !! tox = Some t ->
  holds_go_pointer t = false ->
  (exists w1,
     SetOnFriendName core tox None w = Returns tt w1 /\
     In (Cgo (call_register friend_name)) (log w1) /\
     forall c_friend_number c_name,
       callback_friend_name c_friend_number c_name tox w1
       = Panics nil_dereference w1) /\
  (exists w1,
     SetOnFriendRequest core tox None w = Returns tt w1 /\
     In (Cgo (call_register friend_request)) (log w1) /\
     forall c_public_key c_message,
       callback_friend_request c_public_key c_message tox w1
       = Panics nil_dereference w1) /\
  (exists w1,
     SetOnFriendStatusMessage core tox None w = Returns tt w1 /\
     In (Cgo (call_register friend_status_message)) (log w1) /\
     forall c_friend_number c_message,
       callback_friend_status_message c_friend_number c_message tox w1
       = Panics nil_dereference w1) /\
  (exists w1,
     SetOnFriendLosslessPacket core tox None w = Returns tt w1 /\
     In (Cgo (call_register friend_lossless_packet)) (log w1) /\
     forall c_friend_number c_data,
       callback_friend_lossless_packet c_friend_number c_data tox w1
       = Panics nil_dereference w1).
Proof.
  intros Hlive Hclean.
  destruct (no_go_pointer_in_slots t Hclean)
    as (H1 & H2 & H3 & H4 & H5 & H6 & H7 & H8).
  repeat apply conj;
    rewrite ?(SetOnFriendName_registers core _ _ _ _ Hlive),
      ?(SetOnFriendRequest_registers core _ _ _ _ Hlive),
      ?(SetOnFriendStatusMessage_registers core _ _ _ _ Hlive),
      ?(SetOnFriendLosslessPacket_registers core _ _ _ _ Hlive);
    unfold registration_ends, holds_go_pointer;
    cbn [handle onSelfConnectionStatus onFriendRequest onFriendName
         onFriendStatus onFriendStatusMessage onFriendConnectionStatus
         onFriendMessage onFriendLosslessPacket];
    rewrite ?H1, ?H2, ?H3, ?H4, ?H5, ?H6, ?H7, ?H8; cbn [heap_slot orb];
    eexists; (split; [reflexivity|]);
    (split; [cbn [log]; apply in_or_app; right; now left|]);
    intros ? ?;
    unfold callback_friend_name, callback_friend_request,
      callback_friend_status_message, callback_friend_lossless_packet;
    cbv zeta; apply nil_slot_panics; unfold registered; cbn [goheap];
    now rewrite lookup_insert_eq.
Qed.
(** ** Options translator *)

Lemma strbytes_until_NUL (l : list byte) :
  strbytes (l ++ [NUL]) = Some (until_NUL l).
Proof.
  induction l as [|b l IH]; cbn [app strbytes until_NUL]; [reflexivity|].
  destruct (Ascii.eqb b NUL); [reflexivity|]. now rewrite IH.
Qed.

Lemma until_NUL_without_NUL (l : list byte) :
  until_NUL l = l <-> ~ In NUL l.
Proof.
  induction l as [|b l IH]; cbn [until_NUL In]; [tauto|].
  destruct (Ascii.eqb_spec b NUL) as [->|Hb].
  - split; [discriminate|]. intros Hnot. exfalso. apply Hnot. now left.
  - split.
    + intros [= Heq]. apply IH in Heq. intros [Hin|Hin]; congruence.
    + intros Hnot. f_equal. apply IH. tauto.
Qed.

(** [GoOptions] on a configuration whose proxy type is listed, whose host
    pointer leads to a C string and whose save-data pointer leads to the
    bytes its length announces. *)
Lemma GoOptions_reads_back (c : C_struct_Tox_Options) (w1 : World)
  (p : ToxProxyType) (p1 p2 : positive) (host data : list byte) :
  In (p, proxy_type c) proxy_type_table ->
  proxy_host c = Some p1 ->
  savedata_data c = Some p2 ->
  cheap w1 !! p1 = Some (host ++ [NUL]) ->
  cheap w1 !! p2 = Some data ->
  savedata_length c = length data ->
  GoOptions (Some c) w1
  = Returns
      (Some {| IPv6Enabled := ipv6_enabled c;
               UDPEnabled := udp_enabled c;
               ProxyType := p;
               ProxyHost := string_of_list_ascii (until_NUL host);
               ProxyPort := proxy_port c;
               StartPort := start_port c;
               EndPort := end_port c;
               TCPPort := tcp_port c;
               SaveData := Some data |}, None) w1.
Proof.
  intros Hin Hhost Hdata H1 H2 Hlen. unfold GoOptions.
  rewrite (proxy_type_back _ _ Hin), Hhost, Hdata, Hlen.
  unfold bind, C_GoString. rewrite H1, strbytes_until_NUL.
  unfold array2slice, bind.
  rewrite (array2slice_loop_spec p2 data w1 H2) by (cbn; lia).
  unfold ret. now rewrite drop_0, firstn_all.
Qed.

(** X9. For every configuration with a declared proxy type the round trip
    [GoOptions(COptions(C))] returns a configuration, the save data present
    and byte for byte that of [C], every field but the host that of [C],
    and the host that of [C] cut at its first NUL byte. *)
Theorem roundtrip_cuts_host_at_NUL (o : ToxOptions) (w : World) :
  declared_proxy_type (ProxyType o) ->
  exists w',
    roundtrip o w
    = Returns
        (Some {| IPv6Enabled := IPv6Enabled o;
                 UDPEnabled := UDPEnabled o;
                 ProxyType := ProxyType o;
                 ProxyHost := as_C_string (ProxyHost o);
                 ProxyPort := ProxyPort o;
                 StartPort := StartPort o;
                 EndPort := EndPort o;
                 TCPPort := TCPPort o;
                 SaveData := Some (bytes (SaveData o)) |}, None) w'.
Proof.
  intros Hdeclared.
  destruct (COptions_spec o w Hdeclared)
    as (c & p1 & p2 & Hin & _ & _ & Hne & _ & Hrun).
  unfold roundtrip, bind. rewrite Hrun. cbn [fst].
  erewrite (GoOptions_reads_back _ _ (ProxyType o) p1 p2
              (list_ascii_of_string (ProxyHost o)) (bytes (SaveData o)));
    [eexists; reflexivity|exact Hin|reflexivity|reflexivity| | |].
  - cbn [cheap]. now rewrite lookup_insert_ne, lookup_insert_eq.
  - cbn [cheap]. apply lookup_insert_eq.
  - cbn [savedata_length]. now rewrite len_bytes.
Qed.

(** X10. [DefaultOptions] when the engine's defaults have a listed proxy
    type, a NULL host and save data of length zero: the host is the empty
    string and the save data an empty slice that is present; the save-data
    pointer, NULL or not, is not followed. *)
Theorem DefaultOptions_of_empty_defaults (w : World) (e : Engine)
  (c : C_struct_Tox_Options) (p : ToxProxyType) :
  tox_options_default more (engine w) = (e, c) ->
  In (p, proxy_type c) proxy_type_table ->
  proxy_host c = None ->
  savedata_length c = 0%nat ->
  DefaultOptions more w
  = Returns
      (Some {| IPv6Enabled := ipv6_enabled c;
               UDPEnabled := udp_enabled c;
               ProxyType := p;
               ProxyHost := "";
               ProxyPort := proxy_port c;
               StartPort := start_port c;
               EndPort := end_port c;
               TCPPort := tcp_port c;
               SaveData := Some [] |}, None)
      {| engine := e; cheap := cheap w; goheap := goheap w; log := log w |}.
Proof.
  intros Hdefault Hin Hhost Hlen.
  unfold DefaultOptions, bind, engine_call. rewrite Hdefault.
  unfold GoOptions. rewrite (proxy_type_back _ _ Hin), Hhost, Hlen.
  reflexivity.
Qed.

(** X11. The two copy loops undo each other: a slice copied to a C array
    by [slice2array] and read back over its length by [array2slice] comes
    back present with the same bytes, and the C heap has gained one block,
    which holds those bytes. *)
Theorem array2slice_of_slice2array (s : slice) (w : World) :
  exists p w',
    (array <- slice2array s ;; array2slice array (len s)) w
    = Returns (Some (bytes s)) w' /\
    cheap w !! p = None /\
    cheap w' = <[p := bytes s]> (cheap w).
Proof.
  exists (fresh (dom (cheap w))). eexists.
  unfold bind at 1. rewrite slice2array_spec.
  unfold array2slice, bind.
  erewrite (array2slice_loop_spec _ (bytes s));
    [|cbn [cheap]; apply lookup_insert_eq|rewrite len_bytes; cbn; lia].
  unfold ret. rewrite drop_0, <- len_bytes, firstn_all.
  repeat split. apply not_elem_of_dom, is_fresh.
Qed.

(** ** Friend state *)

(** X12. When [FriendGetName] or [FriendGetStatusMessage] returns without
    an error, the slice it returns is present and has exactly the length
    the engine reported in the size query. *)
Theorem friend_query_success_has_reported_size (tox : positive)
  (t : Tox Act) (friendNumber : Z) (w w' : World) (buffer : slice)
  (size : nat) :
  goheap w !! tox = Some t ->
  (FriendGetName core tox friendNumber w = Returns (buffer, None) w' /\
   size = fst (snd (tox_friend_get_name_size core (handle t) friendNumber
                      (engine w)))) \/
  (FriendGetStatusMessage core tox friendNumber w
   = Returns (buffer, None) w' /\
   size = fst (snd (tox_friend_get_status_message_size core (handle t)
                      friendNumber (engine w)))) ->
  exists data, buffer = Some data /\ length data = size.
Proof.
  intros Hlive [[Hrun ->]|[Hrun ->]];
    unfold FriendGetName, FriendGetStatusMessage, makeslice, panic, bind,
      load, call, ret in Hrun;
    rewrite Hlive in Hrun;
    repeat case_match; simplify_eq; cbn [fst snd];
    match goal with
    | |- exists data, fill ?b ?wr = Some data /\ _ =>
        exists (bytes (fill b wr)); split; [reflexivity|];
        now rewrite len_bytes, fill_length, make_length
    | |- exists data, make ?n = Some data /\ _ =>
        exists (bytes (make n)); split; [reflexivity|];
        now rewrite len_bytes, make_length
    end.
Qed.
(** X13. When one of the operations that return a number with their error
    ([FriendAdd], [FriendAddNoRequest], [FriendByPublicKey],
    [FriendGetStatus], [FriendGetConnectionStatus], [FriendSendMessage])
    returns an error, the number is 0, whatever the engine returned: the
    friend number or message id 0, the status "none". *)
Theorem error_means_zero_number (tox : positive) (friendNumber : Z)
  (messageType : ToxMessageType) (address publicKey : list byte)
  (message : slice) (w w' : World) (n : Z) (throw : option error) :
  FriendAdd more tox address message w = Returns (n, throw) w' \/
  FriendAddNoRequest more tox publicKey w = Returns (n, throw) w' \/
  FriendByPublicKey more tox publicKey w = Returns (n, throw) w' \/
  FriendGetStatus more tox friendNumber w = Returns (n, throw) w' \/
  FriendGetConnectionStatus more tox friendNumber w
  = Returns (n, throw) w' \/
  FriendSendMessage core tox friendNumber messageType message w
  = Returns (n, throw) w' ->
  throw <> None ->
  n = 0.
Proof.
  intros Hrun Herr.
  repeat (destruct Hrun as [Hrun|Hrun]);
    unfold FriendAdd, FriendAddNoRequest, FriendByPublicKey, FriendGetStatus,
      FriendGetConnectionStatus, FriendSendMessage, bind, load, call,
      engine_call, ret in Hrun;
    repeat case_match; simplify_eq; done.
Qed.

Lemma switch_in {A : Type} (tag : Z) (cases : list (Z * A)) (d : A) :
  In (switch tag cases d) (d :: map snd cases).
Proof.
  induction cases as [|[c body] rest IH]; cbn [switch map]; [now left|].
  destruct (tag =? c); [right; now left|].
  destruct IH as [IH|IH]; [now left|right; now right].
Qed.

Lemma user_status_decoded (c : Z) :
  In (switch c
        [ (TOX_USER_STATUS_AWAY, ToxUserStatusAway);
          (TOX_USER_STATUS_BUSY, ToxUserStatusBusy) ]
        ToxUserStatusNone)
     [ToxUserStatusNone; ToxUserStatusAway; ToxUserStatusBusy].
Proof. apply (switch_in c [(_, _); (_, _)]). Qed.

Lemma connection_decoded (c : Z) :
  In (switch c
        [ (TOX_CONNECTION_TCP, ToxConnectionTCP);
          (TOX_CONNECTION_UDP, ToxConnectionUDP) ]
        ToxConnectionNone)
     [ToxConnectionNone; ToxConnectionTCP; ToxConnectionUDP].
Proof. apply (switch_in c [(_, _); (_, _)]). Qed.

Lemma user_status_read (c : Z) :
  user_status_of c
    (switch c
       [ (TOX_USER_STATUS_AWAY, ToxUserStatusAway);
         (TOX_USER_STATUS_BUSY, ToxUserStatusBusy) ]
       ToxUserStatusNone).
Proof.
  pose proof user_status_cases as Hcases.
  apply NoDup_cons in Hcases as [_ Hcases].
  apply NoDup_cons in Hcases as [Haway _].
  rewrite elem_of_cons, elem_of_nil in Haway.
  unfold user_status_of. cbn [switch].
  destruct (Z.eqb_spec c TOX_USER_STATUS_AWAY) as [->|Hc1];
    [intuition congruence|].
  destruct (Z.eqb_spec c TOX_USER_STATUS_BUSY) as [->|Hc2];
    intuition congruence.
Qed.

Lemma connection_status_read (c : Z) :
  connection_status_of c
    (switch c
       [ (TOX_CONNECTION_TCP, ToxConnectionTCP);
         (TOX_CONNECTION_UDP, ToxConnectionUDP) ]
       ToxConnectionNone).
Proof.
  pose proof connection_cases as Hcases.
  apply NoDup_cons in Hcases as [_ Hcases].
  apply NoDup_cons in Hcases as [Htcp _].
  rewrite elem_of_cons, elem_of_nil in Htcp.
  unfold connection_status_of. cbn [switch].
  destruct (Z.eqb_spec c TOX_CONNECTION_TCP) as [->|Hc1];
    [intuition congruence|].
  destruct (Z.eqb_spec c TOX_CONNECTION_UDP) as [->|Hc2];
    intuition congruence.
Qed.

(** X14. The four status queries never panic on a live instance, and what
    they return is read off the number the engine answers.  [GetStatus]
    returns away for the engine's AWAY, busy for its BUSY and "none" for
    every other number, listed by the header or not;
    [GetConnectionStatus] returns TCP for TCP, UDP for UDP and "none" for
    every other number.  [FriendGetStatus] and [FriendGetConnectionStatus]
    return the error the engine's code stands for, read the number in the
    same way when there is no error, and return "none" with an error.  So
    the value returned is always a declared one. *)
Theorem status_queries_return_declared_values (tox : positive)
  (t : Tox Act) (friendNumber : Z) (w : World) :
  goheap w !! tox = Some t ->
  (exists s w',
     GetStatus more tox w = Returns s w' /\
     user_status_of (snd (tox_self_get_status more (handle t) (engine w))) s /\
     In s [ToxUserStatusNone; ToxUserStatusAway; ToxUserStatusBusy]) /\
  (exists s w',
     GetConnectionStatus more tox w = Returns s w' /\
     connection_status_of
       (snd (tox_self_get_connection_status more (handle t) (engine w))) s /\
     In s [ToxConnectionNone; ToxConnectionTCP; ToxConnectionUDP]) /\
  (exists s throw w',
     FriendGetStatus more tox friendNumber w = Returns (s, throw) w' /\
     throw = throw_TOX_ERR_FRIEND_QUERY
               (snd (snd (tox_friend_get_status more (handle t) friendNumber
                            (engine w)))) /\
     (throw = None ->
      user_status_of
        (fst (snd (tox_friend_get_status more (handle t) friendNumber
                     (engine w)))) s) /\
     (throw <> None -> s = ToxUserStatusNone) /\
     In s [ToxUserStatusNone; ToxUserStatusAway; ToxUserStatusBusy]) /\
  (exists s throw w',
     FriendGetConnectionStatus more tox friendNumber w
     = Returns (s, throw) w' /\
     throw = throw_TOX_ERR_FRIEND_QUERY
               (snd (snd (tox_friend_get_connection_status more (handle t)
                            friendNumber (engine w)))) /\
     (throw = None ->
      connection_status_of
        (fst (snd (tox_friend_get_connection_status more (handle t)
                     friendNumber (engine w)))) s) /\
     (throw <> None -> s = ToxConnectionNone) /\
     In s [ToxConnectionNone; ToxConnectionTCP; ToxConnectionUDP]).
Proof.
  intros Hlive.
  unfold GetStatus, GetConnectionStatus, FriendGetStatus,
    FriendGetConnectionStatus, bind, load, engine_call, ret.
  rewrite Hlive.
  destruct (tox_self_get_status more (handle t) (engine w)) as [e1 c1].
  destruct (tox_self_get_connection_status more (handle t) (engine w))
    as [e2 c2].
  destruct (tox_friend_get_status more (handle t) friendNumber (engine w))
    as [e3 [c3 k3]].
  destruct (tox_friend_get_connection_status more (handle t) friendNumber
              (engine w)) as [e4 [c4 k4]].
  cbn [fst snd].
  split; [|split; [|split]].
  - eexists _, _. split; [reflexivity|].
    split; [apply user_status_read|apply user_status_decoded].
  - eexists _, _. split; [reflexivity|].
    split; [apply connection_status_read|apply connection_decoded].
  - destruct (throw_TOX_ERR_FRIEND_QUERY k3);
      eexists _, _, _; (split; [reflexivity|]); (split; [reflexivity|]).
    + split; [discriminate|]. split; [reflexivity|now left].
    + split; [intros _; apply user_status_read|].
      split; [congruence|apply user_status_decoded].
  - destruct (throw_TOX_ERR_FRIEND_QUERY k4);
      eexists _, _, _; (split; [reflexivity|]); (split; [reflexivity|]).
    + split; [discriminate|]. split; [reflexivity|now left].
    + split; [intros _; apply connection_status_read|].
      split; [congruence|apply connection_decoded].
Qed.

(** ** Client state *)

(** X15. With an engine whose status query answers what was last set,
    [SetStatus] followed by [GetStatus] gives back away for away and busy
    for busy, and "none" for every other value set, declared or not. *)
Theorem status_survives_set_and_get (tox : positive) (t : Tox Act)
  (userStatus : ToxUserStatus) (w : World) :
  goheap w !! tox = Some t ->
  keeps_status more ->
  exists w1 w2,
    SetStatus more tox userStatus w = Returns tt w1 /\
    GetStatus more tox w1
    = Returns (if (userStatus =? ToxUserStatusAway)
                  || (userStatus =? ToxUserStatusBusy)
               then userStatus else ToxUserStatusNone) w2.
Proof.
  intros Hlive Hkeeps.
  pose proof user_status_cases as Hcases.
  apply NoDup_cons in Hcases as [Hnone Hcases].
  apply NoDup_cons in Hcases as [Haway _].
  rewrite !elem_of_cons, elem_of_nil in Hnone.
  rewrite elem_of_cons, elem_of_nil in Haway.
  unfold SetStatus, bind, load, engine_call. rewrite Hlive.
  eexists _, _. split; [reflexivity|].
  unfold GetStatus, bind, load, engine_call, ret.
  cbn [goheap]. rewrite Hlive. cbn [engine]. rewrite Hkeeps.
  do 2 f_equal. cbn [switch].
  destruct (Z.eqb_spec userStatus ToxUserStatusAway) as [->|_];
    [now rewrite Z.eqb_refl|].
  destruct (Z.eqb_spec userStatus ToxUserStatusBusy) as [->|_]; cbn [orb].
  - destruct (Z.eqb_spec TOX_USER_STATUS_BUSY TOX_USER_STATUS_AWAY);
      [intuition congruence|]. now rewrite Z.eqb_refl.
  - destruct (Z.eqb_spec TOX_USER_STATUS_NONE TOX_USER_STATUS_AWAY);
      [intuition congruence|].
    destruct (Z.eqb_spec TOX_USER_STATUS_NONE TOX_USER_STATUS_BUSY);
      [intuition congruence|]. reflexivity.
Qed.

Lemma fill_exact (data : list byte) :
  fill (make (length data)) data = Some data.
Proof.
  unfold fill, make. cbn [len bytes].
  rewrite length_replicate, drop_ge, app_nil_r, firstn_all;
    [reflexivity|now rewrite length_replicate].
Qed.

Lemma first_byte_bytes (s : slice) :
  from_option id [] (first_byte s) = bytes s.
Proof.
  unfold first_byte. destruct (Nat.ltb_spec 0 (len s)); [reflexivity|].
  cbn. symmetry. apply nil_length_inv. rewrite len_bytes. lia.
Qed.

Lemma throw_SET_INFO_nil (c_error : Z) :
  throw_TOX_ERR_SET_INFO c_error = None -> c_error = TOX_ERR_SET_INFO_OK.
Proof.
  unfold throw_TOX_ERR_SET_INFO.
  destruct (Z.eqb_spec c_error TOX_ERR_SET_INFO_OK); [done|discriminate].
Qed.

Lemma fetch_of_held (n : nat) (data : list byte) :
  length data = n ->
  (if (0 <? n)%nat then fill (make n) data else make n) = Some data.
Proof.
  intros <-. destruct (Nat.ltb_spec 0 (length data)); [apply fill_exact|].
  destruct data; [reflexivity|cbn in *; lia].
Qed.

(** X16. With an engine that keeps the name it accepts, [GetName] after a
    [SetName] that returned no error gives back exactly the bytes that were
    set, as a present slice; a nil or empty name, passed to the engine as
    NULL, comes back as the empty slice.  The same holds of
    [SetStatusMessage] and [GetStatusMessage].  The value set is a slice of
    the Go program, so its length is one the runtime allocates. *)
Theorem name_survives_set_and_get (tox : positive) (t : Tox Act)
  (value : slice) (held : Engine -> list byte) (w w1 : World) :
  goheap w !! tox = Some t ->
  fits 1 (len value) = true ->
  (keeps_what_is_set TOX_ERR_SET_INFO_OK (tox_self_set_name more)
     (tox_self_get_name_size core) (tox_self_get_name core) held /\
   SetName more tox value w = Returns None w1 ->
   exists w2, GetName core tox w1 = Returns (Some (bytes value)) w2) /\
  (keeps_what_is_set TOX_ERR_SET_INFO_OK (tox_self_set_status_message more)
     (tox_self_get_status_message_size core)
     (tox_self_get_status_message core) held /\
   SetStatusMessage more tox value w = Returns None w1 ->
   exists w2,
     GetStatusMessage core tox w1 = Returns (Some (bytes value)) w2).
Proof.
  intros Hlive Hfits. rewrite <- len_bytes in Hfits.
  split; intros [(Hset & Hsize & Hget) Hrun];
    unfold SetName, SetStatusMessage, bind, load, engine_call, ret in Hrun;
    rewrite Hlive in Hrun;
    match type of Hrun with
    | context [let '(_, _) := ?op in _] =>
        specialize (Hset (handle t) (first_byte value) (len value)
                      (engine w));
        destruct op as [e c_error]
    end;
    injection Hrun as Hnil <-; apply throw_SET_INFO_nil in Hnil;
    specialize (Hset Hnil); cbn [fst] in Hset;
    rewrite first_byte_bytes in Hset;
    unfold GetName, GetStatusMessage, bind, load, call, ret;
    cbn [goheap]; rewrite Hlive; cbn [engine];
    rewrite Hsize; cbv beta iota; rewrite Hset;
    rewrite makeslice_within by exact Hfits;
    cbn [engine]; rewrite Hget, Hset;
    rewrite fetch_of_held by reflexivity; eauto.
Qed.

(** X17. [GetFriendList] on a live instance ends as the size the engine
    reports decides.  When that many friend numbers, of four bytes each,
    are within the limit of the Go runtime, it returns a present list with
    exactly that many numbers, empty and not nil for a reported size of
    zero.  When they are not, the [make] that allocates the list panics
    ("makeslice: len out of range"). *)
Theorem GetFriendList_has_reported_size (tox : positive) (t : Tox Act)
  (w : World) :
  goheap w !! tox = Some t ->
  (fits 4 (snd (tox_self_get_friend_list_size more (handle t) (engine w)))
   = true ->
   exists friendList w',
     GetFriendList more tox w = Returns (Some friendList) w' /\
     length friendList
     = snd (tox_self_get_friend_list_size more (handle t) (engine w)) /\
     (snd (tox_self_get_friend_list_size more (handle t) (engine w)) = 0%nat ->
      friendList = [])) /\
  (fits 4 (snd (tox_self_get_friend_list_size more (handle t) (engine w)))
   = false ->
   exists w',
     GetFriendList more tox w = Panics makeslice_len_out_of_range w').
Proof.
  intros Hlive. unfold GetFriendList, bind, load, engine_call, ret.
  rewrite Hlive.
  destruct (tox_self_get_friend_list_size more (handle t) (engine w))
    as [e n].
  cbn [engine snd].
  destruct (tox_self_get_friend_list more (handle t) (0 <? n)%nat e)
    as [e' written] eqn:Hget.
  split; intros Hfits.
  - rewrite makeslice_within by exact Hfits. cbn [engine]. rewrite Hget.
    eexists _, _. split; [reflexivity|]. split.
    + destruct (0 <? n)%nat; unfold fill_uint32;
        rewrite ?length_take, ?length_app, ?length_drop, !length_replicate;
        lia.
    + now intros ->.
  - rewrite makeslice_past by exact Hfits. eauto.
Qed.

(** ** Friend management *)

(** X21. [FriendGetPublicKey] on a live instance returns a key of exactly
    [ToxPublicKeySize] bytes, with or without an error: the array as the
    engine left it, which the binding does not clear when the engine
    reports a failure. *)
Theorem FriendGetPublicKey_has_key_size (tox : positive) (t : Tox Act)
  (friendNumber : Z) (w : World) :
  goheap w !! tox = Some t ->
  exists publicKey w',
    FriendGetPublicKey more tox friendNumber w
    = Returns (publicKey,
               throw_TOX_ERR_FRIEND_GET_PUBLIC_KEY
                 (snd (snd (tox_friend_get_public_key more (handle t)
                              friendNumber (engine w))))) w' /\
    Some publicKey
    = fill (make ToxPublicKeySize)
        (fst (snd (tox_friend_get_public_key more (handle t) friendNumber
                     (engine w)))) /\
    length publicKey = ToxPublicKeySize.
Proof.
  intros Hlive. unfold FriendGetPublicKey, bind, load, engine_call, ret.
  rewrite Hlive.
  destruct (tox_friend_get_public_key more (handle t) friendNumber
              (engine w)) as [e [written c_error]].
  eexists _, _. split; [reflexivity|]. split; [reflexivity|].
  now rewrite len_bytes, fill_length, make_length.
Qed.

Lemma classify_nil_iff (family : Family) (code : Z) :
  classify family code = None <-> code = ok_code family.
Proof.
  rewrite classify_by_table.
  destruct (Z.eqb_spec code (ok_code family)); split; congruence.
Qed.

(** X22. The operations that return only an error ([SetName],
    [SetStatusMessage], [FriendDelete], [FriendSendLosslessPacket]) return
    nil on a live instance exactly when the code the engine stored is the
    OK of their family; any other code, known or not, is an error. *)
Theorem nil_exactly_when_engine_says_OK (tox : positive) (t : Tox Act)
  (friendNumber : Z) (value : slice) (w : World) :
  goheap w !! tox = Some t ->
  (exists throw w',
     SetName more tox value w = Returns throw w' /\
     (throw = None <->
      snd (tox_self_set_name more (handle t) (first_byte value) (len value)
             (engine w)) = TOX_ERR_SET_INFO_OK)) /\
  (exists throw w',
     SetStatusMessage more tox value w = Returns throw w' /\
     (throw = None <->
      snd (tox_self_set_status_message more (handle t) (first_byte value)
             (len value) (engine w)) = TOX_ERR_SET_INFO_OK)) /\
  (exists throw w',
     FriendDelete more tox friendNumber w = Returns throw w' /\
     (throw = None <->
      snd (tox_friend_delete more (handle t) friendNumber (engine w))
      = TOX_ERR_FRIEND_DELETE_OK)) /\
  (exists throw w',
     FriendSendLosslessPacket more tox friendNumber value w
     = Returns throw w' /\
     (throw = None <->
      snd (tox_friend_send_lossless_packet more (handle t) friendNumber
             (first_byte value) (len value) (engine w))
      = TOX_ERR_FRIEND_CUSTOM_PACKET_OK)).
Proof.
  intros Hlive.
  unfold SetName, SetStatusMessage, FriendDelete, FriendSendLosslessPacket,
    bind, load, engine_call, ret.
  rewrite Hlive.
  destruct (tox_self_set_name more _ _ _ _) as [e1 c1].
  destruct (tox_self_set_status_message more _ _ _ _) as [e2 c2].
  destruct (tox_friend_delete more _ _ _) as [e3 c3].
  destruct (tox_friend_send_lossless_packet more _ _ _ _ _) as [e4 c4].
  cbn [snd]. repeat split; eexists _, _; (split; [reflexivity|]).
  - apply (classify_nil_iff InfoSet).
  - apply (classify_nil_iff InfoSet).
  - apply (classify_nil_iff FriendDeleteFamily).
  - apply (classify_nil_iff CustomPacketSend).
Qed.

(** ** Event processing *)

(** X18. [ProcessDelay] on a live instance returns the engine's interval,
    taken as a 32-bit number of milliseconds, in nanoseconds: the product
    does not overflow a [time.Duration], and the delay is between zero and
    4294967295 milliseconds. *)
Theorem ProcessDelay_does_not_overflow (tox : positive) (t : Tox Act)
  (w : World) :
  goheap w !! tox = Some t ->
  exists delay w',
    ProcessDelay more tox w = Returns delay w' /\
    delay
    = (snd (tox_iteration_interval more (handle t) (engine w)) mod 2 ^ 32)
      * 1000000 /\
    0 <= delay <= 4294967295 * 1000000.
Proof.
  intros Hlive. unfold ProcessDelay, bind, load, engine_call, ret.
  rewrite Hlive.
  destruct (tox_iteration_interval more (handle t) (engine w))
    as [e c_millis].
  cbn [snd]. eexists _, _. split; [reflexivity|].
  unfold int64, uint32, time_Millisecond.
  pose proof (Z.mod_pos_bound c_millis (2 ^ 32) ltac:(lia)) as Hrange.
  rewrite Z.mod_small by lia. lia.
Qed.

(** ** The test suite *)

Lemma equal_loop_spec (a : list byte) :
  forall b, length a = length b -> (equal_loop a b = true <-> a = b).
Proof.
  induction a as [|x a IH]; intros [|y b] Hlen; try discriminate;
    cbn [equal_loop]; [tauto|].
  injection Hlen as Hlen. specialize (IH b Hlen).
  destruct (Ascii.eqb_spec x y) as [->|Hxy].
  - rewrite IH. split; [now intros ->|now intros [= ->]].
  - split; [discriminate|now intros [= -> _]].
Qed.

(** X19. [equal] tells whether two slices hold the same bytes, whether
    they are nil or present: a nil slice and an empty one are equal. *)
Theorem equal_iff_same_bytes (a b : slice) :
  equal a b = true <-> bytes a = bytes b.
Proof.
  unfold equal. rewrite <- !len_bytes.
  destruct (Nat.eqb_spec (length (bytes a)) (length (bytes b)))
    as [Hlen|Hlen]; cbn [negb].
  - now apply equal_loop_spec.
  - split; [discriminate|]. intros Heq. now rewrite Heq in Hlen.
Qed.

Lemma equal_same_bytes (a b : slice) :
  bytes a = bytes b -> equal a b = true.
Proof.
  intros Heq. unfold equal. rewrite <- !len_bytes, Heq, Nat.eqb_refl.
  cbn [negb]. now apply equal_loop_spec.
Qed.

Lemma as_C_string_same (s : string) :
  as_C_string s = s <-> ~ In NUL (list_ascii_of_string s).
Proof.
  rewrite <- until_NUL_without_NUL. unfold as_C_string. split.
  - intros Heq. apply (f_equal list_ascii_of_string) in Heq.
    now rewrite list_ascii_of_string_of_list_ascii in Heq.
  - intros ->. apply string_of_list_ascii_of_string.
Qed.

(** X20. [TestConvertOptions] on a configuration with a declared proxy
    type: it passes when the proxy host holds no NUL byte and otherwise
    stops at "Proxy host option does not match"; either way the deferred
    [FreeOptions] has run and the C heap is what it was. *)
Theorem TestConvertOptions_outcome (o : ToxOptions) (w : World) :
  declared_proxy_type (ProxyType o) ->
  exists w',
    TestConvertOptions o w
    = Returns
        (if existsb (Ascii.eqb NUL) (list_ascii_of_string (ProxyHost o))
         then Some "Failed to convert Tox startup options. Proxy host option does not match."%string
         else None) w' /\
    cheap w' = cheap w.
Proof.
  intros Hdeclared.
  destruct (COptions_spec o w Hdeclared)
    as (c & p1 & p2 & Hin & _ & _ & Hne & Hfree & Hrun).
  unfold TestConvertOptions, bind. rewrite Hrun. cbn [fst].
  unfold defer.
  erewrite (GoOptions_reads_back _ _ (ProxyType o) p1 p2
              (list_ascii_of_string (ProxyHost o)) (bytes (SaveData o)));
    [|exact Hin|reflexivity|reflexivity
     |cbn [cheap]; now rewrite lookup_insert_ne, lookup_insert_eq
     |cbn [cheap]; apply lookup_insert_eq
     |cbn [savedata_length]; now rewrite len_bytes].
  cbn [fst]. unfold ret.
  erewrite FreeOptions_spec;
    [|reflexivity|reflexivity
     |cbn [cheap]; rewrite lookup_insert_ne, lookup_insert_eq by done; eauto
     |cbn [cheap]; rewrite lookup_insert_eq; eauto
     |exact Hne].
  match goal with
  | |- context [compare_options o ?R] =>
      assert (Hcompare :
                compare_options o R
                = if existsb (Ascii.eqb NUL)
                       (list_ascii_of_string (ProxyHost o))
                  then Some "Failed to convert Tox startup options. Proxy host option does not match."%string
                  else None)
  end.
  { unfold compare_options.
    cbn [IPv6Enabled UDPEnabled ProxyType ProxyHost ProxyPort StartPort
         EndPort TCPPort SaveData].
    rewrite !Bool.eqb_reflx, !Z.eqb_refl. cbn [negb].
    rewrite (equal_same_bytes (SaveData o) (Some (bytes (SaveData o))))
      by reflexivity.
    cbn [negb].
    fold (as_C_string (ProxyHost o)).
    destruct (String.eqb_spec (ProxyHost o) (as_C_string (ProxyHost o)))
      as [Hsame|Hcut]; cbn [negb].
    - symmetry in Hsame. apply as_C_string_same in Hsame.
      destruct (existsb _ _) eqn:Hnul; [|reflexivity].
      apply existsb_exists in Hnul as (b & Hb & Heq).
      apply Ascii.eqb_eq in Heq as <-. contradiction.
    - destruct (existsb _ _) eqn:Hnul; [reflexivity|].
      exfalso. apply Hcut. symmetry. apply as_C_string_same.
      intros Hin'. apply Bool.not_true_iff_false in Hnul. apply Hnul.
      apply existsb_exists. exists NUL. split; [exact Hin'|reflexivity]. }
  rewrite Hcompare. eexists. split; [reflexivity|exact Hfree].
Qed.
End MoreProperties.

(** * The binding at work: concrete runs *)

#[local] Existing Instance toxcore_header.
#[local] Existing Instance go_linux_amd64.

(** A connection status of 3, which [tox.h] does not list, reaches the
    trampoline of an instance with a handler registered: the trampoline
    panics. The specification's sentence C1 (a fallback value or a
    reported decode error, never an unhandled abort) does not hold of it. *)
Lemma C1_counterexample :
  ~ In 3 (map fst (connection_table (H := toxcore_header))) /\
  callback_self_connection_status (hdr := toxcore_header) 3 1
    (world1 engine_ok)
  = Panics "unknown connection status" (world1 engine_ok) /\
  aborts (callback_self_connection_status (hdr := toxcore_header) 3 1
            (world1 engine_ok)).
Proof.
  split; [|split].
  - cbn. intuition discriminate.
  - reflexivity.
  - exact I.
Qed.

(** An action message (type 1) is decoded and delivered; type 2 panics. *)
Lemma C1_witness :
  callback_friend_message (hdr := toxcore_header) 5 1
    (list_ascii_of_string "hi") 1 (world1 engine_ok)
  = Returns tt
      (handled
         (saw_message 1 5 ToxMessageTypeAction
            (Some (list_ascii_of_string "hi")))
         (world1 engine_ok)) /\
  callback_friend_message (hdr := toxcore_header) 5 2
    (list_ascii_of_string "hi") 1 (world1 engine_ok)
  = Panics "unknown message type" (world1 engine_ok).
Proof.
  destruct (C1_trampolines_decode_or_panic (hdr := toxcore_header) 1 5
              (list_ascii_of_string "hi") (world1 engine_ok))
    as (_ & _ & _ & Hpanics & Hdecodes).
  split.
  - apply (Hdecodes 1 ToxMessageTypeAction); [cbn; auto|reflexivity].
  - apply (Hpanics 2). cbn. intuition discriminate.
Defined.

(** Code 99 is in no family's known set. *)
Lemma C2_witness :
  ~ In 99 (known_codes (H := toxcore_header) Creation) /\
  classify (H := toxcore_header) Creation 99 = Some ToxErrUnknown.
Proof.
  assert (Hunknown : ~ In 99 (known_codes (H := toxcore_header) Creation))
    by (cbn; intuition discriminate).
  split; [exact Hunknown|].
  exact (C2_unknown_code_maps_to_ToxErrUnknown (hdr := toxcore_header)
           Creation 99 Hunknown).
Defined.

(** With no proxy the host field is ignored and may hold anything; the
    host "a\000b" comes back as "a", so the specification's sentence C3
    does not hold of this configuration. *)
Lemma C3_counterexample :
  declared_proxy_type (ProxyType options_nul_host) /\
  (exists R w',
     roundtrip (hdr := toxcore_header) options_nul_host (world0 engine_ok)
     = Returns (Some R, None) w' /\
     ProxyHost R = "a"%string) /\
  ~ roundtrip_reproduces (hdr := toxcore_header) options_nul_host
      (world0 engine_ok).
Proof.
  split; [cbn; auto|]. split.
  - eexists _, _. split; [vm_compute; reflexivity|reflexivity].
  - intros (R & w' & Hrun & Hsame).
    vm_compute in Hrun. injection Hrun as <- _.
    destruct Hsame as (_ & _ & _ & Hhost & _). discriminate Hhost.
Qed.

Lemma C3_witness :
  declared_proxy_type (ProxyType options_socks) /\
  ~ In NUL (list_ascii_of_string (ProxyHost options_socks)) /\
  roundtrip_reproduces (hdr := toxcore_header) options_socks
    (world0 engine_ok).
Proof.
  assert (Hdeclared : declared_proxy_type (ProxyType options_socks))
    by (cbn; auto).
  assert (Hnul : ~ In NUL (list_ascii_of_string (ProxyHost options_socks)))
    by (cbn; intuition discriminate).
  split; [exact Hdeclared|]. split; [exact Hnul|].
  exact (C3_roundtrip_of_NUL_free_host (hdr := toxcore_header)
           options_socks (world0 engine_ok) Hdeclared Hnul).
Defined.

Lemma C4_witness :
  declared_proxy_type (ProxyType options_socks) /\
  exists c w' p,
    COptions (hdr := toxcore_header) options_socks (world0 engine_ok)
    = Returns (Some c, None) w' /\
    (len (SaveData options_socks) = 0%nat ->
     savedata_type c = TOX_SAVEDATA_TYPE_NONE) /\
    (len (SaveData options_socks) <> 0%nat ->
     savedata_type c = TOX_SAVEDATA_TYPE_TOX_SAVE /\
     savedata_length c = len (SaveData options_socks) /\
     savedata_data c = Some p /\
     cheap w' !! p = Some (bytes (SaveData options_socks))).
Proof.
  assert (Hdeclared : declared_proxy_type (ProxyType options_socks))
    by (cbn; auto).
  split; [exact Hdeclared|].
  exact (C4_save_data_tag (hdr := toxcore_header) options_socks
           (world0 engine_ok) Hdeclared).
Defined.

(** The engine refuses the instance with a code the binding does not know:
    [New] returns [ToxErrUnknown], and the configuration is released. *)
Lemma C5_witness :
  declared_proxy_type (ProxyType options_socks) /\
  releases_configuration (hdr := toxcore_header) scripted options_socks
    (world0 engine_skewed).
Proof.
  assert (Hdeclared : declared_proxy_type (ProxyType options_socks))
    by (cbn; auto).
  split; [exact Hdeclared|].
  exact (C5_New_releases_configuration (hdr := toxcore_header) scripted
           options_socks (world0 engine_skewed) Hdeclared).
Defined.

Lemma New_on_a_skewed_engine :
  exists w',
    New (hdr := toxcore_header) scripted (Some options_socks)
      (world0 engine_skewed)
    = Returns (None, Some ToxErrUnknown) w' /\
    cheap w' = ∅ /\
    log w' = [ Cgo (call_malloc 1 10); Cgo (call_malloc 2 5);
               Cgo call_tox_new;
               Cgo (call_free (Some 1%positive));
               Cgo (call_free (Some 2%positive)) ].
Proof. eexists. split; [vm_compute; reflexivity|]. split; reflexivity. Qed.

(** The engine reports a save-data size of [2^63] bytes.  [Serialize]
    panics in [make] and returns no buffer, of that size or of another:
    the specification's sentence C6 does not hold of this engine. *)
Lemma C6_counterexample :
  goheap (world1 engine_ok) !! 1%positive = Some listening /\
  snd (tox_get_savedata_size oversized (handle listening)
         (engine (world1 engine_ok)))
  = Z.to_nat 9223372036854775808 /\
  (exists w',
     Serialize (rt := go_linux_amd64) oversized 1 (world1 engine_ok)
     = Panics makeslice_len_out_of_range w') /\
  ~ fetches_exactly (Serialize (rt := go_linux_amd64) oversized 1)
      (Z.to_nat 9223372036854775808) (world1 engine_ok).
Proof.
  assert (Hlive : goheap (world1 engine_ok) !! 1%positive = Some listening)
    by reflexivity.
  assert (Hpast : fits (H := go_linux_amd64) 1
                    (Z.to_nat 9223372036854775808) = false).
  { apply fits_int; [lia|]. rewrite Z2Nat.id by lia. reflexivity. }
  destruct (Serialize_fetches (rt := go_linux_amd64) oversized 1 listening
              (world1 engine_ok) Hlive) as [_ Hpanics].
  destruct (Hpanics Hpast) as [w' Hrun].
  split; [exact Hlive|]. split; [reflexivity|]. split.
  - exists w'. exact Hrun.
  - intros (data & w'' & Hreturns & _).
    rewrite Hrun in Hreturns. discriminate Hreturns.
Qed.

(** The engine reports a size of 3 (the name "bob"), then of 0. *)
Lemma C6_witness :
  goheap (world1 engine_ok) !! 1%positive = Some listening /\
  fits 1 3 = true /\
  fetches_exactly (Serialize scripted 1) 3 (world1 engine_ok) /\
  fetches_exactly (GetName scripted 1) 3 (world1 engine_ok) /\
  fetches_exactly (GetStatusMessage scripted 1) 3 (world1 engine_ok).
Proof.
  assert (Hlive : goheap (world1 engine_ok) !! 1%positive = Some listening)
    by reflexivity.
  assert (Hfits : fits 1 3 = true) by reflexivity.
  split; [exact Hlive|]. split; [exact Hfits|].
  destruct (C6_fetch_buffer_has_reported_size_within_limit scripted 1
              listening (world1 engine_ok) Hlive)
    as ([Hsave _] & [Hname _] & [Hmessage _]).
  split; [exact (Hsave Hfits)|]. split; [exact (Hname Hfits)|].
  exact (Hmessage Hfits).
Defined.

Lemma GetName_of_size_zero :
  exists w', GetName scripted 1 (world1 engine_refusing)
             = Returns (Some []) w'.
Proof. eexists. vm_compute. reflexivity. Qed.

(** Registering another handler for friend messages over [saw_message]. *)
Lemma C7_witness :
  goheap (world1 engine_ok) !! 1%positive = Some listening /\
  replaced_by scripted (SetOnFriendMessage scripted) onFriendMessage
    friend_message 1 (world1 engine_ok) (Some saw_message)
    (Some (fun _ _ _ _ => saw_other)).
Proof.
  assert (Hlive : goheap (world1 engine_ok) !! 1%positive = Some listening)
    by reflexivity.
  split; [exact Hlive|].
  apply (C7_registering_again_replaces scripted 1 listening
           (world1 engine_ok) Hlive).
Defined.

(** With handlers that are closures the registration panics in cgo's
    check, after the handler is stored and before the engine is called. *)
Lemma registering_a_closure_panics :
  exists w',
    SetOnFriendMessage (rt := go_with_closures) scripted 1
      (Some (fun _ _ _ _ => saw_other)) (world1 engine_ok)
    = Panics cgo_check_error w' /\
    registered onFriendMessage 1 w' = Some (fun _ _ _ _ => saw_other) /\
    log w' = [].
Proof. eexists. split; [reflexivity|]. split; reflexivity. Qed.

(** A key of nine characters. *)
Lemma C8_witness :
  (~ valid_hex (PublicKey seed_bad_key) \/
   exists key,
     hex_DecodeString (PublicKey seed_bad_key) = (Some key, None) /\
     length key <> ToxPublicKeySize (H := toxcore_header)) /\
  exists err w' p n,
    Bootstrap (hdr := toxcore_header) scripted 1 seed_bad_key
      (world1 engine_ok)
    = Returns (Some err) w' /\
    ~ In err bootstrap_errors /\
    log w' = log (world1 engine_ok)
             ++ [Cgo (call_malloc p n); Cgo (call_free (Some p))] /\
    engine w' = engine (world1 engine_ok).
Proof.
  assert (Hbad : ~ valid_hex (PublicKey seed_bad_key) \/
                 exists key,
                   hex_DecodeString (PublicKey seed_bad_key)
                   = (Some key, None) /\
                   length key <> ToxPublicKeySize (H := toxcore_header)).
  { left. intros [[n Hn] _]. cbn in Hn. lia. }
  split; [exact Hbad|].
  exact (C8_bad_key_never_reaches_engine (hdr := toxcore_header) scripted 1
           seed_bad_key (world1 engine_ok) Hbad).
Defined.

(** A key that is hexadecimal but one byte short is refused as well, and
    the default seed node is let through to the engine. *)
Lemma Bootstrap_short_key :
  exists w',
    Bootstrap (hdr := toxcore_header) scripted 1
      {| Host := "h"; Port := 1; PublicKey := "A091" |} (world1 engine_ok)
    = Returns (Some (errors_New "invalid public key")) w'.
Proof. eexists. vm_compute. reflexivity. Qed.

Lemma Bootstrap_default_seed_node :
  exists w',
    Bootstrap (hdr := toxcore_header) scripted 1 DefaultSeedNode
      (world1 engine_ok)
    = Returns None w' /\
    In (Cgo call_tox_bootstrap) (log w').
Proof. eexists. split; [vm_compute; reflexivity|]. cbn. auto. Qed.

(** The size query of an engine without friends answers "friend not
    found". *)
Lemma C9_witness :
  (FriendGetName scripted 1 0 (world1 engine_refusing)
   = Returns (None, Some ToxErrFriendQueryFriendNotFound)
       (record call_tox_friend_get_name_size (world1 engine_refusing)) \/
   FriendGetStatusMessage scripted 1 0 (world1 engine_refusing)
   = Returns (None, Some ToxErrFriendQueryFriendNotFound)
       (record call_tox_friend_get_name_size (world1 engine_refusing))) /\
  Some ToxErrFriendQueryFriendNotFound <> None /\
  (None : slice) = None.
Proof.
  assert (Hrun : FriendGetName scripted 1 0 (world1 engine_refusing)
                 = Returns (None, Some ToxErrFriendQueryFriendNotFound)
                     (record call_tox_friend_get_name_size
                        (world1 engine_refusing)) \/
                 FriendGetStatusMessage scripted 1 0 (world1 engine_refusing)
                 = Returns (None, Some ToxErrFriendQueryFriendNotFound)
                     (record call_tox_friend_get_name_size
                        (world1 engine_refusing)))
    by (left; reflexivity).
  assert (Herr : Some ToxErrFriendQueryFriendNotFound <> None)
    by discriminate.
  split; [exact Hrun|]. split; [exact Herr|].
  exact (C9_error_means_nil_buffer scripted 1 0 (world1 engine_refusing)
           (record call_tox_friend_get_name_size (world1 engine_refusing))
           None (Some ToxErrFriendQueryFriendNotFound) Hrun Herr).
Defined.

(** The fetch fails after the size query succeeded: still nil. *)
Lemma FriendGetName_fetch_fails :
  let engine_then_refusing : ToxCore Script :=
    {| tox_new := tox_new scripted;
       tox_get_savedata_size := tox_get_savedata_size scripted;
       tox_get_savedata := tox_get_savedata scripted;
       tox_self_get_name_size := tox_self_get_name_size scripted;
       tox_self_get_name := tox_self_get_name scripted;
       tox_self_get_status_message_size :=
         tox_self_get_status_message_size scripted;
       tox_self_get_status_message := tox_self_get_status_message scripted;
       tox_friend_get_name_size := fun _ _ e => (e, (3%nat, 0));
       tox_friend_get_name :=
         fun _ _ _ e => (e, (list_ascii_of_string "bo", 2));
       tox_friend_get_status_message_size :=
         tox_friend_get_status_message_size scripted;
       tox_friend_get_status_message :=
         tox_friend_get_status_message scripted;
       tox_friend_send_message := tox_friend_send_message scripted;
       tox_bootstrap := tox_bootstrap scripted;
       tox_callback := tox_callback scripted |} in
  exists w',
    FriendGetName (hdr := toxcore_header) engine_then_refusing 1 0
      (world1 engine_ok)
    = Returns (None, Some ToxErrFriendQueryFriendNotFound) w'.
Proof. eexists. vm_compute. reflexivity. Qed.

(** Message type 7 is not declared. *)
Lemma C10_witness :
  7 <> ToxMessageTypeAction /\
  FriendSendMessage (hdr := toxcore_header) scripted 1 0 7
    (Some (list_ascii_of_string "hi")) (world1 engine_ok)
  = FriendSendMessage (hdr := toxcore_header) scripted 1 0
      ToxMessageTypeNormal (Some (list_ascii_of_string "hi"))
      (world1 engine_ok).
Proof.
  assert (Hother : 7 <> ToxMessageTypeAction) by discriminate.
  split; [exact Hother|].
  exact (C10_message_type_defaults_to_normal (hdr := toxcore_header)
           scripted 1 0 7 (Some (list_ascii_of_string "hi"))
           (world1 engine_ok) Hother).
Defined.

(** * Further concrete runs *)

Lemma creation_codes_differ : NoDup (known_codes Creation).
Proof. apply (bool_decide_unpack _). vm_compute. reflexivity. Qed.

Lemma known_code_gets_its_own_error_witness :
  NoDup (known_codes Creation) /\
  classify Creation TOX_ERR_NEW_OK = None /\
  classify Creation TOX_ERR_NEW_PORT_ALLOC = Some ToxErrNewPortAlloc.
Proof.
  split; [exact creation_codes_differ|].
  destruct (known_code_gets_its_own_error Creation creation_codes_differ)
    as [Hok Hnamed].
  split; [exact Hok|].
  apply Hnamed. cbn. auto.
Defined.

Lemma known_codes_are_told_apart_witness :
  NoDup (known_codes Creation) /\
  In 3 (known_codes Creation) /\
  classify Creation 3 = classify Creation 3 /\
  3 = 3.
Proof.
  assert (Hin : In 3 (known_codes Creation)) by (cbn; auto).
  split; [exact creation_codes_differ|]. split; [exact Hin|].
  split; [reflexivity|].
  exact (known_codes_are_told_apart Creation 3 3 creation_codes_differ
           Hin Hin eq_refl).
Defined.

Lemma bad_proxy_is_not_declared :
  ~ declared_proxy_type (ProxyType options_bad_proxy).
Proof. cbn. intuition discriminate. Qed.

Lemma New_refuses_undeclared_proxy_type_witness :
  ~ declared_proxy_type (ProxyType options_bad_proxy) /\
  New scripted (Some options_bad_proxy) (world0 engine_ok)
  = Returns (None, Some (errors_New "unknown proxy type"))
      (world0 engine_ok).
Proof.
  split; [exact bad_proxy_is_not_declared|].
  exact (New_refuses_undeclared_proxy_type scripted options_bad_proxy
           (world0 engine_ok) bad_proxy_is_not_declared).
Defined.

Lemma default_key_is_hex : valid_hex (PublicKey DefaultSeedNode).
Proof.
  split; [exists 32%nat; reflexivity|].
  apply (proj1 (hex_Decode_loop_spec 32
                  (list_ascii_of_string (PublicKey DefaultSeedNode))
                  eq_refl)).
  vm_compute. reflexivity.
Qed.

Lemma world1_is_live (e : Script) :
  goheap (world1 e) !! 1%positive = Some listening.
Proof. reflexivity. Qed.

(** The default seed node, and an engine that answers "bad host" (2). *)
Lemma Bootstrap_with_good_key_asks_engine_witness :
  exists w',
    Bootstrap scripted 1 DefaultSeedNode (world1 engine_refusing)
    = Returns (Some ToxErrBootstrapBadHost) w' /\
    cheap w' = cheap (world1 engine_refusing).
Proof.
  destruct (Bootstrap_with_good_key_asks_engine (hdr := toxcore_header)
              scripted 1 listening
              DefaultSeedNode (world1 engine_refusing)
              (world1_is_live engine_refusing) default_key_is_hex eq_refl)
    as (key & p & w' & _ & _ & _ & Hrun & _ & Hcheap & _).
  exists w'. split; [exact Hrun|exact Hcheap].
Defined.

Lemma registration_keeps_other_slots_witness :
  goheap (world1 engine_ok) !! 1%positive = Some listening /\
  registers scripted (SetOnFriendName scripted) onFriendName friend_name 1
    listening (world1 engine_ok).
Proof.
  split; [exact (world1_is_live engine_ok)|].
  apply (registration_keeps_other_slots scripted 1 listening
           (world1 engine_ok) (world1_is_live engine_ok)).
Defined.

Lemma nil_handler_panics_on_event_witness :
  goheap (world1 engine_ok) !! 1%positive = Some listening /\
  holds_go_pointer listening = false /\
  exists w1,
    SetOnFriendName scripted 1 None (world1 engine_ok) = Returns tt w1 /\
    callback_friend_name 5 (list_ascii_of_string "bob") 1 w1
    = Panics nil_dereference w1.
Proof.
  assert (Hclean : holds_go_pointer listening = false) by reflexivity.
  split; [exact (world1_is_live engine_ok)|]. split; [exact Hclean|].
  destruct (nil_handler_panics_on_event scripted 1 listening
              (world1 engine_ok) (world1_is_live engine_ok) Hclean)
    as ((w1 & Hset & _ & Hpanics) & _).
  exists w1. split; [exact Hset|apply Hpanics].
Defined.

Lemma nul_host_is_declared :
  declared_proxy_type (ProxyType options_nul_host).
Proof. cbn. auto. Qed.

(** The host "a\000b" comes back as "a". *)
Lemma roundtrip_cuts_host_at_NUL_witness :
  declared_proxy_type (ProxyType options_nul_host) /\
  as_C_string (ProxyHost options_nul_host) = "a"%string /\
  exists w',
    roundtrip options_nul_host (world0 engine_ok)
    = Returns
        (Some {| IPv6Enabled := true; UDPEnabled := true;
                 ProxyType := ToxProxyTypeNone;
                 ProxyHost := as_C_string (ProxyHost options_nul_host);
                 ProxyPort := 0; StartPort := 0; EndPort := 0; TCPPort := 0;
                 SaveData := Some [] |}, None) w'.
Proof.
  split; [exact nul_host_is_declared|]. split; [reflexivity|].
  exact (roundtrip_cuts_host_at_NUL options_nul_host (world0 engine_ok)
           nul_host_is_declared).
Defined.

Lemma DefaultOptions_of_empty_defaults_witness :
  exists r,
    DefaultOptions scripted_more (world0 engine_ok)
    = Returns (Some r, None) (world0 engine_ok) /\
    ProxyHost r = ""%string /\
    SaveData r = Some [].
Proof.
  eexists. split.
  - exact (DefaultOptions_of_empty_defaults scripted_more (world0 engine_ok)
             engine_ok (snd (tox_options_default scripted_more engine_ok))
             ToxProxyTypeNone eq_refl (or_introl eq_refl) eq_refl eq_refl).
  - split; reflexivity.
Defined.

Lemma friend_query_success_has_reported_size_witness :
  exists data,
    Some (list_ascii_of_string "bob") = Some data /\ length data = 3%nat.
Proof.
  apply (friend_query_success_has_reported_size scripted 1 listening 0
           (world1 engine_ok)
           (record call_tox_friend_get_name
              (record call_tox_friend_get_name_size (world1 engine_ok)))
           (Some (list_ascii_of_string "bob")) 3
           (world1_is_live engine_ok)).
  left. split; reflexivity.
Defined.

(** The engine answers "too long" (2) and the all-ones friend number. *)
Lemma error_means_zero_number_witness :
  FriendAdd scripted_more 1 [] None (world1 engine_refusing)
  = Returns (0, Some ToxErrFriendAddTooLong) (world1 engine_refusing) /\
  0 = 0.
Proof.
  assert (Hrun : FriendAdd scripted_more 1 [] None (world1 engine_refusing)
                 = Returns (0, Some ToxErrFriendAddTooLong)
                     (world1 engine_refusing)) by reflexivity.
  split; [exact Hrun|].
  apply (error_means_zero_number scripted scripted_more 1 0 0 [] [] None
           (world1 engine_refusing) (world1 engine_refusing) 0
           (Some ToxErrFriendAddTooLong)); [left; exact Hrun|discriminate].
Defined.

(** The engine answers 99 for the status: the binding reports "none". *)
Lemma status_queries_return_declared_values_witness :
  goheap (world1 engine_skewed) !! 1%positive = Some listening /\
  exists w',
    GetStatus scripted_more 1 (world1 engine_skewed)
    = Returns ToxUserStatusNone w'.
Proof.
  split; [exact (world1_is_live engine_skewed)|].
  destruct (status_queries_return_declared_values scripted_more 1 listening
              0 (world1 engine_skewed) (world1_is_live engine_skewed))
    as ((s & w' & Hrun & (_ & _ & Hnone) & _) & _).
  exists w'. rewrite Hrun. f_equal. apply Hnone; discriminate.
Defined.

Lemma remembering_keeps_status : keeps_status remembering_more.
Proof. intros h c e. reflexivity. Qed.

Lemma remembering_keeps_name :
  keeps_what_is_set TOX_ERR_SET_INFO_OK (tox_self_set_name remembering_more)
    (tox_self_get_name_size remembering) (tox_self_get_name remembering)
    name_held.
Proof. repeat split. Qed.

(** A status of 7 is set: "none" comes back. *)
Lemma status_survives_set_and_get_witness :
  goheap (world_named []) !! 1%positive = Some listening /\
  keeps_status remembering_more /\
  exists w1 w2,
    SetStatus remembering_more 1 7 (world_named []) = Returns tt w1 /\
    GetStatus remembering_more 1 w1 = Returns ToxUserStatusNone w2.
Proof.
  split; [reflexivity|]. split; [exact remembering_keeps_status|].
  exact (status_survives_set_and_get remembering_more 1 listening 7
           (world_named []) eq_refl remembering_keeps_status).
Defined.

Lemma name_survives_set_and_get_witness :
  goheap (world_named []) !! 1%positive = Some listening /\
  fits 1 (len (Some (list_ascii_of_string "bob"))) = true /\
  SetName remembering_more 1 (Some (list_ascii_of_string "bob"))
    (world_named [])
  = Returns None (world_named (list_ascii_of_string "bob")) /\
  exists w2,
    GetName remembering 1 (world_named (list_ascii_of_string "bob"))
    = Returns (Some (list_ascii_of_string "bob")) w2.
Proof.
  assert (Hfits : fits 1 (len (Some (list_ascii_of_string "bob"))) = true)
    by reflexivity.
  split; [reflexivity|]. split; [exact Hfits|]. split; [reflexivity|].
  apply (name_survives_set_and_get remembering remembering_more 1 listening
           (Some (list_ascii_of_string "bob")) name_held (world_named [])
           (world_named (list_ascii_of_string "bob")) eq_refl Hfits).
  split; [exact remembering_keeps_name|reflexivity].
Defined.

Lemma GetFriendList_has_reported_size_witness :
  goheap (world1 engine_ok) !! 1%positive = Some listening /\
  exists friendList w',
    GetFriendList scripted_more 1 (world1 engine_ok)
    = Returns (Some friendList) w' /\
    length friendList = 3%nat.
Proof.
  split; [exact (world1_is_live engine_ok)|].
  destruct (GetFriendList_has_reported_size scripted_more 1 listening
              (world1 engine_ok) (world1_is_live engine_ok))
    as [Hwithin _].
  destruct (Hwithin eq_refl) as (friendList & w' & Hrun & Hlength & _).
  exists friendList, w'. split; [exact Hrun|exact Hlength].
Defined.

Lemma ProcessDelay_does_not_overflow_witness :
  goheap (world1 engine_ok) !! 1%positive = Some listening /\
  exists delay w',
    ProcessDelay scripted_more 1 (world1 engine_ok) = Returns delay w' /\
    delay = 50 * 1000000 /\
    0 <= delay <= 4294967295 * 1000000.
Proof.
  split; [exact (world1_is_live engine_ok)|].
  exact (ProcessDelay_does_not_overflow scripted_more 1 listening
           (world1 engine_ok) (world1_is_live engine_ok)).
Defined.

Lemma socks_is_declared : declared_proxy_type (ProxyType options_socks).
Proof. cbn. auto. Qed.

(** The test passes on a host without NUL and fails on [options_nul_host]. *)
Lemma TestConvertOptions_outcome_witness :
  declared_proxy_type (ProxyType options_socks) /\
  declared_proxy_type (ProxyType options_nul_host) /\
  (exists w',
     TestConvertOptions options_socks (world0 engine_ok) = Returns None w' /\
     cheap w' = cheap (world0 engine_ok)) /\
  (exists w',
     TestConvertOptions options_nul_host (world0 engine_ok)
     = Returns (Some "Failed to convert Tox startup options. Proxy host option does not match."%string) w' /\
     cheap w' = cheap (world0 engine_ok)).
Proof.
  split; [exact socks_is_declared|]. split; [exact nul_host_is_declared|].
  split.
  - exact (TestConvertOptions_outcome options_socks (world0 engine_ok)
             socks_is_declared).
  - exact (TestConvertOptions_outcome options_nul_host (world0 engine_ok)
             nul_host_is_declared).
Defined.

(** The engine stores the three bytes "bob" and reports a failure. *)
Lemma FriendGetPublicKey_has_key_size_witness :
  goheap (world1 engine_ok) !! 1%positive = Some listening /\
  exists publicKey w',
    FriendGetPublicKey scripted_more 1 0 (world1 engine_ok)
    = Returns (publicKey, None) w' /\
    Some publicKey
    = fill (make 32) (list_ascii_of_string "bob") /\
    length publicKey = 32%nat.
Proof.
  split; [exact (world1_is_live engine_ok)|].
  exact (FriendGetPublicKey_has_key_size scripted_more 1 listening 0
           (world1 engine_ok) (world1_is_live engine_ok)).
Defined.

Lemma nil_exactly_when_engine_says_OK_witness :
  goheap (world1 engine_refusing) !! 1%positive = Some listening /\
  exists throw w',
    FriendDelete scripted_more 1 0 (world1 engine_refusing)
    = Returns throw w' /\
    (throw = None <-> 2 = 0).
Proof.
  split; [exact (world1_is_live engine_refusing)|].
  destruct (nil_exactly_when_engine_says_OK scripted_more 1 listening 0 None
              (world1 engine_refusing) (world1_is_live engine_refusing))
    as (_ & _ & Hdelete & _).
  exact Hdelete.
Defined.
